(** * The channel-multiplexing WebSocket client of the Slack Clone Python SDK

    Shallow embedding of [WebSocketClient]
    (slack_clone/docs/tools/python-client.py, lines 396-595) and the
    properties of its connect / disconnect / join / leave / send /
    receive paths.

    Modelling conventions.
    - The client object [self] is a record; the collaborators it talks to
      (the [websockets] transport, [time.time], [logging], the user's
      handlers) live next to it in a [world], and every coroutine of the
      class is a function in a state-and-exception monad over that world.
    - [self.channels] is an insertion-ordered Python dict that
      [_handle_message] scans linearly, so it is an association list;
      [callbacks] and [self.event_handlers] are only ever looked up by
      key, so they are [gmap]s.
    - The exceptions of the model are instances of Python's [Exception],
      the class every [except Exception] clause of the source names.
      Cancellation of the receive task is recorded on the task itself.
    - A handler is user code: it is given by a name (to recognise it in
      the invocation trace) and by what it does with a payload, return or
      raise.  Handlers do not reach back into the client. *)

From Stdlib Require Import ZArith Ascii String List Bool.
From stdpp Require Import gmap strings pretty.

Open Scope string_scope.
Open Scope list_scope.

(** ** Exceptions *)

Inductive exn_class :=
| ConnectionClosed       (* websockets.exceptions.ConnectionClosed *)
| WebSocketException     (* any other websockets.exceptions.WebSocketException *)
| SlackCloneError        (* the SDK's own base error *)
| JSONDecodeError        (* json.loads on a malformed text *)
| TypeError
| AttributeError
| KeyError
| OtherException.        (* any other subclass of Exception *)

Record exn := Exn { exn_type : exn_class; str : string }.

(** [isinstance(e, ConnectionClosed)] *)
Definition is_ConnectionClosed (e : exn) : bool :=
  match exn_type e with ConnectionClosed => true | _ => false end.

(** [isinstance(e, WebSocketException)]; [ConnectionClosed] derives from it. *)
Definition is_WebSocketException (e : exn) : bool :=
  match exn_type e with
  | ConnectionClosed | WebSocketException => true
  | _ => false
  end.

(** The three failures the client signals itself.  The source raises its
    base class [SlackCloneError] for each of them and tells them apart by
    the message; the specification calls them [NotConnectedError],
    [NotJoinedError] and [ConnectionError]. *)
Definition NotConnectedError : exn :=
  Exn SlackCloneError "WebSocket not connected".
Definition NotJoinedError (channel_id : string) : exn :=
  Exn SlackCloneError ("Not joined to channel: " +:+ channel_id).
Definition ConnectionError (cause : exn) : exn :=
  Exn SlackCloneError ("WebSocket connection failed: " +:+ str cause).

(** ** JSON values, as [json.loads] produces them

    An object is the list of its members; [json.loads] keeps one value
    per key, so the keys of a decoded object are distinct. *)

#[local] Set Warnings "-register-all".

Inductive json :=
| JNull
| JBool (b : bool)
| JInt (n : Z)
| JFloat (literal : string)
| JStr (s : string)
| JArr (items : list json)
| JObj (fields : list (string * json)).

(** [message.get(key, default)] on a parsed object. *)
Fixpoint get (fields : list (string * json)) (key : string) (default : json) : json :=
  match fields with
  | [] => default
  | (k, v) :: rest => if String.eqb k key then v else get rest key default
  end.

(** Lists and dicts are unhashable: using one as a dict key raises. *)
Definition hashable (j : json) : bool :=
  match j with
  | JArr _ | JObj _ => false
  | _ => true
  end.

(** ** Handlers *)

Record handler := Handler {
  h_name : string;
  h_body : json -> option exn      (* [None]: returns; [Some e]: raises e *)
}.

(** ** The client object *)

Record channel_info := ChannelInfo {
  topic : string;
  callbacks : gmap string handler
}.

Inductive task :=
| TaskPending        (* the receive loop is running or awaiting a frame *)
| TaskDone           (* the coroutine returned *)
| TaskCancelled.     (* the task ended by cancellation *)

Record WebSocketClient := Client {
  url : string;
  websocket : option string;      (* the open transport, named by its URI *)
  channels : list (string * channel_info);
  event_handlers : gmap string (list handler);
  connected : bool;
  _listen_task : option task
}.

(** [WebSocketClient.__init__] *)
Definition __init__ (url : string) : WebSocketClient :=
  {| url := url; websocket := None; channels := [];
     event_handlers := ∅; connected := false; _listen_task := None |}.

(** *** The insertion-ordered dict [self.channels]

    The entries in insertion order.  The keys of a dict are distinct, and
    the operations keep them so ([NoDup_keys_set], [NoDup_keys_del]). *)

Section Dict.
Context {V : Type}.

(** [key in d] *)
Fixpoint dict_in (key : string) (d : list (string * V)) : bool :=
  match d with
  | [] => false
  | (k, _) :: rest => String.eqb k key || dict_in key rest
  end.

(** [d[key]] *)
Fixpoint dict_get (key : string) (d : list (string * V)) : option V :=
  match d with
  | [] => None
  | (k, v) :: rest => if String.eqb k key then Some v else dict_get key rest
  end.

(** [d[key] = v]: an existing key keeps its position, a new one goes last. *)
Fixpoint dict_set (key : string) (v : V) (d : list (string * V)) : list (string * V) :=
  match d with
  | [] => [(key, v)]
  | (k, v') :: rest =>
      if String.eqb k key then (key, v) :: rest
      else (k, v') :: dict_set key v rest
  end.

(** [del d[key]] *)
Fixpoint dict_del (key : string) (d : list (string * V)) : list (string * V) :=
  match d with
  | [] => []
  | (k, v') :: rest =>
      if String.eqb k key then dict_del key rest
      else (k, v') :: dict_del key rest
  end.
End Dict.

(** ** The world around the client

    What the transport, the clock and the handlers will do is not the
    client's to decide: the world carries it as scripts, consumed call by
    call.  A script that has run out stands for calls that succeed, a
    clock that has run out reads 0. *)

Record world := World {
  self : WebSocketClient;
  wire : list json;                    (* messages [websocket.send] delivered, oldest first *)
  closed : list string;                (* transports [close]d, oldest first *)
  calls : list (string * json);        (* handler invocations: name and payload *)
  log : list (string * string);        (* logger records: level and message *)
  clock : list Z;                      (* successive readings of [int(time.time() * 1000)] *)
  send_script : list (option exn);     (* fate of the successive [websocket.send] calls *)
  connect_script : list (option exn)   (* fate of the successive [websockets.connect] calls *)
}.

Definition with_self (c : WebSocketClient) (w : world) : world :=
  {| self := c; wire := wire w; closed := closed w; calls := calls w; log := log w;
     clock := clock w; send_script := send_script w; connect_script := connect_script w |}.

(** ** The monad: state over [world], with Python exceptions *)

Inductive result (A : Type) :=
| Ok (a : A)
| Raise (e : exn).
Arguments Ok {A} a.
Arguments Raise {A} e.

Definition M (A : Type) : Type := world -> result A * world.

Definition ret {A} (a : A) : M A := fun w => (Ok a, w).

Definition bind {A B} (m : M A) (k : A -> M B) : M B :=
  fun w =>
    match m w with
    | (Ok a, w') => k a w'
    | (Raise e, w') => (Raise e, w')
    end.

Definition raise {A} (e : exn) : M A := fun w => (Raise e, w).

(** [try: m  except Exception as e: h e] *)
Definition try_except {A} (m : M A) (h : exn -> M A) : M A :=
  fun w =>
    match m w with
    | (Ok a, w') => (Ok a, w')
    | (Raise e, w') => h e w'
    end.

Declare Scope py_scope.
Delimit Scope py_scope with py.
Notation "x <- m ;; k" := (bind m (fun x => k))
  (at level 100, m at next level, right associativity) : py_scope.
Notation "m ;; k" := (bind m (fun _ => k))
  (at level 100, right associativity) : py_scope.
Open Scope py_scope.

Definition get_self : M WebSocketClient := fun w => (Ok (self w), w).
Definition put_self (c : WebSocketClient) : M unit := fun w => (Ok tt, with_self c w).

(** [logger.info(msg)] and [logger.error(msg)] *)
Definition logger (level msg : string) : M unit :=
  fun w =>
    (Ok tt,
     {| self := self w; wire := wire w; closed := closed w; calls := calls w;
        log := log w ++ [(level, msg)];
        clock := clock w; send_script := send_script w; connect_script := connect_script w |}).

(** [int(time.time() * 1000)]: the next reading of the clock. *)
Definition time_ms : M Z :=
  fun w =>
    (Ok (hd 0%Z (clock w)),
     {| self := self w; wire := wire w; closed := closed w; calls := calls w; log := log w;
        clock := tl (clock w);
        send_script := send_script w; connect_script := connect_script w |}).

(** [await websockets.connect(uri)]: the transport, or the failure the
    script holds for this attempt. *)
Definition websockets_connect (uri : string) : M string :=
  fun w =>
    let w' := {| self := self w; wire := wire w; closed := closed w; calls := calls w;
                 log := log w; clock := clock w; send_script := send_script w;
                 connect_script := tl (connect_script w) |} in
    match connect_script w with
    | Some e :: _ => (Raise e, w')
    | _ => (Ok uri, w')
    end.

(** [await self.websocket.send(json.dumps(message))]: the message reaches
    the wire unless the script makes this call raise. *)
Definition websocket_send (message : json) : M unit :=
  fun w =>
    match send_script w with
    | Some e :: rest =>
        (Raise e,
         {| self := self w; wire := wire w; closed := closed w; calls := calls w;
            log := log w; clock := clock w; send_script := rest;
            connect_script := connect_script w |})
    | _ =>
        (Ok tt,
         {| self := self w; wire := wire w ++ [message]; closed := closed w; calls := calls w;
            log := log w; clock := clock w; send_script := tl (send_script w);
            connect_script := connect_script w |})
    end.

(** [await self.websocket.close()] *)
Definition websocket_close (ws : string) : M unit :=
  fun w =>
    (Ok tt,
     {| self := self w; wire := wire w; closed := closed w ++ [ws]; calls := calls w;
        log := log w; clock := clock w; send_script := send_script w;
        connect_script := connect_script w |}).

(** [await handler(payload)] *)
Definition await_handler (h : handler) (payload : json) : M unit :=
  fun w =>
    (match h_body h payload with None => Ok tt | Some e => Raise e end,
     {| self := self w; wire := wire w; closed := closed w;
        calls := calls w ++ [(h_name h, payload)];
        log := log w; clock := clock w; send_script := send_script w;
        connect_script := connect_script w |}).

(** Field assignments on [self]. *)
Definition set_websocket (ws : option string) (c : WebSocketClient) : WebSocketClient :=
  {| url := url c; websocket := ws; channels := channels c;
     event_handlers := event_handlers c; connected := connected c;
     _listen_task := _listen_task c |}.
Definition set_channels (d : list (string * channel_info)) (c : WebSocketClient) : WebSocketClient :=
  {| url := url c; websocket := websocket c; channels := d;
     event_handlers := event_handlers c; connected := connected c;
     _listen_task := _listen_task c |}.
Definition set_event_handlers (hs : gmap string (list handler)) (c : WebSocketClient) : WebSocketClient :=
  {| url := url c; websocket := websocket c; channels := channels c;
     event_handlers := hs; connected := connected c;
     _listen_task := _listen_task c |}.
Definition set_connected (b : bool) (c : WebSocketClient) : WebSocketClient :=
  {| url := url c; websocket := websocket c; channels := channels c;
     event_handlers := event_handlers c; connected := b;
     _listen_task := _listen_task c |}.
Definition set_listen_task (t : option task) (c : WebSocketClient) : WebSocketClient :=
  {| url := url c; websocket := websocket c; channels := channels c;
     event_handlers := event_handlers c; connected := connected c;
     _listen_task := t |}.

(** [self.f = v] *)
Definition assign (f : WebSocketClient -> WebSocketClient) : M unit :=
  c <- get_self ;; put_self (f c).

(** Truth value of an [Optional] object reference. *)
Definition truthy {A} (o : option A) : bool :=
  match o with Some _ => true | None => false end.

(** [ref = f"ref_{int(time.time() * 1000)}"] *)
Definition make_ref : M string :=
  now <- time_ms ;; ret ("ref_" +:+ pretty now).

(** The four-field message the client sends. *)
Definition envelope (topic event : string) (payload : json) (ref : string) : json :=
  JObj [("topic", JStr topic); ("event", JStr event);
        ("payload", payload); ("ref", JStr ref)].

(** ** [WebSocketClient.connect] *)
Definition connect (token : string) : M unit :=
  try_except
    (c <- get_self ;;
     let uri := url c +:+ "?token=" +:+ token in
     ws <- websockets_connect uri ;;
     assign (set_websocket (Some ws)) ;;
     assign (set_connected true) ;;
     (* asyncio.create_task(self._listen_for_messages()) *)
     assign (set_listen_task (Some TaskPending)) ;;
     logger "INFO" "WebSocket connected successfully")
    (fun e =>
       logger "ERROR" ("WebSocket connection failed: " +:+ str e) ;;
       raise (ConnectionError e)).

(** ** [WebSocketClient.disconnect]

    [cancel()] turns a pending task into a cancelled one and leaves a
    finished one alone; awaiting a cancelled task raises the cancellation
    signal, which the [except asyncio.CancelledError: pass] clause drops,
    and awaiting a task that returned yields its result at once. *)
Definition cancel (t : task) : task :=
  match t with
  | TaskPending => TaskCancelled
  | TaskDone => TaskDone
  | TaskCancelled => TaskCancelled
  end.

Definition disconnect : M unit :=
  assign (set_connected false) ;;
  c <- get_self ;;
  match _listen_task c with
  | Some t => assign (set_listen_task (Some (cancel t)))
  | None => ret tt
  end ;;
  c <- get_self ;;
  match websocket c with
  | Some ws => websocket_close ws ;; assign (set_websocket None)
  | None => ret tt
  end ;;
  assign (set_channels []) ;;
  logger "INFO" "WebSocket disconnected".

(** ** [WebSocketClient.join_channel] *)
Definition join_channel (channel_id : string) (cbs : option (gmap string handler)) : M unit :=
  c <- get_self ;;
  if negb (truthy (websocket c)) || negb (connected c) then raise NotConnectedError
  else
    let topic := "channel:" +:+ channel_id in
    ref <- make_ref ;;
    let join_message := envelope topic "phx_join" (JObj []) ref in
    websocket_send join_message ;;
    assign (fun c =>
      set_channels
        (dict_set channel_id {| topic := topic; callbacks := default ∅ cbs |} (channels c)) c) ;;
    logger "INFO" ("Joined channel: " +:+ channel_id).

(** [self.channels[channel_id]["topic"]] *)
Definition channel_topic (channel_id : string) : M string :=
  c <- get_self ;;
  match dict_get channel_id (channels c) with
  | Some info => ret (topic info)
  | None => raise (Exn KeyError channel_id)
  end.

(** [del self.channels[channel_id]] *)
Definition del_channel (channel_id : string) : M unit :=
  c <- get_self ;;
  if dict_in channel_id (channels c)
  then put_self (set_channels (dict_del channel_id (channels c)) c)
  else raise (Exn KeyError channel_id).

(** ** [WebSocketClient.leave_channel] *)
Definition leave_channel (channel_id : string) : M unit :=
  c <- get_self ;;
  if negb (dict_in channel_id (channels c)) then ret tt
  else
    (if truthy (websocket c) && connected c then
       topic <- channel_topic channel_id ;;
       ref <- make_ref ;;
       let leave_message := envelope topic "phx_leave" (JObj []) ref in
       websocket_send leave_message
     else ret tt) ;;
    del_channel channel_id ;;
    logger "INFO" ("Left channel: " +:+ channel_id).

(** ** [WebSocketClient._send_channel_event] *)
Definition _send_channel_event (channel_id event : string) (payload : json) : M unit :=
  c <- get_self ;;
  if negb (truthy (websocket c)) || negb (connected c) then raise NotConnectedError
  else if negb (dict_in channel_id (channels c)) then raise (NotJoinedError channel_id)
  else
    topic <- channel_topic channel_id ;;
    ref <- make_ref ;;
    let message := envelope topic event payload ref in
    websocket_send message.

(** ** The channel-scoped senders

    Each builds its payload (an argument, so evaluated before the call)
    and hands it to [_send_channel_event]. *)

(** [temp_id or str(int(time.time() * 1000))]: [None] and the empty string
    are false. *)
Definition temp_id_or_now (temp_id : option string) : M string :=
  match temp_id with
  | Some (String a s) => ret (String a s)
  | _ => now <- time_ms ;; ret (pretty now)
  end.

Definition send_message (channel_id content : string) (temp_id : option string) : M unit :=
  tid <- temp_id_or_now temp_id ;;
  _send_channel_event channel_id "send_message"
    (JObj [("content", JStr content); ("temp_id", JStr tid)]).

Definition edit_message (channel_id message_id content : string) : M unit :=
  _send_channel_event channel_id "edit_message"
    (JObj [("message_id", JStr message_id); ("content", JStr content)]).

Definition delete_message (channel_id message_id : string) : M unit :=
  _send_channel_event channel_id "delete_message"
    (JObj [("message_id", JStr message_id)]).

Definition start_typing (channel_id : string) : M unit :=
  _send_channel_event channel_id "typing_start" (JObj []).

Definition stop_typing (channel_id : string) : M unit :=
  _send_channel_event channel_id "typing_stop" (JObj []).

Definition add_reaction (channel_id message_id emoji : string) : M unit :=
  _send_channel_event channel_id "add_reaction"
    (JObj [("message_id", JStr message_id); ("emoji", JStr emoji)]).

Definition remove_reaction (channel_id reaction_id : string) : M unit :=
  _send_channel_event channel_id "remove_reaction"
    (JObj [("reaction_id", JStr reaction_id)]).

Definition mark_as_read (channel_id message_id : string) : M unit :=
  _send_channel_event channel_id "mark_read"
    (JObj [("message_id", JStr message_id)]).

Definition load_older_messages (channel_id before_id : string) : M unit :=
  _send_channel_event channel_id "load_older_messages"
    (JObj [("before_id", JStr before_id)]).

(** A call of one of the nine senders, with its arguments. *)
Inductive sender_call :=
| SendMessage (content : string) (temp_id : option string)
| EditMessage (message_id content : string)
| DeleteMessage (message_id : string)
| StartTyping
| StopTyping
| AddReaction (message_id emoji : string)
| RemoveReaction (reaction_id : string)
| MarkAsRead (message_id : string)
| LoadOlderMessages (before_id : string).

Definition run_sender (channel_id : string) (s : sender_call) : M unit :=
  match s with
  | SendMessage content temp_id => send_message channel_id content temp_id
  | EditMessage message_id content => edit_message channel_id message_id content
  | DeleteMessage message_id => delete_message channel_id message_id
  | StartTyping => start_typing channel_id
  | StopTyping => stop_typing channel_id
  | AddReaction message_id emoji => add_reaction channel_id message_id emoji
  | RemoveReaction reaction_id => remove_reaction channel_id reaction_id
  | MarkAsRead message_id => mark_as_read channel_id message_id
  | LoadOlderMessages before_id => load_older_messages channel_id before_id
  end.

(** ** [WebSocketClient._handle_message] *)

(** [channel_info["topic"] == topic]: the recorded topic is a string, so it
    equals the value in the frame only when that is the same string. *)
Definition topic_eq (recorded : string) (topic : json) : bool :=
  match topic with
  | JStr s => String.eqb recorded s
  | _ => false
  end.

(** The scan [for cid, channel_info in self.channels.items(): ... break]:
    the first channel id whose record carries the topic, or [None]. *)
Fixpoint find_channel (wanted : json) (d : list (string * channel_info)) : option string :=
  match d with
  | [] => None
  | (cid, channel_info) :: rest =>
      if topic_eq (topic channel_info) wanted then Some cid
      else find_channel wanted rest
  end.

(** [if channel_id:] is a truth test: [None] and the empty string fail it. *)
Definition truthy_id (channel_id : option string) : bool :=
  match channel_id with
  | Some (String _ _) => true
  | _ => false
  end.

(** Hashing a list or a dict raises. *)
Definition unhashable (key : json) : exn :=
  match key with
  | JObj _ => Exn TypeError "unhashable type: 'dict'"
  | _ => Exn TypeError "unhashable type: 'list'"
  end.

(** [key in d] followed by [d[key]], for a key taken from a frame: the
    membership test hashes the key first; a hashable value that is not a
    string is no key of a string-keyed dict. *)
Definition lookup_key {V} (key : json) (d : gmap string V) : M (option V) :=
  if hashable key then
    ret (match key with JStr s => d !! s | _ => None end)
  else raise (unhashable key).

(** [type(v).__name__] of a decoded value. *)
Definition type_name (v : json) : string :=
  match v with
  | JNull => "NoneType"
  | JBool _ => "bool"
  | JInt _ => "int"
  | JFloat _ => "float"
  | JStr _ => "str"
  | JArr _ => "list"
  | JObj _ => "dict"
  end.

(** The event as it appears in an f-string of a log message. *)
Definition event_text (event : json) : string :=
  match event with JStr s => s | _ => "" end.

(** [self.channels[channel_id]["callbacks"]] *)
Definition channel_callbacks (channel_id : string) : M (gmap string handler) :=
  c <- get_self ;;
  match dict_get channel_id (channels c) with
  | Some info => ret (callbacks info)
  | None => raise (Exn KeyError channel_id)
  end.

(** [for handler in handlers: try: await handler(payload) except Exception ...] *)
Fixpoint run_global_handlers (handlers : list handler) (event payload : json) : M unit :=
  match handlers with
  | [] => ret tt
  | h :: rest =>
      try_except (await_handler h payload)
        (fun e => logger "ERROR"
           ("Error in global handler for " +:+ event_text event +:+ ": " +:+ str e)) ;;
      run_global_handlers rest event payload
  end.

Definition _handle_message (message : json) : M unit :=
  match message with
  | JObj fields =>
      let topic := get fields "topic" (JStr "") in
      let event := get fields "event" (JStr "") in
      let payload := get fields "payload" (JObj []) in
      c <- get_self ;;
      let channel_id := find_channel topic (channels c) in
      (if truthy_id channel_id then
         cbs <- channel_callbacks (default "" channel_id) ;;
         cb <- lookup_key event cbs ;;
         match cb with
         | Some h =>
             try_except (await_handler h payload)
               (fun e => logger "ERROR"
                  ("Error in callback for " +:+ event_text event +:+ ": " +:+ str e))
         | None => ret tt
         end
       else ret tt) ;;
      c <- get_self ;;
      hs <- lookup_key event (event_handlers c) ;;
      match hs with
      | Some handlers => run_global_handlers handlers event payload
      | None => ret tt
      end
  | _ => raise (Exn AttributeError
                  ("'" +:+ type_name message +:+ "' object has no attribute 'get'"))
  end.

(** ** [WebSocketClient.on] *)
Definition on (event : string) (h : handler) : M unit :=
  c <- get_self ;;
  (if bool_decide (event_handlers c !! event = None)
   then assign (set_event_handlers (<[event := []]> (event_handlers c)))
   else ret tt) ;;
  assign (fun c =>
    set_event_handlers
      (<[event := default [] (event_handlers c !! event) ++ [h]]> (event_handlers c)) c).

(** ** [WebSocketClient._listen_for_messages]

    What [await self.websocket.recv()] yields is the transport's business:
    the loop is run against the list of its successive outcomes.  When the
    list is used up the next [recv] never completes and the coroutine
    stays suspended.  [json.loads] is the standard library's parser, a
    parameter here: [inl msg] stands for its raising [JSONDecodeError]
    with that message. *)

Inductive recv_outcome :=
| Frame (text : string)       (* a text frame arrived *)
| RecvRaises (e : exn).       (* [recv] raised *)

Inductive coroutine_state :=
| Awaiting        (* suspended in [recv] *)
| Returned.       (* the loop was left and the coroutine returned *)

Inductive flow := Continue | Break.

Section ReceiveLoop.
Variable json_loads : string -> string + json.

Definition websocket_recv (r : recv_outcome) : M string :=
  match r with
  | Frame text => ret text
  | RecvRaises e => raise e
  end.

Definition loads (text : string) : M json :=
  match json_loads text with
  | inr v => ret v
  | inl msg => raise (Exn JSONDecodeError msg)
  end.

(** One turn of the [while] body, with its three [except] clauses in
    the order of the source. *)
Definition listen_iteration (r : recv_outcome) : M flow :=
  try_except
    (message <- websocket_recv r ;;
     parsed <- loads message ;;
     _handle_message parsed ;;
     ret Continue)
    (fun e =>
       if is_ConnectionClosed e then
         logger "INFO" "WebSocket connection closed" ;;
         assign (set_connected false) ;;
         ret Break
       else if is_WebSocketException e then
         logger "ERROR" ("WebSocket error: " +:+ str e) ;;
         assign (set_connected false) ;;
         ret Break
       else
         logger "ERROR" ("Error handling message: " +:+ str e) ;;
         ret Continue).

Fixpoint _listen_for_messages (inbox : list recv_outcome) : M coroutine_state :=
  match inbox with
  | [] =>
      c <- get_self ;;
      if connected c && truthy (websocket c) then ret Awaiting else ret Returned
  | r :: rest =>
      c <- get_self ;;
      if connected c && truthy (websocket c) then
        f <- listen_iteration r ;;
        match f with
        | Continue => _listen_for_messages rest
        | Break => ret Returned
        end
      else ret Returned
  end.

(** The event loop running the task [connect] created: when the
    coroutine returns, the task is done. *)
Definition run_listen_task (inbox : list recv_outcome) : M unit :=
  c <- get_self ;;
  match _listen_task c with
  | Some TaskPending =>
      s <- _listen_for_messages inbox ;;
      match s with
      | Returned => assign (set_listen_task (Some TaskDone))
      | Awaiting => ret tt
      end
  | _ => ret tt
  end.
End ReceiveLoop.

(** * Vocabulary of the properties *)

(** The connection is active: the test every guarded operation makes,
    [self.websocket and self.connected]. *)
Definition active (c : WebSocketClient) : bool :=
  truthy (websocket c) && connected c.

(** The three fields [_handle_message] reads from a frame. *)
Definition frame_topic (fields : list (string * json)) : json := get fields "topic" (JStr "").
Definition frame_event (fields : list (string * json)) : json := get fields "event" (JStr "").
Definition frame_payload (fields : list (string * json)) : json := get fields "payload" (JObj []).

(** No subscription of the client records the topic. *)
Definition unsubscribed (c : WebSocketClient) (t : json) : Prop :=
  forall cid info, In (cid, info) (channels c) -> topic_eq (topic info) t = false.

(** The per-channel callback a frame is addressed to, if any: the one
    registered under the frame's event in the first subscription whose
    recorded topic is the frame's topic. *)
Definition addressed_callback (c : WebSocketClient) (fields : list (string * json)) : list handler :=
  match find_channel (frame_topic fields) (channels c) with
  | Some (String a s) =>
      match dict_get (String a s) (channels c), frame_event fields with
      | Some info, JStr e => option_list (callbacks info !! e)
      | _, _ => []
      end
  | _ => []
  end.

(** The global handlers registered under the frame's event, in
    registration order. *)
Definition global_handlers (c : WebSocketClient) (fields : list (string * json)) : list handler :=
  match frame_event fields with
  | JStr e => default [] (event_handlers c !! e)
  | _ => []
  end.

(** The trace a list of handlers leaves when each is invoked once, in
    order, with the payload. *)
Definition invocations (payload : json) (hs : list handler) : list (string * json) :=
  map (fun h => (h_name h, payload)) hs.

(** A world that differs from [w] at most in the invocation trace and the
    log: what a dispatch may change. *)
Definition dispatched (w w' : world) (trace : list (string * json)) : Prop :=
  self w' = self w /\ wire w' = wire w /\ closed w' = closed w /\
  clock w' = clock w /\ send_script w' = send_script w /\
  connect_script w' = connect_script w /\
  calls w' = calls w ++ trace.

(** The body of [_handle_message] read as two blocks in sequence: the
    dispatch to the addressed channel and the dispatch to the global
    handlers (see [_handle_message_blocks]). *)
Definition channel_block (fields : list (string * json)) : M unit :=
  c <- get_self ;;
  if truthy_id (find_channel (frame_topic fields) (channels c)) then
    cbs <- channel_callbacks (default "" (find_channel (frame_topic fields) (channels c))) ;;
    cb <- lookup_key (frame_event fields) cbs ;;
    match cb with
    | Some h =>
        try_except (await_handler h (frame_payload fields))
          (fun e => logger "ERROR"
             ("Error in callback for " +:+ event_text (frame_event fields) +:+ ": " +:+ str e))
    | None => ret tt
    end
  else ret tt.

Definition global_block (fields : list (string * json)) : M unit :=
  c <- get_self ;;
  hs <- lookup_key (frame_event fields) (event_handlers c) ;;
  match hs with
  | Some handlers => run_global_handlers handlers (frame_event fields) (frame_payload fields)
  | None => ret tt
  end.

(** A series of [on] calls, in program order. *)
Fixpoint register_all (regs : list (string * handler)) : M unit :=
  match regs with
  | [] => ret tt
  | (event, h) :: rest => on event h ;; register_all rest
  end.

(** The handlers a series of registrations puts under one event name. *)
Fixpoint registered (e : string) (regs : list (string * handler)) : list handler :=
  match regs with
  | [] => []
  | (event, h) :: rest =>
      if String.eqb event e then h :: registered e rest else registered e rest
  end.

(** [recv] raised a [ConnectionClosed] or another [WebSocketException]. *)
Definition transport_failure (r : recv_outcome) : bool :=
  match r with
  | Frame _ => false
  | RecvRaises e => is_WebSocketException e
  end.

(** The world after one more [logger.error] record. *)
Definition logged_error (msg : string) (w : world) : world :=
  snd (logger "ERROR" msg w).

(** A join or a leave call, with its arguments. *)
Inductive channel_op :=
| Join (channel_id : string) (cbs : option (gmap string handler))
| Leave (channel_id : string).

Definition run_op (op : channel_op) : M unit :=
  match op with
  | Join channel_id cbs => join_channel channel_id cbs
  | Leave channel_id => leave_channel channel_id
  end.

(** The caller makes the calls one after the other and sees how each one
    ends; a call that raises does not keep it from making the next. *)
Fixpoint run_ops (ops : list channel_op) (w : world) : list (result unit) * world :=
  match ops with
  | [] => ([], w)
  | op :: rest =>
      let (r, w1) := run_op op w in
      let (rs, w2) := run_ops rest w1 in
      (r :: rs, w2)
  end.

(** The topic a channel id stands for. *)
Definition topic_of (channel_id : string) : string := "channel:" +:+ channel_id.

(** The topics joined and not left since, read off the history of the
    calls and how they ended: a join that returned adds its topic, a leave
    that returned takes its topic away, a call that raised changes
    nothing. *)
Fixpoint live_topics (history : list (channel_op * result unit)) (live : gset string) : gset string :=
  match history with
  | [] => live
  | (Join channel_id _, Ok _) :: rest => live_topics rest ({[ topic_of channel_id ]} ∪ live)
  | (Leave channel_id, Ok _) :: rest => live_topics rest (live ∖ {[ topic_of channel_id ]})
  | (_, Raise _) :: rest => live_topics rest live
  end.

(** The topics of the subscription dict, by its keys. *)
Definition topics_of_dict (d : list (string * channel_info)) : gset string :=
  list_to_set (map topic_of (map fst d)).

(** The transport accepts every frame from now on. *)
Definition sends_succeed (w : world) : Prop :=
  Forall (fun fate => fate = None) (send_script w).

(** * Sample states and frames *)

(** A freshly constructed client in a quiet world. *)
Definition fresh_world : world :=
  {| self := __init__ "ws://localhost:4000/socket/websocket";
     wire := []; closed := []; calls := []; log := [];
     clock := []; send_script := []; connect_script := [] |}.

(** A connected client with no subscription yet. *)
Definition connected_world : world :=
  {| self := {| url := "ws://localhost:4000/socket/websocket";
                websocket := Some "ws://localhost:4000/socket/websocket?token=t";
                channels := [];
                event_handlers := ∅;
                connected := true;
                _listen_task := Some TaskPending |};
     wire := []; closed := []; calls := []; log := [];
     clock := [1700000000000; 1700000000007; 1700000000031; 1700000000040]%Z;
     send_script := []; connect_script := [] |}.

(** A connected client that joined ["c1"], on a transport whose next
    [send] fails because the peer has gone. *)
Definition joined_c1_send_fails : world :=
  {| self := {| url := "ws://localhost:4000/socket/websocket";
                websocket := Some "ws://localhost:4000/socket/websocket?token=t";
                channels := [("c1", {| topic := "channel:c1"; callbacks := ∅ |})];
                event_handlers := ∅; connected := true;
                _listen_task := Some TaskPending |};
     wire := []; closed := []; calls := []; log := [];
     clock := [1700000000000%Z];
     send_script := [Some (Exn ConnectionClosed "no close frame received or sent")];
     connect_script := [] |}.

(** A handler that returns and a handler that raises. *)
Definition quiet_handler (name : string) : handler :=
  {| h_name := name; h_body := fun _ => None |}.

Definition failing_handler (name : string) : handler :=
  {| h_name := name; h_body := fun _ => Some (Exn OtherException "boom") |}.

(** A connected client that registered a global handler for
    ["typing_start"] without having joined any channel. *)
Definition listening_world : world :=
  {| self := {| url := "ws://localhost:4000/socket/websocket";
                websocket := Some "ws://localhost:4000/socket/websocket?token=t";
                channels := [];
                event_handlers := {[ "typing_start" := [quiet_handler "on_typing"] ]};
                connected := true;
                _listen_task := Some TaskPending |};
     wire := []; closed := []; calls := []; log := [];
     clock := []; send_script := []; connect_script := [] |}.

(** A connected client that joined c1 with a callback for
    ["typing_start"] that raises, and registered two global handlers for
    the same event, the first of which raises too. *)
Definition busy_world : world :=
  {| self := {| url := "ws://localhost:4000/socket/websocket";
                websocket := Some "ws://localhost:4000/socket/websocket?token=t";
                channels :=
                  [("c1", {| topic := "channel:c1";
                             callbacks := {[ "typing_start" := failing_handler "cb" ]} |})];
                event_handlers :=
                  {[ "typing_start" := [failing_handler "first"; quiet_handler "second"] ]};
                connected := true;
                _listen_task := Some TaskPending |};
     wire := []; closed := []; calls := []; log := [];
     clock := []; send_script := []; connect_script := [] |}.

(** A typing notification for a channel nobody joined. *)
Definition typing_frame_zz : list (string * json) :=
  [("topic", JStr "channel:zz"); ("event", JStr "typing_start");
   ("payload", JObj [("user_name", JStr "ann")])].

(** Texts as they come off the wire, and a decoder that agrees with
    [json.loads] on them: the typing notification for channel c1, the
    empty array, and a text that is no JSON at all. *)
Definition quoted (s : string) : string :=
  String "034"%char s +:+ String "034"%char "".

Definition typing_text_c1 : string :=
  "{" +:+ quoted "topic" +:+ ": " +:+ quoted "channel:c1" +:+ ", " +:+
  quoted "event" +:+ ": " +:+ quoted "typing_start" +:+ ", " +:+
  quoted "payload" +:+ ": {}}".

Definition typing_frame_c1 : list (string * json) :=
  [("topic", JStr "channel:c1"); ("event", JStr "typing_start"); ("payload", JObj [])].

Definition sample_loads (text : string) : string + json :=
  if String.eqb text typing_text_c1 then inr (JObj typing_frame_c1)
  else if String.eqb text "[]" then inr (JArr [])
  else inl "Expecting value: line 1 column 1 (char 0)".

(** A series of calls: c1 and c2 are joined, c1 is joined again, c2 is
    left, and a channel never joined is left. *)
Definition sample_ops : list channel_op :=
  [Join "c1" None; Join "c2" None; Join "c1" None; Leave "c2"; Leave "zz"].

(** * Further vocabulary: the client as a whole *)

(** The subscription dict is well formed: the keys are distinct and every
    record carries the topic of its key. *)
Definition well_formed (c : WebSocketClient) : Prop :=
  NoDup (map fst (channels c)) /\
  Forall (fun entry => topic (snd entry) = topic_of (fst entry)) (channels c).

(** The connection flag is up only while a transport is held and the
    receive task is pending. *)
Definition flag_sound (c : WebSocketClient) : Prop :=
  connected c = true ->
  truthy (websocket c) = true /\ _listen_task c = Some TaskPending.

(** What can happen to a client: a call of one of its public methods, or
    the receive task being run against what the transport delivers. *)
Inductive client_call :=
| CallConnect (token : string)
| CallDisconnect
| CallJoin (channel_id : string) (cbs : option (gmap string handler))
| CallLeave (channel_id : string)
| CallSend (channel_id : string) (s : sender_call)
| CallOn (event : string) (h : handler)
| Deliver (inbox : list recv_outcome).

Definition run_call (json_loads : string -> string + json) (call : client_call) : M unit :=
  match call with
  | CallConnect token => connect token
  | CallDisconnect => disconnect
  | CallJoin channel_id cbs => join_channel channel_id cbs
  | CallLeave channel_id => leave_channel channel_id
  | CallSend channel_id s => run_sender channel_id s
  | CallOn event h => on event h
  | Deliver inbox => run_listen_task json_loads inbox
  end.

(** A history of such events; a call that raises does not stop the
    caller from making the next. *)
Fixpoint run_calls (json_loads : string -> string + json)
    (calls : list client_call) (w : world) : world :=
  match calls with
  | [] => w
  | call :: rest => run_calls json_loads rest (snd (run_call json_loads call w))
  end.

(** The event name each sender puts in its envelope. *)
Definition event_name (s : sender_call) : string :=
  match s with
  | SendMessage _ _ => "send_message"
  | EditMessage _ _ => "edit_message"
  | DeleteMessage _ => "delete_message"
  | StartTyping => "typing_start"
  | StopTyping => "typing_stop"
  | AddReaction _ _ => "add_reaction"
  | RemoveReaction _ => "remove_reaction"
  | MarkAsRead _ => "mark_read"
  | LoadOlderMessages _ => "load_older_messages"
  end.

(** The invocations one outcome of [recv] leads to: those of the frame's
    dispatch when it decodes to an object with a hashable event, none
    otherwise. *)
Definition delivered (json_loads : string -> string + json)
    (c : WebSocketClient) (r : recv_outcome) : list (string * json) :=
  match r with
  | Frame text =>
      match json_loads text with
      | inr (JObj fields) =>
          if hashable (frame_event fields)
          then invocations (frame_payload fields)
                 (addressed_callback c fields ++ global_handlers c fields)
          else []
      | _ => []
      end
  | RecvRaises _ => []
  end.

(** What the transport delivered before it first failed. *)
Fixpoint before_failure (inbox : list recv_outcome) : list recv_outcome :=
  match inbox with
  | [] => []
  | r :: rest => if transport_failure r then [] else r :: before_failure rest
  end.

(** Two histories of a client: one that ends connected and subscribed,
    and one that goes through a lost transport, a reconnection and a
    final disconnect. *)
Definition history_connected : list client_call :=
  [CallConnect "t"; CallJoin "c1" None; CallOn "typing_start" (quiet_handler "h");
   Deliver [Frame typing_text_c1; Frame "not json"]; CallSend "c1" StartTyping].

Definition history_reconnect : list client_call :=
  [CallConnect "t"; CallJoin "c1" None; CallJoin "c2" None;
   Deliver [Frame typing_text_c1;
            RecvRaises (Exn ConnectionClosed "no close frame received or sent")];
   CallLeave "c1"; CallConnect "t2"; CallJoin "c2" None; CallJoin "c3" None;
   CallSend "c3" (SendMessage "hi" None); CallDisconnect; CallJoin "c4" None].

(** A connected client that joined the empty channel id with a callback
    for ["new_message"] and registered a global handler for it, and a
    frame for the topic that join produced. *)
Definition deaf_world : world :=
  snd ((join_channel "" (Some {[ "new_message" := quiet_handler "cb" ]}) ;;
        on "new_message" (quiet_handler "global")) connected_world).

Definition new_message_frame_empty_id : list (string * json) :=
  [("topic", JStr "channel:"); ("event", JStr "new_message");
   ("payload", JObj [("content", JStr "hi")])].

(** A connected client that joined ["c1"], on a transport that works. *)
Definition joined_c1_quiet : world :=
  {| self := {| url := "ws://localhost:4000/socket/websocket";
                websocket := Some "ws://localhost:4000/socket/websocket?token=t";
                channels := [("c1", {| topic := "channel:c1"; callbacks := ∅ |})];
                event_handlers := ∅; connected := true;
                _listen_task := Some TaskPending |};
     wire := []; closed := []; calls := []; log := [];
     clock := [1700000000000; 1700000000005]%Z;
     send_script := []; connect_script := [] |}.

(** * The REST side of the SDK: [HTTPClient], [AuthService], [SlackCloneClient]

    The same file's HTTP client with its retry loop, the token service on
    top of it, and the facade that owns both next to the WebSocket
    client (python-client.py, lines 43-71, 207-393 and 598-624).

    - An exception is the class it was built from with the arguments of
      its constructor; [code_of], [status_of] and [details_of] are the
      attributes the [__init__] chain gives it.
    - What the server answers is not the client's to decide: [backend]
      gives the fate of the n-th call of [session.request] of a run.
    - The builtins applied to data that comes from outside ([str.upper],
      [int], the rendering of a non-string value in an f-string, the
      truth of a float) are parameters, kept in [builtins].
    - [retry_delay] is a float the code only multiplies by [2 ** attempt];
      the sleep log records that factor. *)

(** [isinstance(e, SlackCloneError)] for an exception of the WebSocket
    client. *)
Definition is_ws_SlackCloneError (e : exn) : bool :=
  match exn_type e with SlackCloneError => true | _ => false end.

(** [isinstance(e, ValueError)] for a builtin exception:
    [json.JSONDecodeError] derives from [ValueError]. *)
Definition is_JSONDecodeError (e : exn) : bool :=
  match exn_type e with JSONDecodeError => true | _ => false end.

Module REST.

(** ** Exceptions *)

Inductive error :=
| SlackCloneError (message code : json) (status : option Z) (details : json)
| AuthenticationError (message : json)
| TokenExpiredError (message : json)
| RateLimitError (message : json) (retry_after : Z)
| ValidationError (message : json) (details : json)
| ContentTypeError (msg : string)   (* aiohttp.ContentTypeError, a ClientError *)
| ClientError (msg : string)        (* any other aiohttp.ClientError *)
| TimeoutError                      (* asyncio.TimeoutError *)
| ValueError (msg : string)
| Py (e : exn).                     (* a builtin exception, or one of the WebSocket client *)

(** The attributes [SlackCloneError.__init__] sets, through the
    [super().__init__] call of each subclass.  [None] is [JNull]. *)
Definition code_of (e : error) : json :=
  match e with
  | SlackCloneError _ code _ _ => code
  | AuthenticationError _ => JStr "AUTHENTICATION_ERROR"
  | TokenExpiredError _ => JStr "TOKEN_EXPIRED"
  | RateLimitError _ _ => JStr "RATE_LIMIT_EXCEEDED"
  | ValidationError _ _ => JStr "VALIDATION_ERROR"
  | _ => JNull
  end.

Definition status_of (e : error) : option Z :=
  match e with
  | SlackCloneError _ _ status _ => status
  | AuthenticationError _ => Some 401%Z
  | TokenExpiredError _ => Some 401%Z
  | RateLimitError _ _ => Some 429%Z
  | ValidationError _ _ => Some 422%Z
  | _ => None
  end.

Definition details_of (e : error) : json :=
  match e with
  | SlackCloneError _ _ _ details => details
  | ValidationError _ details => details
  | _ => JNull
  end.

(** [isinstance(e, SlackCloneError)] *)
Definition is_SlackCloneError (e : error) : bool :=
  match e with
  | SlackCloneError _ _ _ _ | AuthenticationError _ | TokenExpiredError _
  | RateLimitError _ _ | ValidationError _ _ => true
  | Py e => is_ws_SlackCloneError e
  | _ => false
  end.

(** [isinstance(e, aiohttp.ClientError)] *)
Definition is_ClientError (e : error) : bool :=
  match e with ContentTypeError _ | ClientError _ => true | _ => false end.

Definition is_ContentTypeError (e : error) : bool :=
  match e with ContentTypeError _ => true | _ => false end.

Definition is_TimeoutError (e : error) : bool :=
  match e with TimeoutError => true | _ => false end.

Definition is_ValueError (e : error) : bool :=
  match e with
  | ValueError _ => true
  | Py e => is_JSONDecodeError e
  | _ => false
  end.

Definition is_TokenExpiredError (e : error) : bool :=
  match e with TokenExpiredError _ => true | _ => false end.

(** ** The builtins *)

Record builtins := Builtins {
  upper : string -> string;           (* [s.upper()] *)
  int : string -> string + Z;         (* [int(s)]; [inl msg]: [ValueError(msg)] *)
  repr : json -> string;              (* a value that is no string, in an f-string *)
  float_is_zero : string -> bool      (* whether a float literal denotes zero *)
}.

(** The truth value of a decoded value. *)
Definition truth (py : builtins) (v : json) : bool :=
  match v with
  | JNull => false
  | JBool b => b
  | JInt n => negb (n =? 0)%Z
  | JFloat literal => negb (float_is_zero py literal)
  | JStr s => negb (String.eqb s "")
  | JArr items => match items with [] => false | _ => true end
  | JObj fields => match fields with [] => false | _ => true end
  end.

(** [f"{v}"] *)
Definition fmt (py : builtins) (v : json) : string :=
  match v with
  | JStr s => s
  | _ => repr py v
  end.

(** [v == s] for a string [s] *)
Definition eq_str (v : json) (s : string) : bool :=
  match v with JStr s' => String.eqb s' s | _ => false end.

(** ** The objects *)

Inductive session_state := SessionOpen | SessionClosed.

Record HTTPClient := {
  base_url : string;
  timeout : Z;
  retry_attempts : Z;
  session : option session_state
}.

Record AuthService := {
  access_token : json;
  refresh_token : json
}.

(** The keyword arguments of one [session.request] call. *)
Record request_kwargs := Kwargs {
  kw_method : string;
  kw_url : string;
  kw_headers : gmap string string;
  kw_json : option (list (string * json));
  kw_params : option (list (string * json))
}.

(** [await response.json()] *)
Inductive json_result :=
| Body (v : json)
| BodyRaises (e : error).

Record response := Response {
  status : Z;
  reason : option string;
  headers : string -> option string;     (* [response.headers.get] *)
  body : json_result
}.

(** How one call of [session.request] ends. *)
Inductive attempt :=
| Responds (r : response)
| Refuses (e : error).

(** The facade, with what surrounds it. *)
Record state := State {
  http_client : HTTPClient;
  auth : AuthService;
  ws : world;                          (* [self.ws_client] and its world *)
  py : builtins;
  backend : nat -> attempt;            (* the fate of the n-th [session.request] *)
  requests : list request_kwargs;      (* the calls of [session.request], oldest first *)
  sleeps : list Z;                     (* [asyncio.sleep(retry_delay * f)]: the factors f *)
  sessions_opened : nat                (* [aiohttp.ClientSession] objects created *)
}.

(** ** The monad *)

Inductive outcome (A : Type) :=
| Returns (a : A)
| Raises (e : error).
Arguments Returns {A} a.
Arguments Raises {A} e.

Definition R (A : Type) : Type := state -> outcome A * state.

Definition pure {A} (a : A) : R A := fun s => (Returns a, s).

Definition and_then {A B} (m : R A) (k : A -> R B) : R B :=
  fun s =>
    match m s with
    | (Returns a, s') => k a s'
    | (Raises e, s') => (Raises e, s')
    end.

Definition throw {A} (e : error) : R A := fun s => (Raises e, s).

(** [try: m  except Exception as e: h e] *)
Definition catch {A} (m : R A) (h : error -> R A) : R A :=
  fun s =>
    match m s with
    | (Returns a, s') => (Returns a, s')
    | (Raises e, s') => h e s'
    end.

Declare Scope rest_scope.
Delimit Scope rest_scope with rest.
Notation "x <- m ;; k" := (and_then m (fun x => k))
  (at level 100, m at next level, right associativity) : rest_scope.
Notation "m ;; k" := (and_then m (fun _ => k))
  (at level 100, right associativity) : rest_scope.
#[local] Open Scope rest_scope.

Definition get_state : R state := fun s => (Returns s, s).

Definition set_http_client (h : HTTPClient) (s : state) : state :=
  {| http_client := h; auth := auth s; ws := ws s; py := py s; backend := backend s;
     requests := requests s; sleeps := sleeps s; sessions_opened := sessions_opened s |}.
Definition set_auth (a : AuthService) (s : state) : state :=
  {| http_client := http_client s; auth := a; ws := ws s; py := py s; backend := backend s;
     requests := requests s; sleeps := sleeps s; sessions_opened := sessions_opened s |}.
Definition set_ws (w : world) (s : state) : state :=
  {| http_client := http_client s; auth := auth s; ws := w; py := py s; backend := backend s;
     requests := requests s; sleeps := sleeps s; sessions_opened := sessions_opened s |}.

Definition modify (f : state -> state) : R unit := fun s => (Returns tt, f s).

(** A coroutine of the WebSocket client, run on [self.ws_client]. *)
Definition on_ws {A} (m : M A) : R A :=
  fun s =>
    match m (ws s) with
    | (Ok a, w') => (Returns a, set_ws w' s)
    | (Raise e, w') => (Raises (Py e), set_ws w' s)
    end.

(** [str(e)], as a log message shows the exception. *)
Definition str_of (py : builtins) (e : error) : string :=
  match e with
  | SlackCloneError message _ _ _ | AuthenticationError message
  | TokenExpiredError message | RateLimitError message _
  | ValidationError message _ => fmt py message
  | ContentTypeError msg | ClientError msg | ValueError msg => msg
  | TimeoutError => ""
  | Py e => str e
  end.

(** ** [HTTPClient] *)

(** [base_url.rstrip('/')] *)
Fixpoint rstrip_slash (s : string) : string :=
  match s with
  | EmptyString => EmptyString
  | String c rest =>
      match rstrip_slash rest with
      | EmptyString => if Ascii.eqb c "/"%char then EmptyString else String c EmptyString
      | stripped => String c stripped
      end
  end.

(** [HTTPClient.__init__] *)
Definition HTTPClient__init__ (base_url : string) (timeout retry_attempts : Z) : HTTPClient :=
  {| base_url := rstrip_slash base_url; timeout := timeout;
     retry_attempts := retry_attempts; session := None |}.

Definition set_session (x : option session_state) (h : HTTPClient) : HTTPClient :=
  {| base_url := base_url h; timeout := timeout h;
     retry_attempts := retry_attempts h; session := x |}.

(** [not self.session or self.session.closed] *)
Definition session_unusable (h : HTTPClient) : bool :=
  match session h with
  | None => true
  | Some SessionClosed => true
  | Some SessionOpen => false
  end.

(** [HTTPClient.start_session] *)
Definition start_session : R unit :=
  s <- get_state ;;
  if session_unusable (http_client s) then
    modify (fun s =>
      {| http_client := set_session (Some SessionOpen) (http_client s);
         auth := auth s; ws := ws s; py := py s; backend := backend s;
         requests := requests s; sleeps := sleeps s;
         sessions_opened := S (sessions_opened s) |})
  else pure tt.

(** [HTTPClient.close_session] *)
Definition close_session : R unit :=
  s <- get_state ;;
  if negb (session_unusable (http_client s)) then
    modify (fun s => set_http_client (set_session (Some SessionClosed) (http_client s)) s)
  else pure tt.

(** [HTTPClient._should_retry] *)
Definition _should_retry (error : error) : bool :=
  is_ClientError error ||
  is_TimeoutError error ||
  (is_SlackCloneError error &&
   match status_of error with
   | Some status => negb (status =? 0)%Z && (500 <=? status)%Z
   | None => false
   end).

(** [v.get(key, default)] on a value that should be a dict. *)
Definition py_get (v : json) (key : string) (default : json) : R json :=
  match v with
  | JObj fields => pure (get fields key default)
  | _ => throw (Py (Exn AttributeError
                       ("'" +:+ type_name v +:+ "' object has no attribute 'get'")))
  end.

Definition response_json (r : response) : R json :=
  match body r with
  | Body v => pure v
  | BodyRaises e => throw e
  end.

(** [f"HTTP {response.status}: {response.reason}"] *)
Definition status_line (r : response) : string :=
  "HTTP " +:+ pretty (status r) +:+ ": " +:+ default "None" (reason r).

(** [int(response.headers.get("Retry-After", "60"))]; [int("60")] is 60. *)
Definition retry_after_of (r : response) : R Z :=
  match headers r "Retry-After" with
  | None => pure 60%Z
  | Some text =>
      s <- get_state ;;
      match int (py s) text with
      | inr n => pure n
      | inl msg => throw (ValueError msg)
      end
  end.

(** [HTTPClient._handle_error_response] *)
Definition _handle_error_response (r : response) : R unit :=
  parts <-
    catch
      (error_data <- response_json r ;;
       error_info <- py_get error_data "error" (JObj []) ;;
       message <- py_get error_info "message" (JStr ("HTTP " +:+ pretty (status r))) ;;
       code <- py_get error_info "code" JNull ;;
       details <- py_get error_info "details" JNull ;;
       pure (message, code, details))
      (fun e =>
         if is_ContentTypeError e || is_ValueError e
         then pure (JStr (status_line r), JStr (pretty (status r)), JNull)
         else throw e) ;;
  let '(message, code, details) := parts in
  if (status r =? 401)%Z then
    if eq_str code "TOKEN_EXPIRED" then throw (TokenExpiredError message)
    else throw (AuthenticationError message)
  else if (status r =? 403)%Z then
    throw (SlackCloneError message code (Some (status r)) details)
  else if (status r =? 422)%Z then
    throw (ValidationError message details)
  else if (status r =? 429)%Z then
    retry_after <- retry_after_of r ;;
    throw (RateLimitError message retry_after)
  else
    throw (SlackCloneError message code (Some (status r)) details).

(** [if data:] for an optional dict *)
Definition some_data (data : option (list (string * json))) : bool :=
  match data with
  | Some (_ :: _) => true
  | _ => false
  end.

(** The [kwargs] dict of one attempt. *)
Definition make_kwargs (py : builtins) (method url : string)
    (request_headers : gmap string string) (data : option (list (string * json)))
    : request_kwargs :=
  let kwargs := {| kw_method := method; kw_url := url; kw_headers := request_headers;
                   kw_json := None; kw_params := None |} in
  if some_data data &&
     (String.eqb (upper py method) "POST" || String.eqb (upper py method) "PUT" ||
      String.eqb (upper py method) "PATCH")
  then {| kw_method := method; kw_url := url; kw_headers := request_headers;
          kw_json := data; kw_params := None |}
  else if String.eqb (upper py method) "GET" && some_data data
  then {| kw_method := method; kw_url := url; kw_headers := request_headers;
          kw_json := None; kw_params := data |}
  else kwargs.

(** [self.session.request] on the kwargs: the call is made and logged; how it
    ends is the backend's to say.  A session that is missing or closed
    cannot make the call. *)
Definition session_request (kwargs : request_kwargs) : R response :=
  s <- get_state ;;
  match session (http_client s) with
  | None =>
      throw (Py (Exn AttributeError "'NoneType' object has no attribute 'request'"))
  | Some SessionClosed => throw (Py (Exn OtherException "Session is closed"))
  | Some SessionOpen =>
      modify (fun s =>
        {| http_client := http_client s; auth := auth s; ws := ws s; py := py s;
           backend := backend s; requests := requests s ++ [kwargs];
           sleeps := sleeps s; sessions_opened := sessions_opened s |}) ;;
      match backend s (length (requests s)) with
      | Responds r => pure r
      | Refuses e => throw e
      end
  end.

(** [await asyncio.sleep(self.retry_delay * (2 ** attempt))] *)
Definition sleep (factor : Z) : R unit :=
  modify (fun s =>
    {| http_client := http_client s; auth := auth s; ws := ws s; py := py s;
       backend := backend s; requests := requests s;
       sleeps := sleeps s ++ [factor]; sessions_opened := sessions_opened s |}).

(** The body of the [try] of one attempt. *)
Definition attempt_once (method url : string) (request_headers : gmap string string)
    (data : option (list (string * json))) : R json :=
  s <- get_state ;;
  let kwargs := make_kwargs (py s) method url request_headers data in
  response <- session_request kwargs ;;
  (if (400 <=? status response)%Z then _handle_error_response response else pure tt) ;;
  catch (response_json response)
    (fun e => if is_ContentTypeError e then pure (JObj []) else throw e).

(** [raise last_error] *)
Definition raise_last (last_error : option error) : R json :=
  match last_error with
  | Some e => throw e
  | None => throw (Py (Exn TypeError "exceptions must derive from BaseException"))
  end.

(** The [for attempt in range(self.retry_attempts + 1)] loop, from
    [attempt] on, with [remaining] turns to go. *)
Fixpoint request_loop (method url : string) (request_headers : gmap string string)
    (data : option (list (string * json)))
    (attempt : Z) (remaining : nat) (last_error : option error) : R json :=
  match remaining with
  | O => raise_last last_error
  | S remaining' =>
      catch (attempt_once method url request_headers data)
        (fun error =>
           s <- get_state ;;
           if (attempt <? retry_attempts (http_client s))%Z && _should_retry error then
             sleep (2 ^ attempt) ;;
             request_loop method url request_headers data
               (attempt + 1) remaining' (Some error)
           else throw error)
  end.

(** [if headers:] for an optional dict of headers *)
Definition some_headers (headers : option (gmap string string)) : bool :=
  match headers with
  | Some h => negb (bool_decide (h = ∅))
  | None => false
  end.

(** [HTTPClient.request] *)
Definition request (method endpoint : string) (data : option (list (string * json)))
    (headers : option (gmap string string)) : R json :=
  start_session ;;
  s <- get_state ;;
  let url := base_url (http_client s) +:+ endpoint in
  let request_headers : gmap string string :=
    if some_headers headers
    then default ∅ headers ∪ {[ "Content-Type" := "application/json" ]}
    else {[ "Content-Type" := "application/json" ]} in
  request_loop method url request_headers data 0
    (Z.to_nat (retry_attempts (http_client s) + 1)) None.


(** ** [AuthService] *)

(** [v[key]] on a decoded value *)
Fixpoint find_key (fields : list (string * json)) (key : string) : option json :=
  match fields with
  | [] => None
  | (k, v) :: rest => if String.eqb k key then Some v else find_key rest key
  end.

Definition getitem (v : json) (key : string) : R json :=
  match v with
  | JObj fields =>
      match find_key fields key with
      | Some x => pure x
      | None => throw (Py (Exn KeyError ("'" +:+ key +:+ "'")))
      end
  | JArr _ => throw (Py (Exn TypeError "list indices must be integers or slices, not str"))
  | JStr _ => throw (Py (Exn TypeError "string indices must be integers"))
  | _ => throw (Py (Exn TypeError ("'" +:+ type_name v +:+ "' object is not subscriptable")))
  end.

Record User := { user_id : json; email : json }.

Record AuthTokens := {
  tokens_access_token : json;
  tokens_refresh_token : json;
  user : User
}.

Definition set_access_token (v : json) (a : AuthService) : AuthService :=
  {| access_token := v; refresh_token := refresh_token a |}.
Definition set_refresh_token (v : json) (a : AuthService) : AuthService :=
  {| access_token := access_token a; refresh_token := v |}.

(** [self.f = v] on the auth service *)
Definition assign_auth (f : AuthService -> AuthService) : R unit :=
  modify (fun s => set_auth (f (auth s)) s).

(** [AuthService.login] *)
Definition login (email password : string) : R AuthTokens :=
  response <- request "POST" "/api/auth/login"
                (Some [("email", JStr email); ("password", JStr password)]) None ;;
  tokens_data <- getitem response "data" ;;
  access <- getitem tokens_data "access_token" ;;
  refresh <- getitem tokens_data "refresh_token" ;;
  u1 <- getitem tokens_data "user" ;;
  id <- getitem u1 "id" ;;
  u2 <- getitem tokens_data "user" ;;
  mail <- getitem u2 "email" ;;
  let tokens := {| tokens_access_token := access; tokens_refresh_token := refresh;
                   user := {| user_id := id; email := mail |} |} in
  assign_auth (set_access_token (tokens_access_token tokens)) ;;
  assign_auth (set_refresh_token (tokens_refresh_token tokens)) ;;
  pure tokens.

(** [AuthService.refresh_access_token] *)
Definition refresh_access_token : R json :=
  s <- get_state ;;
  if negb (truth (py s) (refresh_token (auth s))) then
    throw (AuthenticationError (JStr "No refresh token available"))
  else
    response <- request "POST" "/api/auth/refresh"
                  (Some [("refresh_token", refresh_token (auth s))]) None ;;
    data <- getitem response "data" ;;
    access <- getitem data "access_token" ;;
    assign_auth (set_access_token access) ;;
    s <- get_state ;;
    pure (access_token (auth s)).

(** [{"Authorization": f"Bearer {self.access_token}"}] *)
Definition bearer (py : builtins) (token : json) : gmap string string :=
  {[ "Authorization" := "Bearer " +:+ fmt py token ]}.

(** [AuthService.logout] *)
Definition logout : R unit :=
  s <- get_state ;;
  (if truth (py s) (access_token (auth s)) then
     catch
       (request "POST" "/api/auth/logout" None
          (Some (bearer (py s) (access_token (auth s)))) ;;
        pure tt)
       (fun e =>
          s <- get_state ;;
          on_ws (logger "WARNING" ("Logout request failed: " +:+ str_of (py s) e)))
   else pure tt) ;;
  assign_auth (set_access_token JNull) ;;
  assign_auth (set_refresh_token JNull).

(** [AuthService.get_access_token] *)
Definition get_access_token : R json :=
  s <- get_state ;; pure (access_token (auth s)).

(** [AuthService.set_tokens] *)
Definition set_tokens (access refresh : json) : R unit :=
  assign_auth (set_access_token access) ;;
  assign_auth (set_refresh_token refresh).

(** [AuthService.is_authenticated]: [self.access_token is not None] *)
Definition is_authenticated : R bool :=
  s <- get_state ;;
  pure (match access_token (auth s) with JNull => false | _ => true end).

(** [AuthService.make_authenticated_request] *)
Definition make_authenticated_request (method endpoint : string)
    (data : option (list (string * json))) : R json :=
  s <- get_state ;;
  let headers : gmap string string :=
    if truth (py s) (access_token (auth s))
    then bearer (py s) (access_token (auth s)) else ∅ in
  catch (request method endpoint data (Some headers))
    (fun e =>
       if is_TokenExpiredError e then
         s <- get_state ;;
         if truth (py s) (refresh_token (auth s)) then
           catch
             (refresh_access_token ;;
              s <- get_state ;;
              let headers : gmap string string :=
                <[ "Authorization" := "Bearer " +:+ fmt (py s) (access_token (auth s)) ]>
                  headers in
              request method endpoint data (Some headers))
             (fun _ =>
                assign_auth (set_access_token JNull) ;;
                assign_auth (set_refresh_token JNull) ;;
                throw (AuthenticationError (JStr "Token refresh failed")))
         else throw e
       else throw e).

(** ** [SlackCloneClient] *)

(** [SlackCloneClient.__init__] *)
Definition SlackCloneClient__init__ (base_url ws_url : string) : HTTPClient * AuthService * WebSocketClient :=
  (HTTPClient__init__ base_url 30 3,
   {| access_token := JNull; refresh_token := JNull |},
   __init__ ws_url).

(** [SlackCloneClient.connect_websocket] *)
Definition connect_websocket : R unit :=
  token <- get_access_token ;;
  s <- get_state ;;
  if negb (truth (py s) token) then
    throw (AuthenticationError (JStr "No access token available for WebSocket"))
  else
    on_ws (connect (fmt (py s) token)).

(** [SlackCloneClient.close] *)
Definition close : R unit :=
  close_session ;;
  s <- get_state ;;
  if connected (self (ws s)) then on_ws disconnect else pure tt.


(** ** Vocabulary of the REST properties *)

(** The state once [session.request] has been called with [kwargs], and
    once the loop has slept. *)
Definition after_call (kwargs : request_kwargs) (s : state) : state :=
  {| http_client := http_client s; auth := auth s; ws := ws s; py := py s;
     backend := backend s; requests := requests s ++ [kwargs];
     sleeps := sleeps s; sessions_opened := sessions_opened s |}.

Definition after_sleep (factor : Z) (s : state) : state :=
  {| http_client := http_client s; auth := auth s; ws := ws s; py := py s;
     backend := backend s; requests := requests s;
     sleeps := sleeps s ++ [factor]; sessions_opened := sessions_opened s |}.

(** What an attempt comes to once [session.request] has ended. *)
Definition finish (r : response) : R json :=
  (if (400 <=? status r)%Z then _handle_error_response r else pure tt) ;;
  catch (response_json r)
    (fun e => if is_ContentTypeError e then pure (JObj []) else throw e).

Definition ending (a : attempt) : R json :=
  match a with
  | Responds r => finish r
  | Refuses e => throw e
  end.

Definition verdict (s : state) (a : attempt) : outcome json := fst (ending a s).

(** The body of the response can be read, or fails the way a body that is
    no JSON does. *)
Definition readable (r : response) : bool :=
  match body r with
  | Body _ => true
  | BodyRaises e => is_ContentTypeError e || is_ValueError e
  end.

(** The exception is one [_handle_error_response] builds from a status. *)
Definition built_from_status (e : error) : bool :=
  match e with
  | SlackCloneError _ _ _ _ | AuthenticationError _ | TokenExpiredError _
  | RateLimitError _ _ | ValidationError _ _ => true
  | _ => false
  end.

(** The two halves of [_handle_error_response]: what its [try] block
    extracts from the body, and the exception it picks for the status. *)
Definition error_parts (r : response) : R (json * json * json) :=
  catch
    (error_data <- response_json r ;;
     error_info <- py_get error_data "error" (JObj []) ;;
     message <- py_get error_info "message" (JStr ("HTTP " +:+ pretty (status r))) ;;
     code <- py_get error_info "code" JNull ;;
     details <- py_get error_info "details" JNull ;;
     pure (message, code, details))
    (fun e =>
       if is_ContentTypeError e || is_ValueError e
       then pure (JStr (status_line r), JStr (pretty (status r)), JNull)
       else throw e).

Definition raise_for_status (r : response) (parts : json * json * json) : R unit :=
  let '(message, code, details) := parts in
  if (status r =? 401)%Z then
    if eq_str code "TOKEN_EXPIRED" then throw (TokenExpiredError message)
    else throw (AuthenticationError message)
  else if (status r =? 403)%Z then
    throw (SlackCloneError message code (Some (status r)) details)
  else if (status r =? 422)%Z then
    throw (ValidationError message details)
  else if (status r =? 429)%Z then
    retry_after <- retry_after_of r ;;
    throw (RateLimitError message retry_after)
  else
    throw (SlackCloneError message code (Some (status r)) details).

(** The class [_handle_error_response] picks for a status and a code. *)
Inductive error_class :=
| IsSlackCloneError | IsAuthenticationError | IsTokenExpiredError
| IsRateLimitError | IsValidationError | IsOther.

Definition class_of (e : error) : error_class :=
  match e with
  | SlackCloneError _ _ _ _ => IsSlackCloneError
  | AuthenticationError _ => IsAuthenticationError
  | TokenExpiredError _ => IsTokenExpiredError
  | RateLimitError _ _ => IsRateLimitError
  | ValidationError _ _ => IsValidationError
  | _ => IsOther
  end.

(** The factors of [k] sleeps in a row, the first after attempt number
    [attempt]. *)
Definition backoff (attempt : Z) (k : nat) : list Z :=
  map (fun i => (2 ^ (attempt + Z.of_nat i))%Z) (seq 0 k).

(** The attempt fails in a way the loop retries. *)
Definition retryable (s : state) (a : attempt) : bool :=
  match verdict s a with
  | Raises e => _should_retry e
  | Returns _ => false
  end.

(** The state after [k + 1] calls with the same [kwargs], with the [k]
    sleeps between them. *)
Definition after_attempts (kwargs : request_kwargs) (attempt : Z) (k : nat) (s : state) : state :=
  {| http_client := http_client s; auth := auth s; ws := ws s; py := py s;
     backend := backend s; requests := requests s ++ repeat kwargs (S k);
     sleeps := sleeps s ++ backoff attempt k; sessions_opened := sessions_opened s |}.

(** The headers [request] sends: the caller's over the content type. *)
Definition request_headers_of (headers : option (gmap string string)) : gmap string string :=
  if some_headers headers
  then default ∅ headers ∪ {[ "Content-Type" := "application/json" ]}
  else {[ "Content-Type" := "application/json" ]}.

(** The [kwargs] of every attempt of one [request] call. *)
Definition kwargs_of (s : state) (method endpoint : string)
    (data : option (list (string * json))) (headers : option (gmap string string))
    : request_kwargs :=
  make_kwargs (py s) method (base_url (http_client s) +:+ endpoint)
    (request_headers_of headers) data.

(** A string of [n] slashes, and whether a string ends with one. *)
Fixpoint slashes (n : nat) : string :=
  match n with
  | O => EmptyString
  | S n' => String "/"%char (slashes n')
  end.

Fixpoint ends_with_slash (s : string) : bool :=
  match s with
  | EmptyString => false
  | String c EmptyString => Ascii.eqb c "/"%char
  | String _ rest => ends_with_slash rest
  end.

(** The two tokens are cleared. *)
Definition logged_out (a : AuthService) : Prop :=
  access_token a = JNull /\ refresh_token a = JNull.

(** The member [key] of a decoded object, when [v] is an object that has it. *)
Definition member (v : json) (key : string) : option json :=
  match v with
  | JObj fields => find_key fields key
  | _ => None
  end.

(** The headers [make_authenticated_request] starts from. *)
Definition auth_headers (s : state) : gmap string string :=
  if truth (py s) (access_token (auth s))
  then bearer (py s) (access_token (auth s)) else ∅.

(** The body of an error response is one the [try] block of
    [_handle_error_response] gets through: an object whose ["error"]
    member, when it has one, is an object, or a body that is no JSON. *)
Definition error_object (r : response) : bool :=
  match body r with
  | Body (JObj fields) =>
      match get fields "error" (JObj []) with
      | JObj _ => true
      | _ => false
      end
  | Body _ => false
  | BodyRaises e => is_ContentTypeError e || is_ValueError e
  end.

(** A failure of the transport, or a well-formed answer with a status of
    500 or more. *)
Definition transient (a : attempt) : bool :=
  match a with
  | Refuses e => is_ClientError e || is_TimeoutError e
  | Responds r => (500 <=? status r)%Z && error_object r
  end.

(** ** Sample builtins, answers and states

    The builtins on the texts the examples use: ASCII letters, plain
    decimal digits, and the rendering of the scalars. *)

Definition ascii_upper (c : ascii) : ascii :=
  let n := nat_of_ascii c in
  if (97 <=? n)%nat && (n <=? 122)%nat then ascii_of_nat (n - 32) else c.

Fixpoint string_upper (s : string) : string :=
  match s with
  | EmptyString => EmptyString
  | String c rest => String (ascii_upper c) (string_upper rest)
  end.

Fixpoint digits_value (s : string) (acc : Z) : option Z :=
  match s with
  | EmptyString => Some acc
  | String c rest =>
      let n := nat_of_ascii c in
      if (48 <=? n)%nat && (n <=? 57)%nat
      then digits_value rest (10 * acc + Z.of_nat (n - 48))%Z
      else None
  end.

Definition digits_int (s : string) : string + Z :=
  match s, digits_value s 0 with
  | String _ _, Some n => inr n
  | _, _ => inl ("invalid literal for int() with base 10: '" +:+ s +:+ "'")
  end.

Definition scalar_repr (v : json) : string :=
  match v with
  | JNull => "None"
  | JBool true => "True"
  | JBool false => "False"
  | JInt n => pretty n
  | JFloat literal => literal
  | JStr s => "'" +:+ s +:+ "'"
  | JArr _ => "[...]"
  | JObj _ => "{...}"
  end.

Definition sample_py : builtins :=
  {| upper := string_upper; int := digits_int; repr := scalar_repr;
     float_is_zero := fun literal => String.eqb literal "0.0" |}.

Definition no_headers : string -> option string := fun _ => None.

Definition json_response (status : Z) (reason : string) (v : json) : response :=
  {| status := status; reason := Some reason; headers := no_headers; body := Body v |}.

(** [{"error": {"message": message, "code": code}}] *)
Definition error_body (message code : string) : json :=
  JObj [("error", JObj [("message", JStr message); ("code", JStr code)])].

(** A backend that gives the listed answers in turn, then [rest] for ever. *)
Definition script (answers : list attempt) (rest : attempt) : nat -> attempt :=
  fun n => nth n answers rest.

Definition ok_empty : attempt := Responds (json_response 200 "OK" (JObj [])).

(** A new facade, as [SlackCloneClient()] builds it, in front of [backend]. *)
Definition new_client (backend : nat -> attempt) : state :=
  let '(h, a, c) := SlackCloneClient__init__ "https://api.slackclone.com/"
                      "ws://localhost:4000/socket/websocket" in
  {| http_client := h; auth := a;
     ws := {| self := c; wire := []; closed := []; calls := []; log := [];
              clock := []; send_script := []; connect_script := [] |};
     py := sample_py; backend := backend; requests := []; sleeps := [];
     sessions_opened := 0 |}.

(** The same with the two tokens set. *)
Definition signed_in (access refresh : json) (backend : nat -> attempt) : state :=
  set_auth {| access_token := access; refresh_token := refresh |} (new_client backend).

End REST.

(** * Properties *)

Lemma guard_is_not_active c :
  negb (truthy (websocket c)) || negb (connected c) = negb (active c).
Proof. unfold active. now destruct (truthy (websocket c)), (connected c). Qed.

Ltac step :=
  unfold bind, ret, raise, try_except, get_self, put_self, assign, logger,
    time_ms, make_ref; simpl.

(** ** The dict operations *)

Section DictFacts.
Context {V : Type}.
Implicit Types (d : list (string * V)) (k : string).

Lemma dict_in_get k d : dict_in k d = truthy (dict_get k d).
Proof.
  induction d as [|[k' v] d IH]; simpl; [reflexivity|].
  destruct (String.eqb k' k); simpl; auto.
Qed.

Lemma dict_in_keys k d : dict_in k d = true <-> In k (map fst d).
Proof.
  induction d as [|[k' v] d IH]; simpl.
  - split; [discriminate | tauto].
  - rewrite orb_true_iff, IH, String.eqb_eq. tauto.
Qed.

Lemma dict_in_del k k' d : dict_in k (dict_del k' d) = negb (String.eqb k' k) && dict_in k d.
Proof.
  induction d as [|[k0 v] d IH]; simpl.
  - now rewrite andb_false_r.
  - destruct (String.eqb k0 k') eqn:E0; simpl.
    + apply String.eqb_eq in E0; subst k0. rewrite IH.
      now destruct (String.eqb k' k).
    + rewrite IH. destruct (String.eqb k0 k) eqn:E1; simpl; [|reflexivity].
      apply String.eqb_eq in E1; subst k0.
      rewrite String.eqb_sym in E0. now rewrite E0.
Qed.

Lemma dict_del_gone k d : dict_in k (dict_del k d) = false.
Proof. rewrite dict_in_del, String.eqb_refl. reflexivity. Qed.

Lemma keys_dict_set_new k v d :
  dict_in k d = false -> map fst (dict_set k v d) = map fst d ++ [k].
Proof.
  induction d as [|[k0 v0] d IH]; simpl; [reflexivity|].
  destruct (String.eqb k0 k); simpl; [discriminate|].
  intros H. now rewrite IH.
Qed.

Lemma keys_dict_set_old k v d :
  dict_in k d = true -> map fst (dict_set k v d) = map fst d.
Proof.
  induction d as [|[k0 v0] d IH]; simpl; [discriminate|].
  destruct (String.eqb k0 k) eqn:E; simpl.
  - apply String.eqb_eq in E. now subst.
  - intros H. now rewrite IH.
Qed.
End DictFacts.

(** ** connect *)

(** C8.  [connect token] opens the transport on [url ++ "?token=" ++ token].
    When the transport cannot be established with failure [e], the call
    raises the connection error whose message carries [str e], and the
    client object is left as it was: its connection flag is not raised
    and no receive task is created.  Otherwise the client holds the
    transport opened on that URI, is marked connected and owns a pending
    receive task. *)
Theorem connect_opens_or_fails (w : world) (token : string) :
  let uri := url (self w) +:+ "?token=" +:+ token in
  let r := fst (connect token w) in
  let c' := self (snd (connect token w)) in
  match connect_script w with
  | Some e :: _ =>
      r = Raise (ConnectionError e) /\
      str (ConnectionError e) = "WebSocket connection failed: " +:+ str e /\
      c' = self w /\
      connected c' = connected (self w) /\
      _listen_task c' = _listen_task (self w)
  | _ =>
      r = Ok tt /\
      websocket c' = Some uri /\
      connected c' = true /\
      _listen_task c' = Some TaskPending
  end.
Proof.
  unfold connect, websockets_connect. step.
  destruct (connect_script w) as [|[e|] rest]; simpl; repeat split; reflexivity.
Qed.

(** ** disconnect *)

(** C4.  From every state, two [disconnect] calls in a row both return
    normally; after each of them the connection flag is false and the
    subscription dict is empty, and the second call changes nothing in
    the client object. *)
Theorem disconnect_idempotent (w : world) :
  let r1 := fst (disconnect w) in
  let w1 := snd (disconnect w) in
  let r2 := fst (disconnect w1) in
  let w2 := snd (disconnect w1) in
  r1 = Ok tt /\ connected (self w1) = false /\ channels (self w1) = [] /\
  r2 = Ok tt /\ connected (self w2) = false /\ channels (self w2) = [] /\
  self w2 = self w1.
Proof.
  destruct w as [[u ws d hs b t] sent cl cs lg ck ss cn].
  destruct t as [[]|], ws; cbn; repeat split; reflexivity.
Qed.

(** ** The channel-scoped senders *)

Lemma _send_channel_event_guard (w : world) (channel_id event : string) (payload : json) :
  active (self w) = false \/ dict_in channel_id (channels (self w)) = false ->
  _send_channel_event channel_id event payload w =
    (Raise (if active (self w) then NotJoinedError channel_id else NotConnectedError), w).
Proof.
  intros H. unfold _send_channel_event. step.
  rewrite guard_is_not_active.
  destruct (active (self w)); simpl; [|reflexivity].
  destruct H as [H|H]; [discriminate|]. now rewrite H.
Qed.

(** Past the two guards the sender is a plain send: the envelope carries
    the recorded topic, the event, the payload and the reference made
    from the clock, and the call ends as the transport's [send] does. *)
Lemma _send_channel_event_sends
    (w : world) (channel_id event : string) (payload : json) (info : channel_info) :
  active (self w) = true ->
  dict_get channel_id (channels (self w)) = Some info ->
  _send_channel_event channel_id event payload w =
    websocket_send
      (envelope (topic info) event payload ("ref_" +:+ pretty (hd 0%Z (clock w))))
      (snd (time_ms w)).
Proof.
  intros Ha Hg. unfold _send_channel_event, channel_topic. step.
  rewrite guard_is_not_active, Ha, dict_in_get, Hg. simpl. now rewrite Hg.
Qed.

(** C1, as stated, fails: on a client that is neither connected nor
    joined to ["c1"], [start_typing "c1"] raises the not-connected error,
    not the not-joined one. *)
Lemma sender_on_idle_client_not_NotJoined :
  ~ (forall (w : world) (channel_id : string) (s : sender_call),
        dict_in channel_id (channels (self w)) = false ->
        fst (run_sender channel_id s w) = Raise (NotJoinedError channel_id)).
Proof.
  intros H. specialize (H fresh_world "c1" StartTyping eq_refl).
  vm_compute in H. discriminate H.
Qed.

Lemma run_sender_guard (w : world) (channel_id : string) (s : sender_call) :
  active (self w) = false \/ dict_in channel_id (channels (self w)) = false ->
  exists w1,
    run_sender channel_id s w =
      (Raise (if active (self w) then NotJoinedError channel_id else NotConnectedError), w1) /\
    wire w1 = wire w /\ self w1 = self w.
Proof.
  intros H.
  destruct s; simpl;
    unfold send_message, edit_message, delete_message, start_typing, stop_typing,
      add_reaction, remove_reaction, mark_as_read, load_older_messages;
    try (rewrite _send_channel_event_guard by exact H; now exists w).
  unfold bind.
  destruct (temp_id_or_now temp_id w) as [r w1] eqn:E.
  assert (Hw : self w1 = self w /\ wire w1 = wire w /\ exists t, r = Ok t).
  { unfold temp_id_or_now in E. destruct temp_id as [[|a t]|];
      cbv [bind ret time_ms] in E; inversion E; subst; simpl; eauto. }
  destruct Hw as (Hs & Hwi & t & ->).
  rewrite _send_channel_event_guard by (rewrite Hs; exact H).
  rewrite Hs. now exists w1.
Qed.

(** C1, amended.  For each of the nine senders and every state: when the
    connection is not active the call raises the not-connected error,
    whether or not the topic is joined; when the connection is active and
    the topic is not joined it raises the not-joined error; in both cases
    nothing reaches the wire and the client object is unchanged. *)
Theorem sender_guards (w : world) (channel_id : string) (s : sender_call) :
  active (self w) = false \/ dict_in channel_id (channels (self w)) = false ->
  fst (run_sender channel_id s w) =
    Raise (if active (self w) then NotJoinedError channel_id else NotConnectedError) /\
  wire (snd (run_sender channel_id s w)) = wire w /\
  self (snd (run_sender channel_id s w)) = self w.
Proof.
  intros H. destruct (run_sender_guard w channel_id s H) as (w1 & -> & Hw & Hs).
  simpl. auto.
Qed.

Lemma sender_guards_witness :
  fst (run_sender "c1" (SendMessage "hi" None) fresh_world) = Raise NotConnectedError /\
  wire (snd (run_sender "c1" (SendMessage "hi" None) fresh_world)) = [] /\
  self (snd (run_sender "c1" (SendMessage "hi" None) fresh_world)) = self fresh_world.
Proof.
  apply (sender_guards fresh_world "c1" (SendMessage "hi" None)).
  left. reflexivity.
Defined.

(** ** leave_channel *)

(** C3, as stated, fails: when the transport [send] raises, [leave_channel]
    raises too and the subscription record is still there. *)
Lemma leave_keeps_record_when_send_raises :
  ~ (forall (w : world) (channel_id : string),
        dict_in channel_id (channels (self w)) = true ->
        dict_in channel_id (channels (self (snd (leave_channel channel_id w)))) = false).
Proof.
  intros H. specialize (H joined_c1_send_fails "c1" eq_refl).
  vm_compute in H. discriminate H.
Qed.

(** C3, amended.  [leave_channel channel_id] does nothing when the topic is
    not joined.  When it is joined and the connection is not active, no
    frame is sent and the record is removed.  When it is joined and the
    connection is active, a leave envelope for the recorded topic goes out
    with the reference made from the clock reading of that moment; if the
    [send] returns, the record is removed; if the [send] raises, the
    exception reaches the caller and the record stays. *)
Theorem leave_channel_cases (w : world) (channel_id : string) :
  let r := fst (leave_channel channel_id w) in
  let w' := snd (leave_channel channel_id w) in
  match dict_get channel_id (channels (self w)) with
  | None => r = Ok tt /\ w' = w
  | Some info =>
      if active (self w) then
        match send_script w with
        | Some e :: _ =>
            r = Raise e /\ wire w' = wire w /\ channels (self w') = channels (self w)
        | _ =>
            r = Ok tt /\
            wire w' = wire w ++
              [envelope (topic info) "phx_leave" (JObj [])
                 ("ref_" +:+ pretty (hd 0%Z (clock w)))] /\
            dict_in channel_id (channels (self w')) = false
        end
      else
        r = Ok tt /\ wire w' = wire w /\
        dict_in channel_id (channels (self w')) = false
  end.
Proof.
  unfold leave_channel, channel_topic, del_channel, websocket_send. step.
  rewrite dict_in_get. unfold active.
  destruct (dict_get channel_id (channels (self w))) as [info|] eqn:G; simpl;
    [|split; reflexivity].
  destruct (truthy (websocket (self w))), (connected (self w)); simpl;
    rewrite ?G; simpl;
    try (rewrite dict_in_get, G; simpl; repeat split;
         try reflexivity; apply dict_del_gone).
  destruct (send_script w) as [|[e|] rest]; simpl;
    try (rewrite dict_in_get, G; simpl; repeat split;
         try reflexivity; apply dict_del_gone).
  repeat split; reflexivity.
Qed.

(** ** Dispatch of an inbound frame *)

Lemma find_channel_unsubscribed (c : WebSocketClient) (t : json) :
  unsubscribed c t -> find_channel t (channels c) = None.
Proof.
  unfold unsubscribed. induction (channels c) as [|[cid info] d IH]; simpl; intros H;
    [reflexivity|].
  rewrite (H cid info) by now left. simpl. apply IH. intros; eapply H; right; eassumption.
Qed.

Lemma find_channel_is_key (t : json) (d : list (string * channel_info)) (cid : string) :
  find_channel t d = Some cid -> exists info, dict_get cid d = Some info.
Proof.
  induction d as [|[k info] d IH]; simpl; [discriminate|].
  destruct (topic_eq (topic info) t).
  - intros [= ->]. rewrite String.eqb_refl. eauto.
  - intros H. destruct (String.eqb k cid); eauto.
Qed.

Lemma dispatched_refl w : dispatched w w [].
Proof. unfold dispatched. rewrite app_nil_r. tauto. Qed.

Lemma dispatched_trans w1 w2 w3 t1 t2 :
  dispatched w1 w2 t1 -> dispatched w2 w3 t2 -> dispatched w1 w3 (t1 ++ t2).
Proof.
  unfold dispatched. intros (A1 & A2 & A3 & A4 & A5 & A6 & A7) (B1 & B2 & B3 & B4 & B5 & B6 & B7).
  rewrite B1, B2, B3, B4, B5, B6, B7, A7, app_assoc. tauto.
Qed.

(** One guarded invocation, [try: await h(payload) except Exception: log],
    returns whatever the handler does. *)
Lemma guarded_invocation (h : handler) (payload : json) (msg : exn -> string) (w : world) :
  exists w',
    try_except (await_handler h payload) (fun e => logger "ERROR" (msg e)) w = (Ok tt, w') /\
    dispatched w w' [(h_name h, payload)].
Proof.
  unfold try_except, await_handler, logger, dispatched.
  destruct (h_body h payload); simpl; eexists; split; try reflexivity; simpl; tauto.
Qed.

Lemma run_global_handlers_all (hs : list handler) (event payload : json) (w : world) :
  exists w',
    run_global_handlers hs event payload w = (Ok tt, w') /\
    dispatched w w' (invocations payload hs).
Proof.
  revert w. induction hs as [|h hs IH]; intros w; simpl.
  - exists w. split; [reflexivity | apply dispatched_refl].
  - unfold bind.
    destruct (guarded_invocation h payload
                (fun e => "Error in global handler for " +:+ event_text event +:+ ": " +:+ str e) w)
      as (w1 & -> & D1).
    destruct (IH w1) as (w2 & -> & D2).
    exists w2. split; [reflexivity|].
    apply (dispatched_trans _ _ _ [(h_name h, payload)] _ D1 D2).
Qed.

Lemma bind_ok {A B} (m : M A) (k : A -> M B) (w w' : world) (a : A) :
  m w = (Ok a, w') -> bind m k w = k a w'.
Proof. unfold bind. now intros ->. Qed.

Lemma bind_raise {A B} (m : M A) (k : A -> M B) (w w' : world) (e : exn) :
  m w = (Raise e, w') -> bind m k w = (Raise e, w').
Proof. unfold bind. now intros ->. Qed.

Lemma _handle_message_blocks (fields : list (string * json)) (w : world) :
  _handle_message (JObj fields) w = (channel_block fields ;; global_block fields) w.
Proof. reflexivity. Qed.

Lemma channel_callbacks_found (cid : string) (info : channel_info) (w : world) :
  dict_get cid (channels (self w)) = Some info ->
  channel_callbacks cid w = (Ok (callbacks info), w).
Proof. unfold channel_callbacks, bind, get_self. now intros ->. Qed.

Lemma channel_block_hashable (fields : list (string * json)) (w : world) :
  hashable (frame_event fields) = true ->
  exists w',
    channel_block fields w = (Ok tt, w') /\
    dispatched w w' (invocations (frame_payload fields) (addressed_callback (self w) fields)).
Proof.
  intros Hh. unfold channel_block, addressed_callback.
  unfold bind at 1, get_self at 1.
  destruct (find_channel (frame_topic fields) (channels (self w))) as [[|a s]|] eqn:F;
    cbn [truthy_id default];
    try (exists w; split; [reflexivity | apply dispatched_refl]).
  destruct (find_channel_is_key _ _ _ F) as [info G]. rewrite G.
  rewrite (bind_ok _ _ _ _ _ (channel_callbacks_found _ _ _ G)).
  unfold lookup_key. rewrite Hh. unfold bind at 1, ret at 1.
  destruct (frame_event fields) as [|b0|n0|l0|e|l0|l0];
    try (exists w; split; [reflexivity | apply dispatched_refl]).
  destruct (callbacks info !! e) as [h|]; cbn [option_list].
  - apply guarded_invocation.
  - exists w; split; [reflexivity | apply dispatched_refl].
Qed.

Lemma global_block_hashable (fields : list (string * json)) (w : world) :
  hashable (frame_event fields) = true ->
  exists w',
    global_block fields w = (Ok tt, w') /\
    dispatched w w' (invocations (frame_payload fields) (global_handlers (self w) fields)).
Proof.
  intros Hh. unfold global_block, global_handlers, lookup_key.
  rewrite Hh. unfold bind at 1, get_self at 1, bind at 1, ret at 1.
  destruct (frame_event fields) as [|b0|n0|l0|e|l0|l0];
    try (exists w; split; [reflexivity | apply dispatched_refl]).
  destruct (event_handlers (self w) !! e) as [hs|]; cbn [default].
  - apply run_global_handlers_all.
  - exists w; split; [reflexivity | apply dispatched_refl].
Qed.

(** [_handle_message] on an object whose event can be hashed: it returns,
    having invoked the addressed callback and then every global handler
    of the event, whatever any of them did. *)
Lemma _handle_message_dispatch (fields : list (string * json)) (w : world) :
  hashable (frame_event fields) = true ->
  exists w',
    _handle_message (JObj fields) w = (Ok tt, w') /\
    dispatched w w'
      (invocations (frame_payload fields)
         (addressed_callback (self w) fields ++ global_handlers (self w) fields)).
Proof.
  intros Hh. rewrite _handle_message_blocks.
  destruct (channel_block_hashable fields w Hh) as (w1 & E1 & D1).
  destruct (global_block_hashable fields w1 Hh) as (w2 & E2 & D2).
  exists w2. rewrite (bind_ok _ _ _ _ _ E1). split; [exact E2|].
  unfold invocations. rewrite map_app.
  replace (self w1) with (self w) in D2 by (symmetry; apply D1).
  eapply dispatched_trans; eassumption.
Qed.

(** With an event that cannot be hashed, the membership test raises
    before any handler is looked up: nothing is invoked. *)
Lemma _handle_message_unhashable (fields : list (string * json)) (w : world) :
  hashable (frame_event fields) = false ->
  _handle_message (JObj fields) w = (Raise (unhashable (frame_event fields)), w).
Proof.
  intros Hh. rewrite _handle_message_blocks.
  unfold channel_block, global_block, lookup_key. rewrite Hh.
  unfold bind at 1, bind at 1, get_self at 1.
  destruct (find_channel (frame_topic fields) (channels (self w))) as [[|a s]|] eqn:F;
    cbn [truthy_id default]; try reflexivity.
  destruct (find_channel_is_key _ _ _ F) as [info G].
  now rewrite (bind_ok _ _ _ _ _ (channel_callbacks_found _ _ _ G)).
Qed.

(** The scenario of the specification: c1 is joined with a callback for
    ["new_message"]; a frame for that topic and event invokes it once,
    with the payload. *)
Example joined_callback_invoked_once :
  let h := quiet_handler "h" in
  let frame := JObj [("topic", JStr "channel:c1"); ("event", JStr "new_message");
                     ("payload", JObj [("content", JStr "hi")])] in
  let w := snd (join_channel "c1" (Some {[ "new_message" := h ]}) connected_world) in
  calls (snd (_handle_message frame w)) = [("h", JObj [("content", JStr "hi")])].
Proof. reflexivity. Qed.

(** The truth test [if channel_id:] at work: a channel joined under the
    empty id is found by the scan and then passed over. *)
Example empty_channel_id_is_passed_over :
  let h := quiet_handler "h" in
  let frame := JObj [("topic", JStr "channel:"); ("event", JStr "new_message")] in
  let w := snd (join_channel "" (Some {[ "new_message" := h ]}) connected_world) in
  find_channel (JStr "channel:") (channels (self w)) = Some "" /\
  calls (snd (_handle_message frame w)) = [].
Proof. split; reflexivity. Qed.

Lemma addressed_callback_unsubscribed (c : WebSocketClient) (fields : list (string * json)) :
  unsubscribed c (frame_topic fields) -> addressed_callback c fields = [].
Proof.
  intros H. unfold addressed_callback. now rewrite find_channel_unsubscribed.
Qed.

(** C2, as stated, fails: a frame for a topic nobody joined still reaches
    the global handler registered for its event. *)
Lemma unsubscribed_frame_reaches_global_handler :
  ~ (forall (w : world) (fields : list (string * json)),
        unsubscribed (self w) (frame_topic fields) ->
        fst (_handle_message (JObj fields) w) = Ok tt /\
        calls (snd (_handle_message (JObj fields) w)) = calls w).
Proof.
  intros H.
  destruct (H listening_world typing_frame_zz) as [_ Hc].
  - intros cid info [].
  - vm_compute in Hc. discriminate Hc.
Qed.

(** C2, amended.  For a frame whose topic no joined subscription records,
    [_handle_message] invokes no per-channel callback: the only handlers
    it invokes are the global ones registered under the frame's event.
    It raises nothing, unless the event field is a list or an object,
    which cannot be looked up in a dict. *)
Theorem unsubscribed_frame_no_channel_callback (w : world) (fields : list (string * json)) :
  unsubscribed (self w) (frame_topic fields) ->
  fst (_handle_message (JObj fields) w) =
    (if hashable (frame_event fields) then Ok tt
     else Raise (unhashable (frame_event fields))) /\
  self (snd (_handle_message (JObj fields) w)) = self w /\
  calls (snd (_handle_message (JObj fields) w)) =
    calls w ++ invocations (frame_payload fields) (global_handlers (self w) fields).
Proof.
  intros H. destruct (hashable (frame_event fields)) eqn:Hh.
  - destruct (_handle_message_dispatch fields w Hh) as (w' & -> & D).
    rewrite (addressed_callback_unsubscribed _ _ H) in D. simpl in *.
    repeat split; apply D.
  - rewrite (_handle_message_unhashable fields w Hh). simpl.
    unfold global_handlers.
    destruct (frame_event fields); try discriminate Hh; simpl;
      now rewrite app_nil_r.
Qed.

Lemma unsubscribed_frame_no_channel_callback_witness :
  fst (_handle_message (JObj typing_frame_zz) busy_world) = Ok tt /\
  self (snd (_handle_message (JObj typing_frame_zz) busy_world)) = self busy_world /\
  calls (snd (_handle_message (JObj typing_frame_zz) busy_world)) =
    [("first", JObj [("user_name", JStr "ann")]);
     ("second", JObj [("user_name", JStr "ann")])].
Proof.
  apply (unsubscribed_frame_no_channel_callback busy_world typing_frame_zz).
  intros cid info [[= <- <-]|[]]. reflexivity.
Defined.

(** C9.  When the frame's event has global handlers registered, all of
    them are invoked, in order, also when no joined subscription records
    the frame's topic; in that case they are the only handlers invoked. *)
Theorem global_handlers_run_without_subscription
    (w : world) (fields : list (string * json)) (e : string) (hs : list handler) :
  frame_event fields = JStr e ->
  event_handlers (self w) !! e = Some hs ->
  unsubscribed (self w) (frame_topic fields) ->
  fst (_handle_message (JObj fields) w) = Ok tt /\
  calls (snd (_handle_message (JObj fields) w)) =
    calls w ++ invocations (frame_payload fields) hs.
Proof.
  intros He Hhs Hu.
  assert (Hh : hashable (frame_event fields) = true) by now rewrite He.
  destruct (_handle_message_dispatch fields w Hh) as (w' & -> & D).
  rewrite (addressed_callback_unsubscribed _ _ Hu) in D.
  unfold global_handlers in D. rewrite He, Hhs in D. simpl in *.
  split; [reflexivity | apply D].
Qed.

Lemma global_handlers_run_without_subscription_witness :
  fst (_handle_message (JObj typing_frame_zz) busy_world) = Ok tt /\
  calls (snd (_handle_message (JObj typing_frame_zz) busy_world)) =
    calls busy_world ++
    invocations (frame_payload typing_frame_zz)
      [failing_handler "first"; quiet_handler "second"].
Proof.
  apply (global_handlers_run_without_subscription
           busy_world typing_frame_zz "typing_start"
           [failing_handler "first"; quiet_handler "second"]).
  - reflexivity.
  - reflexivity.
  - intros cid info [[= <- <-]|[]]. reflexivity.
Defined.

(** ** Registration of global handlers *)

Lemma on_appends (event : string) (h : handler) (w : world) :
  on event h w =
    (Ok tt,
     with_self
       (set_event_handlers
          (<[event := default [] (event_handlers (self w) !! event) ++ [h]]>
             (event_handlers (self w)))
          (self w)) w).
Proof.
  unfold on, assign, bind, get_self, put_self, ret.
  destruct (event_handlers (self w) !! event) as [hs|] eqn:L.
  - rewrite bool_decide_eq_false_2 by discriminate. simpl. now rewrite L.
  - rewrite bool_decide_eq_true_2 by reflexivity. simpl.
    rewrite lookup_insert_eq, insert_insert_eq. reflexivity.
Qed.

Lemma register_all_handlers (regs : list (string * handler)) (w : world) :
  exists w',
    register_all regs w = (Ok tt, w') /\
    channels (self w') = channels (self w) /\
    calls w' = calls w /\
    forall e,
      default [] (event_handlers (self w') !! e) =
      default [] (event_handlers (self w) !! e) ++ registered e regs.
Proof.
  revert w. induction regs as [|[event h] regs IH]; intros w; simpl.
  - exists w. repeat split; try reflexivity. intros e. now rewrite app_nil_r.
  - rewrite (bind_ok _ _ _ _ _ (on_appends event h w)).
    destruct (IH (with_self
       (set_event_handlers
          (<[event := default [] (event_handlers (self w) !! event) ++ [h]]>
             (event_handlers (self w)))
          (self w)) w)) as (w' & -> & Hc & Ht & Hh).
    exists w'. repeat split; try assumption.
    intros e. rewrite Hh. simpl.
    destruct (String.eqb event e) eqn:E.
    + apply String.eqb_eq in E. subst e.
      rewrite lookup_insert_eq. simpl. now rewrite <- app_assoc.
    + apply String.eqb_neq in E.
      now rewrite lookup_insert_ne.
Qed.

Lemma addressed_callback_same_channels (c c' : WebSocketClient) (fields : list (string * json)) :
  channels c' = channels c -> addressed_callback c' fields = addressed_callback c fields.
Proof. unfold addressed_callback. now intros ->. Qed.

(** C7.  [on] accepts any number of handlers for an event name: after a
    series of registrations, a frame carrying the event name [e], whatever
    its topic, makes [_handle_message] invoke, after the callback of the
    addressed channel if there is one, the handlers registered under [e]
    one after the other in the order of their registration, each once
    per registration. *)
Theorem global_handlers_in_registration_order
    (w : world) (regs : list (string * handler)) (fields : list (string * json)) (e : string) :
  frame_event fields = JStr e ->
  let w1 := snd (register_all regs w) in
  fst (register_all regs w) = Ok tt /\
  default [] (event_handlers (self w1) !! e) =
    default [] (event_handlers (self w) !! e) ++ registered e regs /\
  fst (_handle_message (JObj fields) w1) = Ok tt /\
  calls (snd (_handle_message (JObj fields) w1)) =
    calls w ++
    invocations (frame_payload fields) (addressed_callback (self w) fields) ++
    invocations (frame_payload fields)
      (default [] (event_handlers (self w) !! e) ++ registered e regs).
Proof.
  intros He. cbv zeta.
  destruct (register_all_handlers regs w) as (w1 & -> & Hc & Ht & Hh). cbn [fst snd].
  assert (Hhash : hashable (frame_event fields) = true) by now rewrite He.
  destruct (_handle_message_dispatch fields w1 Hhash) as (w2 & -> & D). cbn [fst snd].
  repeat split; [apply Hh|].
  destruct D as (_ & _ & _ & _ & _ & _ & ->).
  rewrite Ht, (addressed_callback_same_channels _ _ _ Hc).
  unfold global_handlers. rewrite He, Hh.
  unfold invocations. now rewrite map_app.
Qed.

Lemma global_handlers_in_registration_order_witness :
  let regs := [("typing_start", failing_handler "first");
               ("new_message", quiet_handler "other");
               ("typing_start", quiet_handler "second")] in
  let w1 := snd (register_all regs fresh_world) in
  fst (register_all regs fresh_world) = Ok tt /\
  default [] (event_handlers (self w1) !! "typing_start") =
    [failing_handler "first"; quiet_handler "second"] /\
  fst (_handle_message (JObj typing_frame_zz) w1) = Ok tt /\
  calls (snd (_handle_message (JObj typing_frame_zz) w1)) =
    [("first", JObj [("user_name", JStr "ann")]);
     ("second", JObj [("user_name", JStr "ann")])].
Proof.
  apply (global_handlers_in_registration_order fresh_world
           [("typing_start", failing_handler "first");
            ("new_message", quiet_handler "other");
            ("typing_start", quiet_handler "second")]
           typing_frame_zz "typing_start").
  reflexivity.
Defined.

(** ** The receive loop *)

Lemma loop_test_is_active c : connected c && truthy (websocket c) = active c.
Proof. unfold active. apply andb_comm. Qed.

(** Whatever [_handle_message] raises is a [TypeError] or an
    [AttributeError] of its own, never an exception of the transport, and
    it touches neither the client object nor the wire. *)
Lemma _handle_message_outcome (v : json) (w : world) :
  exists w1,
    (_handle_message v w = (Ok tt, w1) \/
     exists e, _handle_message v w = (Raise e, w1) /\ is_WebSocketException e = false) /\
    self w1 = self w /\ wire w1 = wire w.
Proof.
  destruct v as [|b|n|l|s|l|fields];
    try (exists w; split; [right; eexists; split; reflexivity | repeat split; reflexivity]).
  destruct (hashable (frame_event fields)) eqn:Hh.
  - destruct (_handle_message_dispatch fields w Hh) as (w1 & E & D).
    exists w1. split; [left; exact E|].
    split; apply D.
  - exists w. rewrite (_handle_message_unhashable fields w Hh).
    split; [right; eexists; split; [reflexivity|] | repeat split; reflexivity].
    now destruct (frame_event fields).
Qed.

Section ReceiveLoopFacts.
Variable json_loads : string -> string + json.

Lemma listen_cons (r : recv_outcome) (rest : list recv_outcome) (w : world) :
  active (self w) = true ->
  _listen_for_messages json_loads (r :: rest) w =
    (f <- listen_iteration json_loads r ;;
     match f with
     | Continue => _listen_for_messages json_loads rest
     | Break => ret Returned
     end) w.
Proof.
  intros Ha. cbn [_listen_for_messages]. unfold bind at 1, get_self at 1.
  now rewrite loop_test_is_active, Ha.
Qed.

Lemma listen_frame_handled (text : string) (v : json) (rest : list recv_outcome) (w w1 : world) :
  active (self w) = true ->
  json_loads text = inr v ->
  _handle_message v w = (Ok tt, w1) ->
  _listen_for_messages json_loads (Frame text :: rest) w =
    _listen_for_messages json_loads rest w1.
Proof.
  intros Ha Hj Hm. rewrite listen_cons by exact Ha.
  unfold listen_iteration, try_except, bind, websocket_recv, loads, ret.
  now rewrite Hj, Hm.
Qed.

Lemma listen_frame_handling_raises
    (text : string) (v : json) (e : exn) (rest : list recv_outcome) (w w1 : world) :
  active (self w) = true ->
  json_loads text = inr v ->
  _handle_message v w = (Raise e, w1) ->
  _listen_for_messages json_loads (Frame text :: rest) w =
    _listen_for_messages json_loads rest
      (logged_error ("Error handling message: " +:+ str e) w1).
Proof.
  intros Ha Hj Hm.
  destruct (_handle_message_outcome v w) as (w1' & [E|(e' & E & He)] & _);
    rewrite Hm in E; inversion E; subst e' w1'.
  assert (Hc : is_ConnectionClosed e = false).
  { unfold is_ConnectionClosed. unfold is_WebSocketException in He.
    now destruct (exn_type e). }
  rewrite listen_cons by exact Ha.
  unfold listen_iteration, try_except, bind, websocket_recv, loads, ret.
  rewrite Hj. cbv beta iota. rewrite Hm. cbv beta iota. rewrite Hc, He.
  reflexivity.
Qed.

Lemma listen_frame_not_json (text msg : string) (rest : list recv_outcome) (w : world) :
  active (self w) = true ->
  json_loads text = inl msg ->
  _listen_for_messages json_loads (Frame text :: rest) w =
    _listen_for_messages json_loads rest
      (logged_error ("Error handling message: " +:+ msg) w).
Proof.
  intros Ha Hj. rewrite listen_cons by exact Ha.
  unfold listen_iteration, try_except, bind, websocket_recv, loads, ret.
  rewrite Hj. reflexivity.
Qed.

(** One turn of the loop: it leaves the loop, with the flag lowered,
    exactly on a transport failure; otherwise it goes on and the client
    object is as before. *)
Lemma listen_iteration_cases (r : recv_outcome) (w : world) :
  exists w1,
    listen_iteration json_loads r w =
      (Ok (if transport_failure r then Break else Continue), w1) /\
    self w1 = (if transport_failure r then set_connected false (self w) else self w).
Proof.
  unfold listen_iteration, try_except, bind at 1, websocket_recv.
  destruct r as [text|e]; cbn [transport_failure].
  - unfold ret at 1, loads, bind at 1.
    destruct (json_loads text) as [msg|v].
    + unfold raise. cbn. eexists; split; reflexivity.
    + unfold ret at 1.
      destruct (_handle_message_outcome v w) as (w1 & [E|(e & E & He)] & Hs & _).
      * rewrite (bind_ok _ _ _ _ _ E). unfold ret. eauto.
      * rewrite (bind_raise _ _ _ _ _ E).
        assert (Hc : is_ConnectionClosed e = false).
        { unfold is_ConnectionClosed. unfold is_WebSocketException in He.
          now destruct (exn_type e). }
        rewrite Hc, He. cbn. eexists; split; [reflexivity | exact Hs].
  - unfold raise.
    destruct (is_ConnectionClosed e) eqn:Hc.
    + assert (He : is_WebSocketException e = true).
      { unfold is_ConnectionClosed in Hc. unfold is_WebSocketException.
        now destruct (exn_type e). }
      rewrite He. cbn. eexists; split; reflexivity.
    + destruct (is_WebSocketException e); cbn; eexists; split; reflexivity.
Qed.

(** The whole run: the coroutine returns, with the flag lowered, when
    the transport fails at some point; otherwise it is still waiting
    for the next frame and the flag is up. *)
Lemma listen_run (inbox : list recv_outcome) (w : world) :
  active (self w) = true ->
  exists w',
    _listen_for_messages json_loads inbox w =
      (Ok (if existsb transport_failure inbox then Returned else Awaiting), w') /\
    self w' =
      (if existsb transport_failure inbox then set_connected false (self w) else self w).
Proof.
  revert w. induction inbox as [|r rest IH]; intros w Ha.
  - cbn [_listen_for_messages existsb]. unfold bind, get_self.
    rewrite loop_test_is_active, Ha. unfold ret. eauto.
  - rewrite listen_cons by exact Ha. cbn [existsb].
    destruct (listen_iteration_cases r w) as (w1 & E & Hs).
    rewrite (bind_ok _ _ _ _ _ E).
    destruct (transport_failure r); cbn [orb].
    + unfold ret. eauto.
    + destruct (IH w1) as (w' & E' & Hs'); [now rewrite Hs|].
      exists w'. split; [exact E'|]. now rewrite Hs', Hs.
Qed.
End ReceiveLoopFacts.

(** The task [connect] created, driven against the transport: it is done,
    and the flag is down, as soon as the transport fails; until then it
    is pending and the flag is up. *)
Lemma run_listen_task_outcome
    (json_loads : string -> string + json) (inbox : list recv_outcome) (w : world) :
  active (self w) = true ->
  _listen_task (self w) = Some TaskPending ->
  exists w',
    run_listen_task json_loads inbox w = (Ok tt, w') /\
    _listen_task (self w') =
      Some (if existsb transport_failure inbox then TaskDone else TaskPending) /\
    connected (self w') = negb (existsb transport_failure inbox).
Proof.
  intros Ha Ht. unfold run_listen_task, bind at 1, get_self at 1.
  rewrite Ht.
  destruct (listen_run json_loads inbox w Ha) as (w' & E & Hs).
  rewrite (bind_ok _ _ _ _ _ E).
  assert (Hc : connected (self w) = true)
    by (unfold active in Ha; now apply andb_true_iff in Ha).
  destruct (existsb transport_failure inbox);
    unfold assign, bind, get_self, put_self, ret; eexists; (split; [reflexivity|]);
    cbn; rewrite Hs; cbn; auto.
Qed.

Lemma listen_recv_raises_other
    (json_loads : string -> string + json) (e : exn) (rest : list recv_outcome) (w : world) :
  active (self w) = true ->
  is_WebSocketException e = false ->
  _listen_for_messages json_loads (RecvRaises e :: rest) w =
    _listen_for_messages json_loads rest
      (logged_error ("Error handling message: " +:+ str e) w).
Proof.
  intros Ha He.
  assert (Hc : is_ConnectionClosed e = false).
  { unfold is_ConnectionClosed. unfold is_WebSocketException in He.
    now destruct (exn_type e). }
  rewrite listen_cons by exact Ha.
  unfold listen_iteration, try_except, bind, websocket_recv, raise.
  rewrite Hc, He. reflexivity.
Qed.

(** C5.  A handler that raises stops nothing.  For a frame the loop
    decoded to an object, the outcome of [_handle_message] does not depend
    on what the handlers do: it raises only if the event field cannot be
    hashed, never what a handler raised; the addressed callback and then
    every global handler of the event are invoked; the client object,
    hence the connection flag, is as before; and the receive loop goes on
    to the frames that follow. *)
Theorem handler_exceptions_are_contained
    (json_loads : string -> string + json) (w : world)
    (text : string) (fields : list (string * json)) (rest : list recv_outcome) :
  active (self w) = true ->
  json_loads text = inr (JObj fields) ->
  let r := fst (_handle_message (JObj fields) w) in
  let w1 := snd (_handle_message (JObj fields) w) in
  r = (if hashable (frame_event fields) then Ok tt
       else Raise (unhashable (frame_event fields))) /\
  calls w1 =
    calls w ++
    invocations (frame_payload fields)
      (addressed_callback (self w) fields ++ global_handlers (self w) fields) /\
  self w1 = self w /\
  _listen_for_messages json_loads (Frame text :: rest) w =
    _listen_for_messages json_loads rest
      (if hashable (frame_event fields) then w1
       else logged_error
              ("Error handling message: " +:+ str (unhashable (frame_event fields))) w1).
Proof.
  intros Ha Hj. cbv zeta.
  destruct (hashable (frame_event fields)) eqn:Hh.
  - destruct (_handle_message_dispatch fields w Hh) as (w1 & E & D).
    rewrite (listen_frame_handled json_loads text _ rest w w1 Ha Hj E).
    rewrite E. cbn [fst snd]. repeat split; apply D.
  - pose proof (_handle_message_unhashable fields w Hh) as E.
    rewrite (listen_frame_handling_raises json_loads text _ _ rest w w Ha Hj E).
    rewrite E. cbn [fst snd]. repeat split.
    unfold addressed_callback, global_handlers.
    destruct (frame_event fields); try discriminate Hh;
      destruct (find_channel (frame_topic fields) (channels (self w))) as [[|a s]|];
      try destruct (dict_get (String a s) (channels (self w)));
      cbn; now rewrite app_nil_r.
Qed.

Lemma handler_exceptions_are_contained_witness :
  let w1 := snd (_handle_message (JObj typing_frame_c1) busy_world) in
  fst (_handle_message (JObj typing_frame_c1) busy_world) = Ok tt /\
  calls w1 = [("cb", JObj []); ("first", JObj []); ("second", JObj [])] /\
  self w1 = self busy_world /\
  _listen_for_messages sample_loads [Frame typing_text_c1; Frame "not json"] busy_world =
    _listen_for_messages sample_loads [Frame "not json"] w1.
Proof.
  apply (handler_exceptions_are_contained sample_loads busy_world
           typing_text_c1 typing_frame_c1 [Frame "not json"]).
  - reflexivity.
  - reflexivity.
Defined.

(** C10.  From a connected client the receive loop skips, with an error
    record in the log, a frame that is not JSON, a frame whose handling
    raises, and a [recv] that raises anything but a WebSocket exception:
    it goes on with what follows and the client object is untouched.  The
    coroutine returns, with the connection flag lowered, exactly when
    [recv] raises [ConnectionClosed] or another [WebSocketException];
    otherwise it is still waiting for the next frame and the flag is up. *)
Theorem receive_loop_skips_bad_frames
    (json_loads : string -> string + json) (w : world) (inbox : list recv_outcome) :
  active (self w) = true ->
  (forall text msg rest,
      json_loads text = inl msg ->
      let w1 := logged_error ("Error handling message: " +:+ msg) w in
      connected (self w1) = true /\
      _listen_for_messages json_loads (Frame text :: rest) w =
        _listen_for_messages json_loads rest w1) /\
  (forall text v e w0 rest,
      json_loads text = inr v ->
      _handle_message v w = (Raise e, w0) ->
      let w1 := logged_error ("Error handling message: " +:+ str e) w0 in
      is_WebSocketException e = false /\
      connected (self w1) = true /\
      _listen_for_messages json_loads (Frame text :: rest) w =
        _listen_for_messages json_loads rest w1) /\
  (forall e rest,
      is_WebSocketException e = false ->
      let w1 := logged_error ("Error handling message: " +:+ str e) w in
      connected (self w1) = true /\
      _listen_for_messages json_loads (RecvRaises e :: rest) w =
        _listen_for_messages json_loads rest w1) /\
  fst (_listen_for_messages json_loads inbox w) =
    Ok (if existsb transport_failure inbox then Returned else Awaiting) /\
  connected (self (snd (_listen_for_messages json_loads inbox w))) =
    negb (existsb transport_failure inbox).
Proof.
  intros Ha.
  assert (Hc : connected (self w) = true)
    by (unfold active in Ha; now apply andb_true_iff in Ha).
  split; [|split; [|split]].
  - intros text msg rest Hj. split; [exact Hc | now apply listen_frame_not_json].
  - intros text v e w0 rest Hj Hm.
    destruct (_handle_message_outcome v w) as (w0' & [E|(e' & E & He)] & Hs & _);
      rewrite Hm in E; inversion E; subst e' w0'.
    cbv zeta. split; [exact He|]. split.
    + cbn. now rewrite Hs.
    + now apply (listen_frame_handling_raises json_loads text v).
  - intros e rest He. split; [exact Hc | now apply listen_recv_raises_other].
  - destruct (listen_run json_loads inbox w Ha) as (w' & -> & Hs).
    cbn [fst snd]. split; [reflexivity|]. rewrite Hs.
    now destruct (existsb transport_failure inbox).
Qed.

Lemma receive_loop_skips_bad_frames_witness :
  let inbox := [Frame "not json"; Frame "[]"; Frame typing_text_c1;
                RecvRaises (Exn OtherException "timed out");
                RecvRaises (Exn ConnectionClosed "no close frame received or sent");
                Frame typing_text_c1] in
  fst (_listen_for_messages sample_loads inbox busy_world) = Ok Returned /\
  connected (self (snd (_listen_for_messages sample_loads inbox busy_world))) = false.
Proof.
  exact (proj2 (proj2 (proj2
    (receive_loop_skips_bad_frames sample_loads busy_world
       [Frame "not json"; Frame "[]"; Frame typing_text_c1;
        RecvRaises (Exn OtherException "timed out");
        RecvRaises (Exn ConnectionClosed "no close frame received or sent");
        Frame typing_text_c1]
       eq_refl)))).
Defined.

(** ** Sequences of join and leave calls *)

Lemma topic_of_inj k1 k2 : topic_of k1 = topic_of k2 -> k1 = k2.
Proof. unfold topic_of. apply (inj (String.append "channel:")). Qed.

Lemma elem_of_topics_of_dict (t : string) (d : list (string * channel_info)) :
  t ∈ topics_of_dict d <-> exists k, t = topic_of k /\ dict_in k d = true.
Proof.
  unfold topics_of_dict. rewrite elem_of_list_to_set, list_elem_of_In, in_map_iff.
  split; intros (k & H1 & H2); exists k; split; auto; now apply dict_in_keys.
Qed.

Lemma dict_in_set (k k' : string) (v : channel_info) (d : list (string * channel_info)) :
  dict_in k (dict_set k' v d) = String.eqb k' k || dict_in k d.
Proof.
  induction d as [|[k0 v0] d IH]; simpl.
  - reflexivity.
  - destruct (String.eqb k0 k') eqn:E; simpl.
    + apply String.eqb_eq in E; subst k0. now destruct (String.eqb k' k).
    + rewrite IH. now destruct (String.eqb k0 k), (String.eqb k' k).
Qed.

Lemma topics_of_dict_set (k : string) (v : channel_info) (d : list (string * channel_info)) :
  topics_of_dict (dict_set k v d) = {[ topic_of k ]} ∪ topics_of_dict d.
Proof.
  apply set_eq. intros t.
  rewrite elem_of_union, elem_of_singleton, !elem_of_topics_of_dict.
  split.
  - intros (k' & -> & H). rewrite dict_in_set in H.
    apply orb_true_iff in H as [H|H]; [left | right; eauto].
    apply String.eqb_eq in H. now subst.
  - intros [-> | (k' & -> & H)]; eexists; split; try reflexivity;
      rewrite dict_in_set; [now rewrite String.eqb_refl | now rewrite H, orb_true_r].
Qed.

Lemma topics_of_dict_del (k : string) (d : list (string * channel_info)) :
  topics_of_dict (dict_del k d) = topics_of_dict d ∖ {[ topic_of k ]}.
Proof.
  apply set_eq. intros t.
  rewrite elem_of_difference, elem_of_singleton, !elem_of_topics_of_dict.
  split.
  - intros (k' & -> & H). rewrite dict_in_del in H.
    apply andb_true_iff in H as [Hne H]. split; [eauto|].
    intros Heq. apply topic_of_inj in Heq. subst k'.
    now rewrite String.eqb_refl in Hne.
  - intros [(k' & -> & H) Hne]. exists k'. split; [reflexivity|].
    rewrite dict_in_del, H, andb_true_r.
    apply negb_true_iff, String.eqb_neq. intros ->. now apply Hne.
Qed.

Lemma NoDup_keys_set (k : string) (v : channel_info) (d : list (string * channel_info)) :
  NoDup (map fst d) -> NoDup (map fst (dict_set k v d)).
Proof.
  intros Hd. destruct (dict_in k d) eqn:E.
  - now rewrite keys_dict_set_old.
  - rewrite keys_dict_set_new by exact E.
    apply NoDup_app. repeat split; [exact Hd | | apply NoDup_singleton].
    intros x Hx Hk. apply list_elem_of_singleton in Hk. subst x.
    apply list_elem_of_In, dict_in_keys in Hx. congruence.
Qed.

Lemma NoDup_keys_del (k : string) (d : list (string * channel_info)) :
  NoDup (map fst d) -> NoDup (map fst (dict_del k d)).
Proof.
  induction d as [|[k0 v0] d IH]; simpl; intros Hd; [constructor|].
  apply NoDup_cons in Hd as [Hk0 Hd].
  destruct (String.eqb k0 k) eqn:E; [now apply IH|].
  simpl. apply NoDup_cons. split; [|now apply IH].
  rewrite list_elem_of_In, <- dict_in_keys, dict_in_del.
  rewrite list_elem_of_In, <- dict_in_keys in Hk0.
  destruct (dict_in k0 d); [now contradiction Hk0 | now rewrite andb_false_r].
Qed.

Lemma size_topics_of_dict (d : list (string * channel_info)) :
  NoDup (map fst d) -> size (topics_of_dict d) = length d.
Proof.
  intros Hd. unfold topics_of_dict. rewrite size_list_to_set.
  - now rewrite !length_map.
  - apply (NoDup_fmap_2_strong topic_of); [|exact Hd].
    intros x y _ _. apply topic_of_inj.
Qed.

Ltac script_head :=
  match goal with
  | H : Forall _ (Some _ :: _) |- _ => inversion H; discriminate
  | H : Forall _ (None :: _) |- _ => inversion H; subst; solve [auto]
  | |- Forall _ [] => constructor
  | |- _ = _ => reflexivity
  end.

(** What one call does to a connected client: the connection stays
    active, the keys stay distinct, and the topics of the dict move as
    the call's outcome says. *)
Lemma run_op_step (op : channel_op) (w : world) :
  active (self w) = true ->
  NoDup (map fst (channels (self w))) ->
  active (self (snd (run_op op w))) = true /\
  NoDup (map fst (channels (self (snd (run_op op w))))) /\
  topics_of_dict (channels (self (snd (run_op op w)))) =
    live_topics [(op, fst (run_op op w))] (topics_of_dict (channels (self w))) /\
  (sends_succeed w ->
   fst (run_op op w) = Ok tt /\ sends_succeed (snd (run_op op w))).
Proof.
  intros Ha Hd. unfold sends_succeed. destruct op as [cid cbs|cid]; simpl.
  - unfold join_channel, websocket_send. step.
    rewrite guard_is_not_active, Ha. simpl.
    destruct (send_script w) as [|[e|] rest] eqn:Hs; simpl;
      repeat split; try assumption;
      try (now apply NoDup_keys_set); try apply topics_of_dict_set;
      try script_head.
  - unfold leave_channel, channel_topic, del_channel, websocket_send. step.
    destruct (dict_in cid (channels (self w))) eqn:Hin; simpl.
    + pose proof Ha as Ha'. unfold active in Ha'. rewrite Ha'. simpl.
      pose proof Hin as Hg. rewrite dict_in_get in Hg.
      destruct (dict_get cid (channels (self w))) as [info|]; [|discriminate Hg]. simpl.
      destruct (send_script w) as [|[e|] rest] eqn:Hs; simpl; rewrite ?Hin; simpl;
        repeat split; try assumption;
        try (now apply NoDup_keys_del); try apply topics_of_dict_del;
        try script_head.
    + repeat split; try assumption.
      symmetry. apply set_eq. intros t.
      rewrite elem_of_difference, elem_of_singleton, elem_of_topics_of_dict.
      split; [tauto|]. intros (k & -> & Hk). split; [eauto|].
      intros Heq. apply topic_of_inj in Heq. congruence.
Qed.

Lemma run_ops_invariant (ops : list channel_op) (w : world) :
  active (self w) = true ->
  NoDup (map fst (channels (self w))) ->
  active (self (snd (run_ops ops w))) = true /\
  NoDup (map fst (channels (self (snd (run_ops ops w))))) /\
  topics_of_dict (channels (self (snd (run_ops ops w)))) =
    live_topics (zip ops (fst (run_ops ops w))) (topics_of_dict (channels (self w))) /\
  (sends_succeed w -> Forall (fun r => r = Ok tt) (fst (run_ops ops w))).
Proof.
  revert w. induction ops as [|op ops IH]; intros w Ha Hd; simpl.
  - repeat split; auto.
  - destruct (run_op_step op w Ha Hd) as (Ha1 & Hd1 & Ht1 & Hs1).
    destruct (run_op op w) as [r w1]. simpl in *.
    destruct (IH w1 Ha1 Hd1) as (Ha2 & Hd2 & Ht2 & Hs2).
    destruct (run_ops ops w1) as [rs w2]. simpl in *.
    repeat split; try assumption.
    + rewrite Ht2, Ht1. now destruct op, r.
    + intros Hs. destruct (Hs1 Hs) as [-> Hs']. constructor; auto.
Qed.

(** C6.  Starting from a connected client with no subscription, after any
    series of join and leave calls the subscription dict has distinct keys
    and as many entries as there are distinct topics joined and not left
    since (so joining a topic again does not grow it); every one of the
    calls returns when the transport accepts the frames; and afterwards no
    channel-scoped sender succeeds, or puts a frame on the wire, for a
    topic that is not in the dict. *)
Theorem subscriptions_count_live_topics (w : world) (ops : list channel_op) :
  active (self w) = true ->
  channels (self w) = [] ->
  let rs := fst (run_ops ops w) in
  let w' := snd (run_ops ops w) in
  NoDup (map fst (channels (self w'))) /\
  length (channels (self w')) = size (live_topics (zip ops rs) ∅) /\
  (sends_succeed w -> Forall (fun r => r = Ok tt) rs) /\
  (forall channel_id s,
      dict_in channel_id (channels (self w')) = false ->
      fst (run_sender channel_id s w') = Raise (NotJoinedError channel_id) /\
      wire (snd (run_sender channel_id s w')) = wire w').
Proof.
  intros Ha Hc. cbv zeta.
  assert (Hd : NoDup (map fst (channels (self w)))) by (rewrite Hc; constructor).
  destruct (run_ops_invariant ops w Ha Hd) as (Ha' & Hd' & Ht & Hs).
  repeat split; try assumption.
  - rewrite <- (size_topics_of_dict _ Hd'), Ht, Hc. reflexivity.
  - destruct (run_sender_guard (snd (run_ops ops w)) channel_id s (or_intror H))
      as (w1 & -> & _ & _).
    now rewrite Ha'.
  - destruct (run_sender_guard (snd (run_ops ops w)) channel_id s (or_intror H))
      as (w1 & -> & Hw & _).
    exact Hw.
Qed.

Lemma subscriptions_count_live_topics_witness :
  map fst (channels (self (snd (run_ops sample_ops connected_world)))) = ["c1"] /\
  length (channels (self (snd (run_ops sample_ops connected_world)))) =
    size (live_topics (zip sample_ops (fst (run_ops sample_ops connected_world))) ∅).
Proof.
  split.
  - reflexivity.
  - exact (proj1 (proj2
      (subscriptions_count_live_topics connected_world sample_ops eq_refl eq_refl))).
Defined.

(** * Further properties of the WebSocket client *)

(** ** More on the dict *)

Section DictMoreFacts.
Context {V : Type}.
Implicit Types (d : list (string * V)) (k : string).

Lemma dict_get_set k k' (v : V) d :
  dict_get k (dict_set k' v d) = if String.eqb k' k then Some v else dict_get k d.
Proof.
  induction d as [|[k0 v0] d IH]; simpl.
  - destruct (String.eqb k' k); reflexivity.
  - destruct (String.eqb k0 k') eqn:E0; simpl.
    + apply String.eqb_eq in E0; subst k0. now destruct (String.eqb k' k).
    + rewrite IH. destruct (String.eqb k0 k) eqn:E1; [|reflexivity].
      apply String.eqb_eq in E1; subst k0. now rewrite String.eqb_sym, E0.
Qed.

Lemma dict_del_absent k d : dict_in k d = false -> dict_del k d = d.
Proof.
  induction d as [|[k0 v0] d IH]; simpl; [reflexivity|].
  destruct (String.eqb k0 k); simpl; [discriminate|].
  intros H. now rewrite IH.
Qed.

Lemma dict_del_set_new k (v : V) d :
  dict_in k d = false -> dict_del k (dict_set k v d) = d.
Proof.
  induction d as [|[k0 v0] d IH]; simpl.
  - now rewrite String.eqb_refl.
  - destruct (String.eqb k0 k) eqn:E; simpl; [discriminate|].
    intros H. now rewrite E, IH.
Qed.

Lemma Forall_dict_set (P : string * V -> Prop) k (v : V) d :
  P (k, v) -> Forall P d -> Forall P (dict_set k v d).
Proof.
  intros Hv. induction 1 as [|[k0 v0] d H0 Hd IH]; simpl.
  - now constructor.
  - destruct (String.eqb k0 k); constructor; auto.
Qed.

Lemma Forall_dict_del (P : string * V -> Prop) k d :
  Forall P d -> Forall P (dict_del k d).
Proof.
  induction 1 as [|[k0 v0] d H0 Hd IH]; simpl; [constructor|].
  destruct (String.eqb k0 k); [exact IH | now constructor].
Qed.
End DictMoreFacts.

(** ** join_channel *)

Lemma join_channel_inactive (w : world) (channel_id : string) (cbs : option (gmap string handler)) :
  active (self w) = false ->
  join_channel channel_id cbs w = (Raise NotConnectedError, w).
Proof.
  intros Ha. unfold join_channel. step. now rewrite guard_is_not_active, Ha.
Qed.

(** What [join_channel] does to a connected client, by the fate of its
    [send]. *)
Lemma join_channel_active (w : world) (channel_id : string) (cbs : option (gmap string handler)) :
  active (self w) = true ->
  let join_message :=
    envelope (topic_of channel_id) "phx_join" (JObj [])
      ("ref_" +:+ pretty (hd 0%Z (clock w))) in
  let record := {| topic := topic_of channel_id; callbacks := default ∅ cbs |} in
  exists w',
    match send_script w with
    | Some e :: _ =>
        join_channel channel_id cbs w = (Raise e, w') /\
        self w' = self w /\ wire w' = wire w
    | _ =>
        join_channel channel_id cbs w = (Ok tt, w') /\
        self w' = set_channels (dict_set channel_id record (channels (self w))) (self w) /\
        wire w' = wire w ++ [join_message]
    end /\
    send_script w' = tl (send_script w) /\ closed w' = closed w /\ calls w' = calls w.
Proof.
  intros Ha. cbv zeta. unfold join_channel, websocket_send, topic_of. step.
  rewrite guard_is_not_active, Ha. simpl.
  destruct (send_script w) as [|[e|] rest]; simpl; eexists; repeat split; reflexivity.
Qed.

(** X1: the three ways a join can end.  Without an active connection it
    raises the not-connected error and changes nothing.  With one, a
    [phx_join] envelope for ["channel:" ++ id] with an empty payload is
    handed to the transport: when that raises, the exception reaches the
    caller and nothing is recorded; when it returns, the record with the
    topic and the callbacks can be looked up under the id, and every
    other subscription is as before. *)
Theorem join_channel_cases
    (w : world) (channel_id : string) (cbs : option (gmap string handler)) :
  let r := fst (join_channel channel_id cbs w) in
  let w' := snd (join_channel channel_id cbs w) in
  if active (self w) then
    match send_script w with
    | Some e :: _ =>
        r = Raise e /\ wire w' = wire w /\ self w' = self w
    | _ =>
        r = Ok tt /\
        wire w' = wire w ++
          [envelope ("channel:" +:+ channel_id) "phx_join" (JObj [])
             ("ref_" +:+ pretty (hd 0%Z (clock w)))] /\
        dict_get channel_id (channels (self w')) =
          Some {| topic := "channel:" +:+ channel_id; callbacks := default ∅ cbs |} /\
        (forall other, other <> channel_id ->
           dict_get other (channels (self w')) = dict_get other (channels (self w)))
    end
  else r = Raise NotConnectedError /\ w' = w.
Proof.
  cbv zeta. destruct (active (self w)) eqn:Ha.
  - destruct (join_channel_active w channel_id cbs Ha) as (w' & H & _).
    destruct (send_script w) as [|[e|] rest];
      destruct H as (-> & Hs & Hw); cbn [fst snd]; rewrite Hs; cbn;
      repeat split; try assumption;
      try (rewrite dict_get_set, String.eqb_refl; reflexivity);
      intros other Ho; rewrite dict_get_set;
      apply String.eqb_neq in Ho; rewrite String.eqb_sym in Ho; now rewrite Ho.
  - now rewrite join_channel_inactive.
Qed.

(** ** The senders, in full *)

Lemma _send_channel_event_effect
    (w : world) (channel_id event : string) (payload : json) :
  let r := fst (_send_channel_event channel_id event payload w) in
  let w' := snd (_send_channel_event channel_id event payload w) in
  self w' = self w /\ calls w' = calls w /\ closed w' = closed w /\
  match r with
  | Ok _ =>
      exists info ref,
        active (self w) = true /\
        dict_get channel_id (channels (self w)) = Some info /\
        wire w' = wire w ++ [envelope (topic info) event payload ref]
  | Raise _ => wire w' = wire w
  end.
Proof.
  cbv zeta. destruct (active (self w)) eqn:Ha.
  - destruct (dict_get channel_id (channels (self w))) as [info|] eqn:Hg.
    + rewrite (_send_channel_event_sends w channel_id event payload info Ha Hg).
      unfold websocket_send, time_ms. cbn.
      destruct (send_script w) as [|[e|] rest]; cbn; repeat split; eauto.
    + rewrite _send_channel_event_guard
        by (right; rewrite dict_in_get, Hg; reflexivity).
      rewrite Ha. cbn. auto.
  - rewrite _send_channel_event_guard by now left.
    rewrite Ha. cbn. auto.
Qed.

Lemma temp_id_or_now_effect (temp_id : option string) (w : world) :
  exists tid w1,
    temp_id_or_now temp_id w = (Ok tid, w1) /\
    self w1 = self w /\ wire w1 = wire w /\ calls w1 = calls w /\ closed w1 = closed w.
Proof.
  unfold temp_id_or_now. destruct temp_id as [[|a t]|];
    cbv [bind ret time_ms]; eexists; eexists; repeat split.
Qed.

(** X2: no sender touches the client object, the handlers or the
    transport's life; it puts at most one frame on the wire.  When it
    returns, the connection was active, the channel was joined, and the
    one frame sent is the envelope with the channel's recorded topic and
    the sender's event name; when it raises, nothing was sent. *)
Theorem sender_sends_one_envelope (w : world) (channel_id : string) (s : sender_call) :
  let r := fst (run_sender channel_id s w) in
  let w' := snd (run_sender channel_id s w) in
  self w' = self w /\ calls w' = calls w /\ closed w' = closed w /\
  match r with
  | Ok _ =>
      exists info payload ref,
        active (self w) = true /\
        dict_get channel_id (channels (self w)) = Some info /\
        wire w' = wire w ++ [envelope (topic info) (event_name s) payload ref]
  | Raise _ => wire w' = wire w
  end.
Proof.
  cbv zeta.
  assert (Hgen : forall event payload,
    let X := _send_channel_event channel_id event payload w in
    self (snd X) = self w /\ calls (snd X) = calls w /\ closed (snd X) = closed w /\
    match fst X with
    | Ok _ =>
        exists info payload ref,
          active (self w) = true /\
          dict_get channel_id (channels (self w)) = Some info /\
          wire (snd X) = wire w ++ [envelope (topic info) event payload ref]
    | Raise _ => wire (snd X) = wire w
    end).
  { intros event payload. cbv zeta.
    destruct (_send_channel_event_effect w channel_id event payload) as (A & B & C & D).
    repeat split; try assumption.
    destruct (fst (_send_channel_event channel_id event payload w)); [|exact D].
    destruct D as (info & ref & D). exists info, payload, ref. exact D. }
  destruct s; cbn [run_sender event_name];
    unfold edit_message, delete_message, start_typing, stop_typing,
      add_reaction, remove_reaction, mark_as_read, load_older_messages;
    try apply Hgen.
  unfold send_message.
  destruct (temp_id_or_now_effect temp_id w) as (tid & w1 & E & Hs & Hw & Hc & Hcl).
  rewrite (bind_ok _ _ _ _ _ E).
  destruct (_send_channel_event_effect w1 channel_id "send_message"
              (JObj [("content", JStr content); ("temp_id", JStr tid)]))
    as (A & B & C & D).
  rewrite A, B, C, Hs, Hc, Hcl. repeat split.
  destruct (fst (_send_channel_event channel_id "send_message"
                   (JObj [("content", JStr content); ("temp_id", JStr tid)]) w1)).
  - destruct D as (info & ref & D1 & D2 & D3).
    exists info, (JObj [("content", JStr content); ("temp_id", JStr tid)]), ref.
    rewrite <- Hs, <- Hw. auto.
  - now rewrite <- Hw.
Qed.

(** ** What each call does to the client object *)

Lemma connect_effect (w : world) (token : string) :
  exists w',
    match connect_script w with
    | Some e :: _ =>
        connect token w = (Raise (ConnectionError e), w') /\ self w' = self w
    | _ =>
        connect token w = (Ok tt, w') /\
        self w' =
          set_listen_task (Some TaskPending)
            (set_connected true
               (set_websocket (Some (url (self w) +:+ "?token=" +:+ token)) (self w)))
    end /\
    wire w' = wire w /\ closed w' = closed w /\ calls w' = calls w /\
    send_script w' = send_script w.
Proof.
  unfold connect, websockets_connect. step.
  destruct (connect_script w) as [|[e|] rest]; simpl; eexists; repeat split; reflexivity.
Qed.

Lemma disconnect_effect (w : world) :
  exists w',
    disconnect w = (Ok tt, w') /\
    self w' =
      set_channels []
        (set_websocket None
           (set_listen_task (option_map cancel (_listen_task (self w)))
              (set_connected false (self w)))) /\
    closed w' = closed w ++ match websocket (self w) with Some ws => [ws] | None => [] end /\
    wire w' = wire w /\ calls w' = calls w /\ send_script w' = send_script w.
Proof.
  destruct w as [[u ws d hs b t] sent cl cs lg ck ss cn].
  destruct t as [t|], ws; cbn; eexists; repeat split; now rewrite ?app_nil_r.
Qed.

Lemma leave_channel_self (w : world) (channel_id : string) :
  (self (snd (leave_channel channel_id w)) = self w \/
   self (snd (leave_channel channel_id w)) =
     set_channels (dict_del channel_id (channels (self w))) (self w)) /\
  closed (snd (leave_channel channel_id w)) = closed w /\
  calls (snd (leave_channel channel_id w)) = calls w.
Proof.
  unfold leave_channel, channel_topic, del_channel, websocket_send. step.
  destruct (dict_in channel_id (channels (self w))) eqn:Hin; simpl; [|auto].
  pose proof Hin as Hg. rewrite dict_in_get in Hg.
  destruct (dict_get channel_id (channels (self w))) as [info|] eqn:G; [|discriminate Hg].
  destruct (truthy (websocket (self w)) && connected (self w)); simpl;
    rewrite ?G; simpl.
  - destruct (send_script w) as [|[e|] rest]; simpl; rewrite ?Hin; simpl; auto.
  - rewrite Hin. simpl. auto.
Qed.

Lemma join_channel_self (w : world) (channel_id : string) (cbs : option (gmap string handler)) :
  (self (snd (join_channel channel_id cbs w)) = self w \/
   self (snd (join_channel channel_id cbs w)) =
     set_channels
       (dict_set channel_id {| topic := topic_of channel_id; callbacks := default ∅ cbs |}
          (channels (self w))) (self w)) /\
  closed (snd (join_channel channel_id cbs w)) = closed w /\
  calls (snd (join_channel channel_id cbs w)) = calls w.
Proof.
  destruct (active (self w)) eqn:Ha.
  - destruct (join_channel_active w channel_id cbs Ha) as (w' & H & _ & Hc & Hk).
    destruct (send_script w) as [|[e|] rest]; destruct H as (-> & Hs & _);
      cbn [fst snd]; auto.
  - rewrite join_channel_inactive by exact Ha. auto.
Qed.

Lemma listen_inactive
    (json_loads : string -> string + json) (inbox : list recv_outcome) (w : world) :
  active (self w) = false ->
  _listen_for_messages json_loads inbox w = (Ok Returned, w).
Proof.
  intros Ha. destruct inbox; cbn [_listen_for_messages];
    unfold bind, get_self; now rewrite loop_test_is_active, Ha.
Qed.

(** One turn of the loop, with everything it leaves alone. *)
Lemma listen_iteration_trace
    (json_loads : string -> string + json) (r : recv_outcome) (w : world) :
  exists w1,
    listen_iteration json_loads r w =
      (Ok (if transport_failure r then Break else Continue), w1) /\
    self w1 = (if transport_failure r then set_connected false (self w) else self w) /\
    wire w1 = wire w /\ closed w1 = closed w /\ send_script w1 = send_script w /\
    calls w1 = calls w ++ delivered json_loads (self w) r.
Proof.
  unfold listen_iteration, try_except, bind at 1, websocket_recv, delivered.
  destruct r as [text|e]; cbn [transport_failure].
  - unfold ret at 1, loads, bind at 1.
    destruct (json_loads text) as [msg|v].
    + unfold raise. cbn. eexists; repeat split; now rewrite app_nil_r.
    + unfold ret at 1.
      assert (Hskip : forall e0,
        _handle_message v w = (Raise e0, w) -> is_WebSocketException e0 = false ->
        exists w1,
          (let (r, w') := (_handle_message v;; ret Continue) w in
           match r with
           | Ok a => (Ok a, w')
           | Raise e =>
               (if is_ConnectionClosed e
                then logger "INFO" "WebSocket connection closed";;
                     assign (set_connected false);; ret Break
                else if is_WebSocketException e
                     then logger "ERROR" ("WebSocket error: " +:+ str e);;
                          assign (set_connected false);; ret Break
                     else logger "ERROR" ("Error handling message: " +:+ str e);;
                          ret Continue) w'
           end) = (Ok Continue, w1) /\
          self w1 = self w /\ wire w1 = wire w /\ closed w1 = closed w /\
          send_script w1 = send_script w /\ calls w1 = calls w).
      { intros e0 E He.
        assert (Hc : is_ConnectionClosed e0 = false).
        { unfold is_ConnectionClosed. unfold is_WebSocketException in He.
          now destruct (exn_type e0). }
        rewrite (bind_raise _ _ _ _ _ E), Hc, He. cbn.
        eexists; repeat split. }
      destruct v as [|b|n|l|s|l|fields];
        try (destruct (Hskip _ eq_refl eq_refl) as (w1 & E & A & B & C & D & F);
             exists w1; rewrite F, app_nil_r; now repeat split).
      destruct (hashable (frame_event fields)) eqn:Hh.
      * destruct (_handle_message_dispatch fields w Hh) as (w1 & E & D).
        rewrite (bind_ok _ _ _ _ _ E). unfold ret.
        exists w1. split; [reflexivity|].
        destruct D as (D1 & D2 & D3 & D4 & D5 & D6 & D7). now repeat split.
      * destruct (Hskip _ (_handle_message_unhashable fields w Hh)) as (w1 & E & A & B & C & D & F).
        { now destruct (frame_event fields). }
        exists w1. rewrite F, app_nil_r. now repeat split.
  - unfold raise.
    destruct (is_ConnectionClosed e) eqn:Hc.
    + assert (He : is_WebSocketException e = true).
      { unfold is_ConnectionClosed in Hc. unfold is_WebSocketException.
        now destruct (exn_type e). }
      rewrite He. cbn. eexists; repeat split; now rewrite app_nil_r.
    + destruct (is_WebSocketException e); cbn; eexists; repeat split;
        now rewrite app_nil_r.
Qed.

(** The whole run from an active client. *)
Lemma listen_run_trace
    (json_loads : string -> string + json) (inbox : list recv_outcome) (w : world) :
  active (self w) = true ->
  exists w',
    _listen_for_messages json_loads inbox w =
      (Ok (if existsb transport_failure inbox then Returned else Awaiting), w') /\
    self w' =
      (if existsb transport_failure inbox then set_connected false (self w) else self w) /\
    wire w' = wire w /\ closed w' = closed w /\ send_script w' = send_script w /\
    calls w' = calls w ++ flat_map (delivered json_loads (self w)) (before_failure inbox).
Proof.
  revert w. induction inbox as [|r rest IH]; intros w Ha.
  - cbn [_listen_for_messages existsb before_failure flat_map]. unfold bind, get_self.
    rewrite loop_test_is_active, Ha. unfold ret.
    exists w. now rewrite app_nil_r.
  - rewrite listen_cons by exact Ha. cbn [existsb before_failure].
    destruct (listen_iteration_trace json_loads r w) as (w1 & E & Hs & Hw & Hc & Hss & Hk).
    rewrite (bind_ok _ _ _ _ _ E).
    destruct (transport_failure r) eqn:Tf; cbn [orb flat_map].
    + unfold ret. exists w1. rewrite Hk.
      destruct r as [text|e]; [discriminate Tf|].
      cbn [delivered]. rewrite !app_nil_r. now repeat split.
    + destruct (IH w1) as (w' & E' & Hs' & Hw' & Hc' & Hss' & Hk'); [now rewrite Hs|].
      exists w'. split; [exact E'|].
      rewrite Hs', Hw', Hc', Hss', Hk', Hs, Hw, Hc, Hss, Hk, <- app_assoc.
      now repeat split.
Qed.

(** The receive task, run from any state. *)
Lemma run_listen_task_effect
    (json_loads : string -> string + json) (inbox : list recv_outcome) (w : world) :
  exists w',
    run_listen_task json_loads inbox w = (Ok tt, w') /\
    wire w' = wire w /\ closed w' = closed w /\ send_script w' = send_script w /\
    (self w' = self w \/
     (_listen_task (self w) = Some TaskPending /\ active (self w) = false /\
      self w' = set_listen_task (Some TaskDone) (self w)) \/
     (_listen_task (self w) = Some TaskPending /\ active (self w) = true /\
      existsb transport_failure inbox = true /\
      self w' = set_listen_task (Some TaskDone) (set_connected false (self w)))).
Proof.
  unfold run_listen_task, bind at 1, get_self at 1.
  destruct (_listen_task (self w)) as [[| |]|] eqn:Ht;
    try solve [exists w; unfold ret; intuition auto].
  destruct (active (self w)) eqn:Ha.
  - destruct (listen_run_trace json_loads inbox w Ha) as (w1 & E & Hs & Hw & Hc & Hss & _).
    rewrite (bind_ok _ _ _ _ _ E).
    destruct (existsb transport_failure inbox).
    + unfold assign, bind, get_self, put_self. cbn.
      eexists; split; [reflexivity|]. cbn. rewrite Hs. intuition auto.
    + unfold ret. exists w1. rewrite Hs. intuition auto.
  - rewrite (bind_ok _ _ _ _ _ (listen_inactive json_loads inbox w Ha)).
    unfold assign, bind, get_self, put_self. cbn.
    eexists; split; [reflexivity|]. cbn. intuition auto.
Qed.

Lemma on_effect (event : string) (h : handler) (w : world) :
  exists w',
    on event h w = (Ok tt, w') /\
    self w' =
      set_event_handlers
        (<[event := default [] (event_handlers (self w) !! event) ++ [h]]>
           (event_handlers (self w))) (self w) /\
    wire w' = wire w /\ closed w' = closed w /\ calls w' = calls w.
Proof. rewrite on_appends. eexists; repeat split. Qed.

Lemma run_sender_self (w : world) (channel_id : string) (s : sender_call) :
  self (snd (run_sender channel_id s w)) = self w.
Proof.
  destruct s; cbn [run_sender];
    unfold edit_message, delete_message, start_typing, stop_typing,
      add_reaction, remove_reaction, mark_as_read, load_older_messages;
    try apply _send_channel_event_effect.
  unfold send_message.
  destruct (temp_id_or_now_effect temp_id w) as (tid & w1 & E & Hs & _).
  rewrite (bind_ok _ _ _ _ _ E), <- Hs. apply _send_channel_event_effect.
Qed.

(** ** Two invariants of the client *)

Lemma well_formed_set_channels (c : WebSocketClient) (d : list (string * channel_info)) :
  NoDup (map fst d) ->
  Forall (fun entry => topic (snd entry) = topic_of (fst entry)) d ->
  well_formed (set_channels d c).
Proof. now split. Qed.

Lemma run_call_well_formed
    (json_loads : string -> string + json) (call : client_call) (w : world) :
  well_formed (self w) -> well_formed (self (snd (run_call json_loads call w))).
Proof.
  intros [Hd Hf]. destruct call as [token| |cid cbs|cid|cid s|event h|inbox]; cbn [run_call].
  - destruct (connect_effect w token) as (w' & H & _).
    destruct (connect_script w) as [|[e|] rest]; destruct H as (E & Hs);
      rewrite E; cbn [snd]; rewrite Hs; now split.
  - destruct (disconnect_effect w) as (w' & E & Hs & _).
    rewrite E; cbn [snd]; rewrite Hs. split; constructor.
  - destruct (join_channel_self w cid cbs) as ([-> | ->] & _); [now split|].
    apply well_formed_set_channels; [now apply NoDup_keys_set|].
    now apply Forall_dict_set.
  - destruct (leave_channel_self w cid) as ([-> | ->] & _); [now split|].
    apply well_formed_set_channels; [now apply NoDup_keys_del|].
    now apply Forall_dict_del.
  - rewrite run_sender_self. now split.
  - destruct (on_effect event h w) as (w' & E & Hs & _).
    rewrite E; cbn [snd]; rewrite Hs. now split.
  - destruct (run_listen_task_effect json_loads inbox w)
      as (w' & E & _ & _ & _ & [Hs | [(_ & _ & Hs) | (_ & _ & _ & Hs)]]);
      rewrite E; cbn [snd]; rewrite Hs; now split.
Qed.

Lemma run_call_flag_sound
    (json_loads : string -> string + json) (call : client_call) (w : world) :
  flag_sound (self w) -> flag_sound (self (snd (run_call json_loads call w))).
Proof.
  unfold flag_sound. intros Hf.
  destruct call as [token| |cid cbs|cid|cid s|event h|inbox]; cbn [run_call].
  - destruct (connect_effect w token) as (w' & H & _).
    destruct (connect_script w) as [|[e|] rest]; destruct H as (E & Hs);
      rewrite E; cbn [snd]; rewrite Hs; cbn; auto.
  - destruct (disconnect_effect w) as (w' & E & Hs & _).
    rewrite E; cbn [snd]; rewrite Hs. cbn. discriminate.
  - destruct (join_channel_self w cid cbs) as ([-> | ->] & _); cbn; auto.
  - destruct (leave_channel_self w cid) as ([-> | ->] & _); cbn; auto.
  - now rewrite run_sender_self.
  - destruct (on_effect event h w) as (w' & E & Hs & _).
    rewrite E; cbn [snd]; rewrite Hs. cbn. auto.
  - destruct (run_listen_task_effect json_loads inbox w)
      as (w' & E & _ & _ & _ & [Hs | [(Ht & Ha & Hs) | (_ & _ & _ & Hs)]]);
      rewrite E; cbn [snd]; rewrite Hs; cbn; auto; try discriminate.
    intros Hc. destruct (Hf Hc) as [Hw _].
    unfold active in Ha. now rewrite Hw, Hc in Ha.
Qed.

(** X3: the subscription dict stays well formed.  Whatever is done to a
    client whose keys are distinct and whose records carry the topic
    ["channel:" ++ key] (a new client has no records at all), in whatever
    order and however the calls end, the keys are still distinct and
    every record still carries the topic of its key: no two
    subscriptions ever share a topic. *)
Theorem channels_stay_well_formed
    (json_loads : string -> string + json) (calls : list client_call) (w : world) :
  well_formed (self w) ->
  well_formed (self (run_calls json_loads calls w)).
Proof.
  revert w. induction calls as [|call rest IH]; intros w Hw; cbn [run_calls].
  - exact Hw.
  - apply IH. now apply run_call_well_formed.
Qed.

(** X4: the connection flag is never up without a receive loop.  On a
    client for which this holds (a new client's flag is down), after any
    events in any order, [connected] is true only if the client holds a
    transport and its receive task is pending. *)
Theorem connected_implies_listening
    (json_loads : string -> string + json) (calls : list client_call) (w : world) :
  flag_sound (self w) ->
  let c := self (run_calls json_loads calls w) in
  connected c = true ->
  truthy (websocket c) = true /\ _listen_task c = Some TaskPending.
Proof.
  revert w. induction calls as [|call rest IH]; intros w Hw; cbn [run_calls].
  - exact Hw.
  - apply IH. now apply run_call_flag_sound.
Qed.

Lemma channels_stay_well_formed_witness :
  well_formed (self (run_calls sample_loads history_reconnect fresh_world)) /\
  well_formed (self (run_calls sample_loads history_connected fresh_world)).
Proof.
  split; apply channels_stay_well_formed; split; constructor.
Defined.

Lemma connected_implies_listening_witness :
  let c := self (run_calls sample_loads history_connected fresh_world) in
  map fst (channels c) = ["c1"] /\
  truthy (websocket c) = true /\ _listen_task c = Some TaskPending.
Proof.
  split; [reflexivity|].
  apply (connected_implies_listening sample_loads history_connected fresh_world).
  - intros H. discriminate H.
  - reflexivity.
Defined.

(** ** The receive loop, read-only and in order *)

(** X5: the receive loop only reads.  From any state and for anything the
    transport delivers, the loop sends nothing, closes nothing, and
    leaves the subscriptions, the handler registry, the transport handle
    and the task handle of the client as they were; the one field it may
    change is the connection flag, and it never raises it. *)
Theorem receive_loop_is_read_only
    (json_loads : string -> string + json) (inbox : list recv_outcome) (w : world) :
  let w' := snd (_listen_for_messages json_loads inbox w) in
  wire w' = wire w /\ closed w' = closed w /\
  channels (self w') = channels (self w) /\
  event_handlers (self w') = event_handlers (self w) /\
  websocket (self w') = websocket (self w) /\
  _listen_task (self w') = _listen_task (self w) /\
  (connected (self w') = true -> connected (self w) = true).
Proof.
  cbv zeta. destruct (active (self w)) eqn:Ha.
  - destruct (listen_run_trace json_loads inbox w Ha) as (w' & E & Hs & Hw & Hc & _).
    rewrite E. cbn [snd]. rewrite Hs, Hw, Hc.
    destruct (existsb transport_failure inbox); cbn; repeat split; auto.
    discriminate.
  - rewrite (listen_inactive json_loads inbox w Ha). cbn [snd]. repeat split; auto.
Qed.

(** X6: frames reach the handlers in the order the transport produced
    them.  From a connected client the invocation trace grows by the
    dispatch of each delivery in turn, up to the first transport
    failure; nothing delivered after that failure is dispatched. *)
Theorem frames_dispatched_in_arrival_order
    (json_loads : string -> string + json) (inbox : list recv_outcome) (w : world) :
  active (self w) = true ->
  calls (snd (_listen_for_messages json_loads inbox w)) =
    calls w ++ flat_map (delivered json_loads (self w)) (before_failure inbox).
Proof.
  intros Ha.
  destruct (listen_run_trace json_loads inbox w Ha) as (w' & E & _ & _ & _ & _ & Hk).
  rewrite E. exact Hk.
Qed.

Lemma frames_dispatched_in_arrival_order_witness :
  calls (snd (_listen_for_messages sample_loads
                [Frame typing_text_c1; Frame "not json"; Frame typing_text_c1;
                 RecvRaises (Exn ConnectionClosed "no close frame received or sent");
                 Frame typing_text_c1] busy_world)) =
    [("cb", JObj []); ("first", JObj []); ("second", JObj []);
     ("cb", JObj []); ("first", JObj []); ("second", JObj [])].
Proof.
  apply (frames_dispatched_in_arrival_order sample_loads
           [Frame typing_text_c1; Frame "not json"; Frame typing_text_c1;
            RecvRaises (Exn ConnectionClosed "no close frame received or sent");
            Frame typing_text_c1] busy_world).
  reflexivity.
Defined.

(** ** Routing *)

Lemma topic_eq_topic_of (k k' : string) :
  topic_eq (topic_of k) (JStr (topic_of k')) = String.eqb k k'.
Proof.
  cbn [topic_eq]. destruct (String.eqb k k') eqn:E.
  - apply String.eqb_eq in E. subst. apply String.eqb_refl.
  - apply String.eqb_neq. intros H. apply topic_of_inj in H.
    apply String.eqb_neq in E. contradiction.
Qed.

Lemma find_channel_well_formed (c : WebSocketClient) (channel_id : string) :
  well_formed c ->
  dict_in channel_id (channels c) = true ->
  find_channel (JStr (topic_of channel_id)) (channels c) = Some channel_id.
Proof.
  intros [_ Hf].
  induction Hf as [|[k info] d Hk Hd IH]; cbn [find_channel dict_in]; [discriminate|].
  cbn [fst snd] in Hk. rewrite Hk, topic_eq_topic_of.
  destruct (String.eqb k channel_id) eqn:E; cbn [orb].
  - intros _. apply String.eqb_eq in E. now subst.
  - exact IH.
Qed.

(** X7: a frame goes to the channel it is addressed to, and to no other.
    On a well-formed client, a frame whose topic is ["channel:" ++ id]
    for a joined, non-empty id and whose event is the name [e] makes
    [_handle_message] invoke that channel's callback for [e] (if it has
    one), once and first, then the global handlers of [e]; no callback
    of another channel is invoked. *)
Theorem frame_reaches_its_channel
    (w : world) (channel_id : string) (info : channel_info)
    (fields : list (string * json)) (e : string) :
  well_formed (self w) ->
  channel_id <> "" ->
  dict_get channel_id (channels (self w)) = Some info ->
  frame_topic fields = JStr ("channel:" +:+ channel_id) ->
  frame_event fields = JStr e ->
  fst (_handle_message (JObj fields) w) = Ok tt /\
  calls (snd (_handle_message (JObj fields) w)) =
    calls w ++
    invocations (frame_payload fields)
      (option_list (callbacks info !! e) ++ default [] (event_handlers (self w) !! e)).
Proof.
  intros Hwf Hne Hg Ht He.
  assert (Hh : hashable (frame_event fields) = true) by now rewrite He.
  destruct (_handle_message_dispatch fields w Hh) as (w' & -> & D).
  cbn [fst snd]. split; [reflexivity|].
  destruct D as (_ & _ & _ & _ & _ & _ & ->).
  unfold addressed_callback, global_handlers.
  rewrite Ht, He.
  change ("channel:" +:+ channel_id) with (topic_of channel_id).
  rewrite (find_channel_well_formed _ _ Hwf)
    by (rewrite dict_in_get, Hg; reflexivity).
  destruct channel_id as [|a s]; [contradiction|]. now rewrite Hg.
Qed.

Lemma frame_reaches_its_channel_witness :
  fst (_handle_message (JObj typing_frame_c1) busy_world) = Ok tt /\
  calls (snd (_handle_message (JObj typing_frame_c1) busy_world)) =
    [("cb", JObj []); ("first", JObj []); ("second", JObj [])].
Proof.
  assert (Hwf : well_formed (self busy_world)).
  { split; repeat constructor. intros H. inversion H. }
  assert (Hne : "c1" <> "") by discriminate.
  exact (frame_reaches_its_channel busy_world "c1"
           {| topic := "channel:c1";
              callbacks := {[ "typing_start" := failing_handler "cb" ]} |}
           typing_frame_c1 "typing_start" Hwf Hne eq_refl eq_refl eq_refl).
Defined.

(** X8: a channel joined under the empty id is deaf.  The scan finds it,
    but [if channel_id:] takes the empty string for "no channel": on a
    well-formed client that joined [""], a frame with topic ["channel:"]
    reaches the global handlers of its event only, never a callback
    given at the join. *)
Theorem empty_channel_id_gets_no_events
    (w : world) (fields : list (string * json)) :
  well_formed (self w) ->
  dict_in "" (channels (self w)) = true ->
  frame_topic fields = JStr "channel:" ->
  hashable (frame_event fields) = true ->
  find_channel (frame_topic fields) (channels (self w)) = Some "" /\
  fst (_handle_message (JObj fields) w) = Ok tt /\
  calls (snd (_handle_message (JObj fields) w)) =
    calls w ++ invocations (frame_payload fields) (global_handlers (self w) fields).
Proof.
  intros Hwf Hin Ht Hh.
  assert (Hf : find_channel (frame_topic fields) (channels (self w)) = Some "").
  { rewrite Ht. change "channel:" with (topic_of "").
    now apply find_channel_well_formed. }
  split; [exact Hf|].
  destruct (_handle_message_dispatch fields w Hh) as (w' & -> & D).
  cbn [fst snd]. split; [reflexivity|].
  destruct D as (_ & _ & _ & _ & _ & _ & ->).
  unfold addressed_callback. now rewrite Hf.
Qed.

Lemma empty_channel_id_gets_no_events_witness :
  find_channel (frame_topic new_message_frame_empty_id) (channels (self deaf_world)) = Some "" /\
  fst (_handle_message (JObj new_message_frame_empty_id) deaf_world) = Ok tt /\
  calls (snd (_handle_message (JObj new_message_frame_empty_id) deaf_world)) =
    [("global", JObj [("content", JStr "hi")])].
Proof.
  assert (Hwf : well_formed (self deaf_world)).
  { split; repeat constructor. intros H. inversion H. }
  exact (empty_channel_id_gets_no_events deaf_world new_message_frame_empty_id
           Hwf eq_refl eq_refl eq_refl).
Defined.

(** ** How the calls compose *)

Lemma leave_channel_sends (w : world) (channel_id : string) (info : channel_info) :
  active (self w) = true ->
  dict_get channel_id (channels (self w)) = Some info ->
  match send_script w with Some _ :: _ => False | _ => True end ->
  exists w',
    leave_channel channel_id w = (Ok tt, w') /\
    self w' = set_channels (dict_del channel_id (channels (self w))) (self w) /\
    wire w' = wire w ++
      [envelope (topic info) "phx_leave" (JObj [])
         ("ref_" +:+ pretty (hd 0%Z (clock w)))].
Proof.
  intros Ha G Hs.
  unfold leave_channel, channel_topic, del_channel, websocket_send. step.
  rewrite dict_in_get, G. unfold active in Ha. rewrite Ha. simpl. rewrite G. simpl.
  destruct (send_script w) as [|[e|] rest]; try contradiction; simpl;
    rewrite dict_in_get, G; simpl; eexists; repeat split.
Qed.

(** X9: joining and then leaving restores the subscriptions.  On a
    connected client whose transport accepts the frames, joining a
    channel that was not joined and leaving it again leaves the client
    object exactly as it was, and puts two frames on the wire: the
    [phx_join] and the [phx_leave] of the same topic. *)
Theorem join_then_leave_restores
    (w : world) (channel_id : string) (cbs : option (gmap string handler)) :
  active (self w) = true ->
  sends_succeed w ->
  dict_in channel_id (channels (self w)) = false ->
  let r := fst ((join_channel channel_id cbs ;; leave_channel channel_id) w) in
  let w' := snd ((join_channel channel_id cbs ;; leave_channel channel_id) w) in
  r = Ok tt /\
  self w' = self w /\
  exists ref1 ref2,
    wire w' = wire w ++
      [envelope ("channel:" +:+ channel_id) "phx_join" (JObj []) ref1;
       envelope ("channel:" +:+ channel_id) "phx_leave" (JObj []) ref2].
Proof.
  intros Ha Hs Hin. cbv zeta.
  destruct (join_channel_active w channel_id cbs Ha) as (w1 & H & Hss & _).
  unfold sends_succeed in Hs.
  assert (Hok : join_channel channel_id cbs w = (Ok tt, w1) /\
                self w1 = set_channels
                  (dict_set channel_id
                     {| topic := topic_of channel_id; callbacks := default ∅ cbs |}
                     (channels (self w))) (self w) /\
                wire w1 = wire w ++
                  [envelope (topic_of channel_id) "phx_join" (JObj [])
                     ("ref_" +:+ pretty (hd 0%Z (clock w)))]).
  { destruct (send_script w) as [|[e|] rest]; try exact H.
    inversion Hs; discriminate. }
  clear H. destruct Hok as (E & Hself & Hwire).
  rewrite (bind_ok _ _ _ _ _ E).
  destruct (leave_channel_sends w1 channel_id
              {| topic := topic_of channel_id; callbacks := default ∅ cbs |})
    as (w2 & E2 & Hself2 & Hwire2).
  - rewrite Hself. exact Ha.
  - rewrite Hself. cbn. now rewrite dict_get_set, String.eqb_refl.
  - rewrite Hss. destruct (send_script w) as [|f [|[e|] rest]]; cbn; auto.
    inversion Hs as [|? ? _ Hr]. inversion Hr. discriminate.
  - rewrite E2. cbn [fst snd]. split; [reflexivity|].
    rewrite Hself2, Hwire2, Hself, Hwire. cbn.
    rewrite dict_del_set_new by exact Hin.
    split; [now destruct (self w)|].
    eexists; eexists. rewrite <- app_assoc. reflexivity.
Qed.

Lemma join_then_leave_restores_witness :
  let run := (join_channel "c9" None ;; leave_channel "c9") in
  fst (run joined_c1_quiet) = Ok tt /\
  channels (self (snd (run joined_c1_quiet))) = channels (self joined_c1_quiet) /\
  length (wire (snd (run joined_c1_quiet))) = 2.
Proof.
  assert (Hsend : sends_succeed joined_c1_quiet) by constructor.
  destruct (join_then_leave_restores joined_c1_quiet "c9" None eq_refl
              Hsend eq_refl) as (Hr & Hs & ref1 & ref2 & Hw).
  split; [exact Hr|]. split; [now rewrite Hs|]. now rewrite Hw.
Defined.

(** X10: after [disconnect] nothing can be sent.  Whatever the state was,
    once [disconnect] has returned, [join_channel] and every sender raise
    the not-connected error and [leave_channel] returns at once (there is
    no subscription left to leave); none of them puts a frame on the
    wire or changes the client. *)
Theorem nothing_goes_out_after_disconnect
    (w : world) (channel_id : string) (cbs : option (gmap string handler)) (s : sender_call) :
  let w1 := snd (disconnect w) in
  join_channel channel_id cbs w1 = (Raise NotConnectedError, w1) /\
  leave_channel channel_id w1 = (Ok tt, w1) /\
  fst (run_sender channel_id s w1) = Raise NotConnectedError /\
  wire (snd (run_sender channel_id s w1)) = wire w /\
  self (snd (run_sender channel_id s w1)) = self w1.
Proof.
  cbv zeta. destruct (disconnect_effect w) as (w1 & E & Hs & _ & Hw & _).
  rewrite E. cbn [snd].
  assert (Ha : active (self w1) = false).
  { rewrite Hs. reflexivity. }
  split; [now apply join_channel_inactive|].
  split.
  - unfold leave_channel, bind, get_self. rewrite Hs. reflexivity.
  - destruct (run_sender_guard w1 channel_id s (or_introl Ha)) as (w2 & -> & Hw2 & Hs2).
    cbn [fst snd]. rewrite Ha, Hw2, Hw. auto.
Qed.

(** X11: [disconnect] closes the transport [connect] opened, and only
    that one.  When the transport can be established, [connect] followed
    by [disconnect] returns; exactly one transport is closed, the one
    opened on the URI with the token; the client is left without
    transport, with its flag down, its receive task cancelled and no
    subscription. *)
Theorem connect_then_disconnect_closes_transport (w : world) (token : string) :
  match connect_script w with Some _ :: _ => False | _ => True end ->
  let r := fst ((connect token ;; disconnect) w) in
  let w' := snd ((connect token ;; disconnect) w) in
  r = Ok tt /\
  closed w' = closed w ++ [url (self w) +:+ "?token=" +:+ token] /\
  websocket (self w') = None /\
  connected (self w') = false /\
  _listen_task (self w') = Some TaskCancelled /\
  channels (self w') = [] /\
  wire w' = wire w.
Proof.
  intros Hc. cbv zeta.
  destruct (connect_effect w token) as (w1 & H & Hw1 & Hc1 & _).
  destruct (connect_script w) as [|[e|] rest]; try contradiction;
    destruct H as (E & Hs1); rewrite (bind_ok _ _ _ _ _ E);
    destruct (disconnect_effect w1) as (w2 & E2 & Hs2 & Hc2 & Hw2 & _);
    rewrite E2; cbn [fst snd]; rewrite Hs2, Hc2, Hw2, Hs1, Hc1, Hw1; cbn;
    now repeat split.
Qed.

Lemma connect_then_disconnect_closes_transport_witness :
  closed (snd ((connect "tok" ;; disconnect) joined_c1_quiet)) =
    ["ws://localhost:4000/socket/websocket?token=tok"] /\
  websocket (self (snd ((connect "tok" ;; disconnect) joined_c1_quiet))) = None.
Proof.
  destruct (connect_then_disconnect_closes_transport joined_c1_quiet "tok" I)
    as (_ & Hc & Hw & _).
  split; [exact Hc | exact Hw].
Defined.

Lemma leave_channel_inactive (w : world) (channel_id : string) :
  active (self w) = false ->
  dict_in channel_id (channels (self w)) = true ->
  exists w',
    leave_channel channel_id w = (Ok tt, w') /\
    self w' = set_channels (dict_del channel_id (channels (self w))) (self w) /\
    wire w' = wire w /\ closed w' = closed w.
Proof.
  intros Ha Hin.
  unfold leave_channel, del_channel. step.
  rewrite Hin. unfold active in Ha. rewrite Ha. simpl. rewrite Hin. simpl.
  eexists; repeat split.
Qed.

(** X12: a lost transport is not a disconnect.  When the receive task of a
    connected client meets a transport failure, the task ends and the
    flag goes down, but the transport handle is kept and not closed and
    the subscriptions stay.  From then on [join_channel] and every sender
    raise the not-connected error, and [leave_channel] on a joined
    channel removes its record without sending anything. *)
Theorem lost_transport_leaves_client_half_open
    (json_loads : string -> string + json) (inbox : list recv_outcome) (w : world)
    (channel_id : string) (cbs : option (gmap string handler)) (s : sender_call) :
  active (self w) = true ->
  _listen_task (self w) = Some TaskPending ->
  existsb transport_failure inbox = true ->
  let w1 := snd (run_listen_task json_loads inbox w) in
  (connected (self w1) = false /\ _listen_task (self w1) = Some TaskDone /\
   websocket (self w1) = websocket (self w) /\ closed w1 = closed w /\
   channels (self w1) = channels (self w)) /\
  fst (join_channel channel_id cbs w1) = Raise NotConnectedError /\
  fst (run_sender channel_id s w1) = Raise NotConnectedError /\
  (dict_in channel_id (channels (self w)) = true ->
   fst (leave_channel channel_id w1) = Ok tt /\
   wire (snd (leave_channel channel_id w1)) = wire w /\
   dict_in channel_id (channels (self (snd (leave_channel channel_id w1)))) = false).
Proof.
  intros Ha Ht Hf. cbv zeta.
  destruct (run_listen_task_effect json_loads inbox w)
    as (w1 & E & Hw & Hc & _ & Hs).
  rewrite E. cbn [snd].
  assert (Hself : self w1 = set_listen_task (Some TaskDone) (set_connected false (self w))).
  { destruct Hs as [Hs | [(_ & Ha' & _) | (_ & _ & _ & Hs)]]; [|congruence|exact Hs].
    exfalso.
    destruct (listen_run_trace json_loads inbox w Ha) as (w2 & E2 & Hs2 & _).
    unfold run_listen_task, bind at 1, get_self at 1 in E. rewrite Ht in E.
    rewrite (bind_ok _ _ _ _ _ E2), Hf in E.
    unfold assign, bind, get_self, put_self in E. cbn in E.
    inversion E as [Hw1]. rewrite <- Hw1 in Hs. cbn in Hs.
    rewrite Hs2, Hf in Hs.
    assert (Hk : _listen_task (set_listen_task (Some TaskDone) (set_connected false (self w)))
                 = _listen_task (self w)) by now rewrite Hs.
    cbn in Hk. congruence. }
  assert (Hina : active (self w1) = false).
  { rewrite Hself. unfold active. cbn. apply andb_false_r. }
  split; [rewrite Hself; cbn; auto|].
  split; [now rewrite join_channel_inactive|].
  split.
  - destruct (run_sender_guard w1 channel_id s (or_introl Hina)) as (w2 & -> & _).
    cbn [fst]. now rewrite Hina.
  - intros Hin.
    destruct (leave_channel_inactive w1 channel_id Hina) as (w2 & E2 & Hs2 & Hw2 & _).
    { rewrite Hself. exact Hin. }
    rewrite E2. cbn [fst snd]. rewrite Hs2, Hw2, Hw. cbn.
    split; [reflexivity|]. split; [reflexivity|]. apply dict_del_gone.
Qed.

Lemma lost_transport_leaves_client_half_open_witness :
  let inbox := [Frame typing_text_c1;
                RecvRaises (Exn ConnectionClosed "no close frame received or sent")] in
  let w1 := snd (run_listen_task sample_loads inbox busy_world) in
  connected (self w1) = false /\
  websocket (self w1) = Some "ws://localhost:4000/socket/websocket?token=t" /\
  fst (run_sender "c1" StartTyping w1) = Raise NotConnectedError /\
  fst (leave_channel "c1" w1) = Ok tt /\
  wire (snd (leave_channel "c1" w1)) = [].
Proof.
  destruct (lost_transport_leaves_client_half_open sample_loads
              [Frame typing_text_c1;
               RecvRaises (Exn ConnectionClosed "no close frame received or sent")]
              busy_world "c1" None StartTyping eq_refl eq_refl eq_refl)
    as ((Hc & _ & Hw & _) & _ & Hs & Hl).
  destruct (Hl eq_refl) as (Hl1 & Hl2 & _).
  cbv zeta. repeat split; assumption.
Defined.

(** * Properties of the REST side *)

Section RestFacts.
Import REST.
#[local] Open Scope rest_scope.

Lemma and_then_returns {A B} (m : R A) (k : A -> R B) (s s' : state) (a : A) :
  m s = (Returns a, s') -> and_then m k s = k a s'.
Proof. unfold and_then. now intros ->. Qed.

Lemma and_then_raises {A B} (m : R A) (k : A -> R B) (s s' : state) (e : error) :
  m s = (Raises e, s') -> and_then m k s = (Raises e, s').
Proof. unfold and_then. now intros ->. Qed.

(** ** The base URL *)

Lemma rstrip_slash_spec (s : string) :
  ends_with_slash (rstrip_slash s) = false /\
  exists n, s = rstrip_slash s +:+ slashes n.
Proof.
  induction s as [|c rest [IHe [n IHn]]]; cbn [rstrip_slash].
  - split; [reflexivity | now exists 0%nat].
  - destruct (rstrip_slash rest) as [|a r] eqn:E.
    + destruct (Ascii.eqb c "/") eqn:Ec.
      * split; [reflexivity|]. exists (S n).
        apply Ascii.eqb_eq in Ec. subst c. cbn. now rewrite IHn at 1.
      * split; [cbn; exact Ec|]. exists n. cbn. now rewrite IHn at 1.
    + split; [exact IHe|]. exists n. cbn. now rewrite IHn at 1.
Qed.

Lemma rstrip_slash_fixed (s : string) :
  ends_with_slash s = false -> rstrip_slash s = s.
Proof.
  induction s as [|c rest IH]; [reflexivity|].
  cbn [rstrip_slash ends_with_slash]. destruct rest as [|a r].
  - cbn. now intros ->.
  - intros H. rewrite IH by exact H. reflexivity.
Qed.

(** X13: the client's base URL never ends with a slash.  [__init__] keeps
    the given URL up to its trailing slashes, all of which it drops (a
    URL made of slashes only becomes empty); a URL without a trailing
    slash is kept as it is. *)
Theorem base_url_has_no_trailing_slash (url : string) (timeout retry_attempts : Z) :
  let h := HTTPClient__init__ url timeout retry_attempts in
  ends_with_slash (base_url h) = false /\
  (exists n, url = base_url h +:+ slashes n) /\
  (ends_with_slash url = false -> base_url h = url) /\
  session h = None.
Proof.
  cbv zeta. cbn [HTTPClient__init__ base_url session].
  destruct (rstrip_slash_spec url) as [He Hn].
  repeat split; try assumption. apply rstrip_slash_fixed.
Qed.

(** ** HTTP errors *)

Ltac run_rest :=
  cbv [and_then pure throw catch get_state modify py_get response_json retry_after_of].

Lemma _handle_error_response_halves (r : response) (s : state) :
  _handle_error_response r s = (parts <- error_parts r ;; raise_for_status r parts) s.
Proof. reflexivity. Qed.

(** The [try] block hands over three parts, or raises: an
    [AttributeError] of its own when the body or its ["error"] member is
    no object, or what reading the body raised when that is neither a
    content-type error nor a [ValueError]. *)
Lemma error_parts_cases (r : response) (s : state) :
  (exists parts, error_parts r s = (Returns parts, s) /\ readable r = true) \/
  (exists msg, error_parts r s = (Raises (Py (Exn AttributeError msg)), s) /\
               readable r = true) \/
  (exists e, error_parts r s = (Raises e, s) /\ body r = BodyRaises e /\
             readable r = false).
Proof.
  unfold error_parts, readable. run_rest.
  destruct (body r) as [v|e].
  - destruct v as [|b|n|l|x|l|fields];
      try (right; left; eexists; split; reflexivity).
    destruct (get fields "error" (JObj [])) as [|b|n|l|x|l|info];
      try (right; left; eexists; split; reflexivity).
    left. eexists; split; reflexivity.
  - destruct (is_ContentTypeError e || is_ValueError e) eqn:E.
    + left. eexists; split; reflexivity.
    + right; right. exists e. auto.
Qed.

Lemma raise_for_status_cases (r : response) (parts : json * json * json) (s : state) :
  exists e,
    raise_for_status r parts s = (Raises e, s) /\
    ((built_from_status e = true /\ status_of e = Some (status r) /\
      class_of e =
        (if (status r =? 401)%Z then
           if eq_str (snd (fst parts)) "TOKEN_EXPIRED"
           then IsTokenExpiredError else IsAuthenticationError
         else if (status r =? 403)%Z then IsSlackCloneError
         else if (status r =? 422)%Z then IsValidationError
         else if (status r =? 429)%Z then IsRateLimitError
         else IsSlackCloneError)) \/
     (exists msg, e = ValueError msg /\ status r = 429%Z)).
Proof.
  destruct parts as [[message code] details]. unfold raise_for_status. run_rest.
  cbn [fst snd].
  destruct (status r =? 401)%Z eqn:E401.
  { apply Z.eqb_eq in E401.
    destruct (eq_str code "TOKEN_EXPIRED"); eexists; split; try reflexivity;
      left; rewrite E401; auto. }
  destruct (status r =? 403)%Z eqn:E403.
  { eexists; split; [reflexivity|]. left. auto. }
  destruct (status r =? 422)%Z eqn:E422.
  { apply Z.eqb_eq in E422. eexists; split; [reflexivity|]. left. rewrite E422. auto. }
  destruct (status r =? 429)%Z eqn:E429.
  { apply Z.eqb_eq in E429.
    destruct (headers r "Retry-After") as [text|].
    - destruct (int (py s) text) as [msg|n]; eexists; split; try reflexivity.
      + right. eauto.
      + left. rewrite E429. auto.
    - eexists; split; [reflexivity|]. left. rewrite E429. auto. }
  eexists; split; [reflexivity|]. left. auto.
Qed.

Lemma built_should_retry (e : error) (st : Z) :
  built_from_status e = true -> status_of e = Some st ->
  _should_retry e = (500 <=? st)%Z.
Proof.
  intros Hb Hs. unfold _should_retry. rewrite Hs.
  destruct e; try discriminate Hb; cbn;
    destruct (st =? 0)%Z eqn:E; cbn; try reflexivity;
    apply Z.eqb_eq in E; subst st; reflexivity.
Qed.

(** [_handle_error_response] always raises, and what it raises is
    retried exactly when it is an SDK error for a status of 500 or more. *)
Lemma _handle_error_response_cases (r : response) (s : state) :
  exists e,
    _handle_error_response r s = (Raises e, s) /\
    ((built_from_status e = true /\ _should_retry e = (500 <=? status r)%Z) \/
     (body r = BodyRaises e /\ readable r = false) \/
     (exists msg, e = Py (Exn AttributeError msg)) \/
     (exists msg, e = ValueError msg)).
Proof.
  rewrite _handle_error_response_halves.
  destruct (error_parts_cases r s) as [(parts & E & _) | [(msg & E & _) | (e & E & Hb & Hr)]].
  - rewrite (and_then_returns _ _ _ _ _ E).
    destruct (raise_for_status_cases r parts s)
      as (e & -> & [(Hb & Hs & _) | (msg & -> & _)]).
    + exists e. split; [reflexivity|]. left. split; [exact Hb|].
      now apply built_should_retry.
    + eexists. split; [reflexivity|]. right; right; right; eauto.
  - rewrite (and_then_raises _ _ _ _ _ E). eexists. split; [reflexivity|].
    right; right; left; eauto.
  - rewrite (and_then_raises _ _ _ _ _ E). exists e. split; [reflexivity|].
    right; left; auto.
Qed.

(** X14: every error response becomes an exception.  For every response
    [_handle_error_response] raises and changes nothing.  What it raises
    is an SDK error built from the response, whose status attribute is
    the status of the response and whose class follows the status (401
    gives [TokenExpiredError] or [AuthenticationError], 422
    [ValidationError], 429 [RateLimitError], anything else a plain
    [SlackCloneError]) and which is retried exactly when the status is
    500 or more; or else it is what reading the body raised, an
    [AttributeError] for a body or an ["error"] member that is no object,
    or the [ValueError] of an unparsable Retry-After header of a 429. *)
Theorem error_response_always_raises (r : response) (s : state) :
  exists e,
    _handle_error_response r s = (Raises e, s) /\
    ((built_from_status e = true /\
      status_of e = Some (status r) /\
      _should_retry e = (500 <=? status r)%Z /\
      (status r = 401%Z ->
       class_of e = IsTokenExpiredError \/ class_of e = IsAuthenticationError) /\
      (status r = 422%Z -> class_of e = IsValidationError) /\
      (status r = 429%Z -> class_of e = IsRateLimitError) /\
      (status r <> 401%Z -> status r <> 422%Z -> status r <> 429%Z ->
       class_of e = IsSlackCloneError)) \/
     (body r = BodyRaises e /\ readable r = false) \/
     (exists msg, e = Py (Exn AttributeError msg)) \/
     (exists msg, e = ValueError msg /\ status r = 429%Z)).
Proof.
  rewrite _handle_error_response_halves.
  destruct (error_parts_cases r s) as [(parts & E & _) | [(msg & E & _) | (e & E & Hb & Hr)]].
  - rewrite (and_then_returns _ _ _ _ _ E).
    destruct (raise_for_status_cases r parts s) as (e & -> & [(Hb & Hs & Hc) | (msg & -> & H429)]).
    + exists e. split; [reflexivity|]. left.
      split; [exact Hb|]. split; [exact Hs|]. split; [now apply built_should_retry|].
      rewrite Hc. repeat split.
      * intros ->. cbn. destruct (eq_str _ _); auto.
      * intros ->. reflexivity.
      * intros ->. reflexivity.
      * intros H1 H2 H3.
        apply Z.eqb_neq in H1, H2, H3. rewrite H1, H2, H3.
        now destruct (status r =? 403)%Z.
    + eexists. split; [reflexivity|]. right; right; right; eauto.
  - rewrite (and_then_raises _ _ _ _ _ E). eexists. split; [reflexivity|].
    right; right; left; eauto.
  - rewrite (and_then_raises _ _ _ _ _ E). exists e. split; [reflexivity|].
    right; left; auto.
Qed.

(** ** One attempt *)

Lemma finish_cases (r : response) (s : state) :
  exists o, finish r s = (o, s).
Proof.
  unfold finish.
  destruct (400 <=? status r)%Z.
  - destruct (_handle_error_response_cases r s) as (e & E & _).
    rewrite (and_then_raises _ _ _ _ _ E). eauto.
  - cbv [and_then pure catch response_json throw].
    destruct (body r) as [v|e]; [eauto|].
    destruct (is_ContentTypeError e); eauto.
Qed.

Lemma ending_verdict (a : attempt) (s : state) :
  ending a s = (verdict s a, s).
Proof.
  unfold verdict. destruct a as [r|e]; cbn [ending].
  - destruct (finish_cases r s) as (o & ->). reflexivity.
  - reflexivity.
Qed.

(** The verdict on an attempt depends on the state only through the
    builtins. *)
Lemma verdict_same_builtins (a : attempt) (s s' : state) :
  py s = py s' -> verdict s a = verdict s' a.
Proof.
  intros Hpy. unfold verdict. destruct a as [r|e]; [|reflexivity].
  cbn [ending]. unfold finish.
  destruct (400 <=? status r)%Z.
  - unfold _handle_error_response. run_rest.
    destruct (body r) as [v|e].
    + destruct v as [|b|n|l|x|l|fields]; try reflexivity.
      destruct (get fields "error" (JObj [])) as [|b|n|l|x|l|info]; try reflexivity.
      destruct (status r =? 401)%Z; [now destruct (eq_str _ _)|].
      destruct (status r =? 403)%Z; [reflexivity|].
      destruct (status r =? 422)%Z; [reflexivity|].
      destruct (status r =? 429)%Z; [|reflexivity].
      destruct (headers r "Retry-After") as [text|]; [|reflexivity].
      rewrite <- Hpy. now destruct (int (py s) text).
    + destruct (is_ContentTypeError e || is_ValueError e); [|reflexivity].
      destruct (status r =? 401)%Z; [now destruct (eq_str _ _)|].
      destruct (status r =? 403)%Z; [reflexivity|].
      destruct (status r =? 422)%Z; [reflexivity|].
      destruct (status r =? 429)%Z; [|reflexivity].
      destruct (headers r "Retry-After") as [text|]; [|reflexivity].
      rewrite <- Hpy. now destruct (int (py s) text).
  - cbv [and_then pure catch response_json throw].
    destruct (body r) as [v|e]; [reflexivity|].
    now destruct (is_ContentTypeError e).
Qed.

Lemma session_request_open (kwargs : request_kwargs) (s : state) :
  session (http_client s) = Some SessionOpen ->
  session_request kwargs s =
    (match backend s (length (requests s)) with
     | Responds r => Returns r
     | Refuses e => Raises e
     end, after_call kwargs s).
Proof.
  intros Ho. unfold session_request, and_then, get_state, modify, pure, throw.
  rewrite Ho. now destruct (backend s (length (requests s))).
Qed.

Lemma attempt_once_open
    (method url : string) (request_headers : gmap string string)
    (data : option (list (string * json))) (s : state) :
  session (http_client s) = Some SessionOpen ->
  attempt_once method url request_headers data s =
    (verdict s (backend s (length (requests s))),
     after_call (make_kwargs (py s) method url request_headers data) s).
Proof.
  intros Ho. unfold attempt_once.
  unfold and_then at 1. unfold get_state at 1. cbv beta iota.
  set (s1 := after_call (make_kwargs (py s) method url request_headers data) s).
  rewrite (verdict_same_builtins _ s s1) by reflexivity.
  pose proof (session_request_open
                (make_kwargs (py s) method url request_headers data) s Ho) as E.
  fold s1 in E.
  destruct (backend s (length (requests s))) as [r|e].
  - rewrite (and_then_returns _ _ _ _ _ E).
    pose proof (ending_verdict (Responds r) s1) as E1. exact E1.
  - rewrite (and_then_raises _ _ _ _ _ E). reflexivity.
Qed.

(** ** The retry loop *)

Lemma backoff_S (attempt : Z) (k : nat) :
  backoff attempt (S k) = (2 ^ attempt)%Z :: backoff (attempt + 1) k.
Proof.
  unfold backoff. cbn [seq map]. rewrite Z.add_0_r. f_equal.
  rewrite <- seq_shift, map_map. apply map_ext. intros i.
  f_equal. lia.
Qed.

Lemma request_loop_step
    (method url : string) (request_headers : gmap string string)
    (data : option (list (string * json)))
    (attempt : Z) (remaining : nat) (last_error : option error) (s : state) :
  session (http_client s) = Some SessionOpen ->
  let s1 := after_call (make_kwargs (py s) method url request_headers data) s in
  request_loop method url request_headers data attempt (S remaining) last_error s =
    match verdict s (backend s (length (requests s))) with
    | Returns v => (Returns v, s1)
    | Raises e =>
        if (attempt <? retry_attempts (http_client s))%Z && _should_retry e
        then request_loop method url request_headers data (attempt + 1) remaining (Some e)
               (after_sleep (2 ^ attempt) s1)
        else (Raises e, s1)
    end.
Proof.
  intros Ho. cbv zeta. cbn [request_loop]. unfold catch.
  rewrite attempt_once_open by exact Ho.
  destruct (verdict s (backend s (length (requests s)))) as [v|e]; [reflexivity|].
  unfold and_then at 1, get_state at 1. cbn [after_call http_client].
  destruct ((attempt <? retry_attempts (http_client s))%Z && _should_retry e);
    reflexivity.
Qed.

(** The loop ends with the verdict on the first attempt that is not a
    retryable failure, or on the last attempt it is allowed. *)
Lemma request_loop_final
    (method url : string) (request_headers : gmap string string)
    (data : option (list (string * json))) (k : nat) :
  forall (attempt : Z) (remaining : nat) (last_error : option error) (s : state),
    session (http_client s) = Some SessionOpen ->
    (attempt + Z.of_nat (S remaining) = retry_attempts (http_client s) + 1)%Z ->
    (k <= remaining)%nat ->
    (forall i, (i < k)%nat -> retryable s (backend s (length (requests s) + i)) = true) ->
    (k = remaining \/ retryable s (backend s (length (requests s) + k)) = false) ->
    request_loop method url request_headers data attempt (S remaining) last_error s =
      (verdict s (backend s (length (requests s) + k)),
       after_attempts (make_kwargs (py s) method url request_headers data) attempt k s).
Proof.
  induction k as [|k IH]; intros attempt remaining last_error s Ho Hra Hk Hretry Hfinal.
  - rewrite request_loop_step by exact Ho. rewrite Nat.add_0_r in *.
    assert (Hstate : after_call (make_kwargs (py s) method url request_headers data) s =
                     after_attempts (make_kwargs (py s) method url request_headers data)
                       attempt 0 s).
    { unfold after_call, after_attempts, backoff. cbn. now rewrite app_nil_r. }
    unfold retryable in Hfinal.
    destruct (verdict s (backend s (length (requests s)))) as [v|e];
      [now rewrite Hstate|].
    rewrite <- Hstate.
    destruct Hfinal as [<- | ->]; [|now rewrite andb_false_r].
    replace (attempt <? retry_attempts (http_client s))%Z with false; [reflexivity|].
    symmetry. apply Z.ltb_ge. lia.
  - rewrite request_loop_step by exact Ho.
    pose proof (Hretry 0%nat ltac:(lia)) as H0. rewrite Nat.add_0_r in H0.
    unfold retryable in H0.
    destruct (verdict s (backend s (length (requests s)))) as [v|e]; [discriminate|].
    rewrite H0, andb_true_r.
    replace (attempt <? retry_attempts (http_client s))%Z with true
      by (symmetry; apply Z.ltb_lt; lia).
    destruct remaining as [|remaining]; [lia|].
    set (kwargs := make_kwargs (py s) method url request_headers data).
    set (s2 := after_sleep (2 ^ attempt) (after_call kwargs s)).
    assert (Hlen : length (requests s2) = S (length (requests s))).
    { unfold s2. cbn. rewrite length_app. cbn. lia. }
    rewrite (IH (attempt + 1)%Z remaining (Some e) s2).
    + rewrite Hlen.
      replace (S (length (requests s)) + k)%nat with (length (requests s) + S k)%nat by lia.
      rewrite (verdict_same_builtins _ s2 s) by reflexivity.
      f_equal. unfold after_attempts, s2, after_sleep, after_call. cbn - [repeat backoff].
      f_equal.
      * rewrite <- app_assoc. reflexivity.
      * rewrite <- app_assoc. cbn [app]. now rewrite <- backoff_S.
    + exact Ho.
    + unfold s2. cbn [after_sleep after_call http_client]. lia.
    + lia.
    + intros i Hi. rewrite Hlen. unfold retryable.
      rewrite (verdict_same_builtins _ s2 s) by reflexivity.
      replace (S (length (requests s)) + i)%nat with (length (requests s) + S i)%nat by lia.
      apply (Hretry (S i)). lia.
    + rewrite Hlen. unfold retryable.
      rewrite (verdict_same_builtins _ s2 s) by reflexivity.
      replace (S (length (requests s)) + k)%nat with (length (requests s) + S k)%nat by lia.
      destruct Hfinal as [Hf | Hf]; [left; lia | right; exact Hf].
Qed.

Lemma retryable_same_builtins (a : attempt) (s s' : state) :
  py s = py s' -> retryable s a = retryable s' a.
Proof. intros H. unfold retryable. now rewrite (verdict_same_builtins a s s' H). Qed.

(** ** [request] *)

Lemma start_session_effect (s : state) :
  start_session s = (Returns tt, snd (start_session s)) /\
  session (http_client (snd (start_session s))) = Some SessionOpen /\
  base_url (http_client (snd (start_session s))) = base_url (http_client s) /\
  retry_attempts (http_client (snd (start_session s))) = retry_attempts (http_client s) /\
  auth (snd (start_session s)) = auth s /\
  ws (snd (start_session s)) = ws s /\
  py (snd (start_session s)) = py s /\
  backend (snd (start_session s)) = backend s /\
  requests (snd (start_session s)) = requests s /\
  sleeps (snd (start_session s)) = sleeps s /\
  sessions_opened (snd (start_session s)) =
    (if session_unusable (http_client s) then S (sessions_opened s) else sessions_opened s).
Proof.
  unfold start_session, and_then, get_state, modify, pure, session_unusable.
  destruct (session (http_client s)) as [[|]|] eqn:E; cbn; rewrite ?E; tauto.
Qed.

Lemma request_unfold (method endpoint : string) (data : option (list (string * json)))
    (headers : option (gmap string string)) (s : state) :
  request method endpoint data headers s =
    request_loop method (base_url (http_client s) +:+ endpoint)
      (request_headers_of headers) data 0
      (Z.to_nat (retry_attempts (http_client s) + 1)) None (snd (start_session s)).
Proof.
  destruct (start_session_effect s) as (E & _ & Hb & Hr & _).
  unfold request. rewrite (and_then_returns _ _ _ _ _ E).
  unfold and_then at 1, get_state at 1. cbv beta iota zeta.
  rewrite Hb, Hr. reflexivity.
Qed.

(** The request ends as attempt number [k] does, when the [k] attempts
    before it are retried and this one is the last one made. *)
Lemma request_outcome
    (method endpoint : string) (data : option (list (string * json)))
    (headers : option (gmap string string)) (s : state) (k : nat) :
  (Z.of_nat k <= retry_attempts (http_client s))%Z ->
  (forall i, (i < k)%nat -> retryable s (backend s (length (requests s) + i)) = true) ->
  (Z.of_nat k = retry_attempts (http_client s) \/
   retryable s (backend s (length (requests s) + k)) = false) ->
  request method endpoint data headers s =
    (verdict s (backend s (length (requests s) + k)),
     after_attempts (kwargs_of s method endpoint data headers) 0 k (snd (start_session s))).
Proof.
  intros Hk Hretry Hfinal.
  destruct (start_session_effect s) as (_ & Ho & Hb & Hr & Ha & Hw & Hpy & Hbk & Hrq & Hsl & _).
  rewrite request_unfold.
  replace (Z.to_nat (retry_attempts (http_client s) + 1))
    with (S (Z.to_nat (retry_attempts (http_client s)))) by lia.
  rewrite (request_loop_final method _ _ data k 0 _ None (snd (start_session s)) Ho).
  - rewrite Hrq, Hpy, Hbk. rewrite (verdict_same_builtins _ _ s Hpy). reflexivity.
  - rewrite Hr. lia.
  - lia.
  - intros i Hi. rewrite Hrq, Hbk, (retryable_same_builtins _ _ s Hpy). now apply Hretry.
  - rewrite Hrq, Hbk, (retryable_same_builtins _ _ s Hpy).
    destruct Hfinal as [Hf | Hf]; [left; lia | right; exact Hf].
Qed.

(** With no turn of the loop, [raise last_error] is reached with
    [last_error] still [None]. *)
Lemma request_no_turn
    (method endpoint : string) (data : option (list (string * json)))
    (headers : option (gmap string string)) (s : state) :
  (retry_attempts (http_client s) < 0)%Z ->
  request method endpoint data headers s =
    (Raises (Py (Exn TypeError "exceptions must derive from BaseException")),
     snd (start_session s)).
Proof.
  intros H. rewrite request_unfold.
  replace (Z.to_nat (retry_attempts (http_client s) + 1)) with 0%nat by lia.
  reflexivity.
Qed.

(** Among the attempts a budget of [m] retries allows there is a first
    one that ends the loop. *)
Lemma first_final (f : nat -> bool) (m : nat) :
  exists k, (k <= m)%nat /\ (forall i, (i < k)%nat -> f i = true) /\
            (k = m \/ f k = false).
Proof.
  induction m as [|m (k & Hk & Hbefore & Hlast)].
  - exists 0%nat. split; [lia|]. split; [intros i Hi; lia | now left].
  - destruct Hlast as [-> | Hf].
    + destruct (f m) eqn:E.
      * exists (S m). split; [lia|]. split; [|now left].
        intros i Hi. destruct (Nat.eq_dec i m) as [-> | Hne]; [exact E|].
        apply Hbefore. lia.
      * exists m. split; [lia|]. split; [exact Hbefore | now right].
    + exists k. split; [lia|]. split; [exact Hbefore | now right].
Qed.

(** What every [request] call leaves behind, whatever the backend does. *)
Lemma request_frame
    (method endpoint : string) (data : option (list (string * json)))
    (headers : option (gmap string string)) (s : state) :
  let s' := snd (request method endpoint data headers s) in
  exists k,
    (Z.of_nat k <= Z.max 0 (retry_attempts (http_client s) + 1))%Z /\
    ((0 <= retry_attempts (http_client s))%Z -> (1 <= k)%nat) /\
    requests s' = requests s ++ repeat (kwargs_of s method endpoint data headers) k /\
    sleeps s' = sleeps s ++ backoff 0 (k - 1) /\
    http_client s' = set_session (Some SessionOpen) (http_client s) /\
    auth s' = auth s /\ ws s' = ws s /\ py s' = py s /\ backend s' = backend s /\
    sessions_opened s' =
      (if session_unusable (http_client s) then S (sessions_opened s) else sessions_opened s).
Proof.
  cbv zeta.
  assert (Hhc : http_client (snd (start_session s)) =
                set_session (Some SessionOpen) (http_client s)).
  { unfold start_session, and_then, get_state, modify, pure, session_unusable, set_session.
    destruct s as [[b t r [[|]|]] a w p bk rq sl so]; reflexivity. }
  destruct (start_session_effect s) as (_ & Ho & Hb & Hr & Ha & Hw & Hpy & Hbk & Hrq & Hsl & Hso).
  destruct (Z.ltb_spec (retry_attempts (http_client s)) 0) as [Hneg | Hpos].
  - exists 0%nat. rewrite request_no_turn by exact Hneg. cbn [snd repeat backoff].
    rewrite Hrq, Hsl, Ha, Hw, Hpy, Hbk, Hso, Hhc, !app_nil_r.
    repeat split; try reflexivity; lia.
  - destruct (first_final (fun i => retryable s (backend s (length (requests s) + i)))
                (Z.to_nat (retry_attempts (http_client s)))) as (k & Hk & Hbefore & Hlast).
    exists (S k).
    rewrite (request_outcome method endpoint data headers s k).
    + cbn [snd after_attempts requests sleeps http_client auth ws py backend sessions_opened].
      replace (S k - 1)%nat with k by lia.
      rewrite Hrq, Hsl, Ha, Hw, Hpy, Hbk, Hso, Hhc.
      repeat split; try reflexivity; lia.
    + lia.
    + exact Hbefore.
    + destruct Hlast as [-> | Hf]; [left; lia | right; exact Hf].
Qed.

(** X15: a request ends at the first attempt that is not a retryable
    failure.  The retry budget allows [retry_attempts + 1] attempts.  When
    the first [k] attempts fail in a retryable way (a connection error, a
    timeout, an SDK error with a status of 500 or more) and either the
    next attempt does not, or the budget ends with it, [request] ends as
    that attempt does: it returns what it returns and raises what it
    raises.  It has then called the session [k + 1] times with the same
    arguments, and has slept [k] times, for the delay times 1, 2, 4, ...,
    doubling each time.  It leaves the session open, and touches neither
    the tokens nor the WebSocket client. *)
Theorem request_ends_at_first_final_attempt
    (method endpoint : string) (data : option (list (string * json)))
    (headers : option (gmap string string)) (s : state) (k : nat) :
  let n := length (requests s) in
  let s' := snd (request method endpoint data headers s) in
  (Z.of_nat k <= retry_attempts (http_client s))%Z ->
  (forall i, (i < k)%nat -> retryable s (backend s (n + i)) = true) ->
  (Z.of_nat k = retry_attempts (http_client s) \/
   retryable s (backend s (n + k)) = false) ->
  fst (request method endpoint data headers s) = verdict s (backend s (n + k)) /\
  requests s' = requests s ++ repeat (kwargs_of s method endpoint data headers) (S k) /\
  sleeps s' = sleeps s ++ backoff 0 k /\
  session (http_client s') = Some SessionOpen /\
  auth s' = auth s /\ ws s' = ws s.
Proof.
  cbv zeta. intros Hk Hretry Hfinal.
  destruct (start_session_effect s) as (_ & Ho & _ & _ & Ha & Hw & _ & _ & Hrq & Hsl & _).
  rewrite (request_outcome method endpoint data headers s k Hk Hretry Hfinal).
  cbn [fst snd after_attempts requests sleeps http_client auth ws].
  rewrite Hrq, Hsl, Ho, Ha, Hw. repeat split; reflexivity.
Qed.

Lemma request_ends_at_first_final_attempt_witness :
  fst (request "GET" "/api/users/u1" None None
         (new_client (script [Refuses TimeoutError]
                        (Responds (json_response 404 "Not Found"
                                     (error_body "no such user" "NOT_FOUND")))))) =
    Raises (SlackCloneError (JStr "no such user") (JStr "NOT_FOUND") (Some 404%Z) JNull) /\
  sleeps (snd (request "GET" "/api/users/u1" None None
         (new_client (script [Refuses TimeoutError]
                        (Responds (json_response 404 "Not Found"
                                     (error_body "no such user" "NOT_FOUND"))))))) = [1%Z].
Proof.
  set (s := new_client (script [Refuses TimeoutError]
                        (Responds (json_response 404 "Not Found"
                                     (error_body "no such user" "NOT_FOUND"))))).
  assert (Hbefore : forall i, (i < 1)%nat ->
            retryable s (backend s (length (requests s) + i)) = true).
  { intros i Hi. destruct i as [|i]; [reflexivity | lia]. }
  destruct (request_ends_at_first_final_attempt "GET" "/api/users/u1" None None s 1
              ltac:(cbn; lia) Hbefore (or_intror eq_refl)) as (Hr & _ & Hsl & _).
  split; [exact Hr | exact Hsl].
Defined.

(** X16: the retry budget bounds every request.  Whatever the backend
    does, one [request] call makes at most [retry_attempts + 1] calls of
    the session (none at all when [retry_attempts] is negative, at least
    one otherwise), every one of them with the same arguments, and sleeps
    between two attempts only: one sleep fewer than attempts, for the
    delay times 1, 2, 4, ....  It touches neither the tokens nor the
    WebSocket client. *)
Theorem request_attempts_are_bounded
    (method endpoint : string) (data : option (list (string * json)))
    (headers : option (gmap string string)) (s : state) :
  let s' := snd (request method endpoint data headers s) in
  exists k : nat,
    (Z.of_nat k <= Z.max 0 (retry_attempts (http_client s) + 1))%Z /\
    ((0 <= retry_attempts (http_client s))%Z -> (1 <= k)%nat) /\
    requests s' = requests s ++ repeat (kwargs_of s method endpoint data headers) k /\
    sleeps s' = sleeps s ++ backoff 0 (k - 1) /\
    auth s' = auth s /\ ws s' = ws s.
Proof.
  cbv zeta.
  destruct (request_frame method endpoint data headers s)
    as (k & Hk & H1 & Hrq & Hsl & _ & Ha & Hw & _).
  exists k. auto 10.
Qed.

(** ** What the attempts come to *)

Lemma verdict_error (r : response) (s : state) :
  (400 <= status r)%Z ->
  exists e, _handle_error_response r s = (Raises e, s) /\
            verdict s (Responds r) = Raises e.
Proof.
  intros H. destruct (_handle_error_response_cases r s) as (e & E & _).
  exists e. split; [exact E|].
  unfold verdict. cbn [ending]. unfold finish.
  replace (400 <=? status r)%Z with true by (symmetry; apply Z.leb_le; lia).
  now rewrite (and_then_raises _ _ _ _ _ E).
Qed.

Lemma verdict_success (r : response) (s : state) :
  (status r < 400)%Z ->
  verdict s (Responds r) =
    match body r with
    | Body v => Returns v
    | BodyRaises e => if is_ContentTypeError e then Returns (JObj []) else Raises e
    end.
Proof.
  intros H. unfold verdict. cbn [ending]. unfold finish.
  replace (400 <=? status r)%Z with false by (symmetry; apply Z.leb_gt; lia).
  cbv [and_then pure catch response_json throw].
  destruct (body r) as [v|e]; [reflexivity|]. now destruct (is_ContentTypeError e).
Qed.

Lemma error_object_parts (r : response) (s : state) :
  error_object r = true -> exists parts, error_parts r s = (Returns parts, s).
Proof.
  unfold error_object, error_parts. run_rest.
  destruct (body r) as [v|e].
  - destruct v as [|b|n|l|x|l|fields]; try discriminate.
    destruct (get fields "error" (JObj [])) as [|b|n|l|x|l|info]; try discriminate.
    eauto.
  - intros ->. eauto.
Qed.

Lemma error_object_not_parts (r : response) (s : state) (v : json) :
  body r = Body v -> error_object r = false ->
  exists msg, error_parts r s = (Raises (Py (Exn AttributeError msg)), s).
Proof.
  unfold error_object, error_parts. run_rest. intros ->.
  destruct v as [|b|n|l|x|l|fields]; try (intros _; eexists; reflexivity).
  destruct (get fields "error" (JObj [])) as [|b|n|l|x|l|info];
    try discriminate; intros _; eexists; reflexivity.
Qed.

Lemma transient_retryable (s : state) (a : attempt) :
  transient a = true -> retryable s a = true.
Proof.
  unfold retryable. destruct a as [r|e]; cbn [transient].
  - intros H. apply andb_true_iff in H as [Hst Hobj]. apply Z.leb_le in Hst.
    destruct (verdict_error r s ltac:(lia)) as (e & E & ->).
    rewrite _handle_error_response_halves in E.
    destruct (error_object_parts r s Hobj) as (parts & Ep).
    rewrite (and_then_returns _ _ _ _ _ Ep) in E.
    destruct (raise_for_status_cases r parts s) as (e' & E' & [(Hb & Hs & _) | (msg & _ & H429)]).
    + rewrite E' in E. injection E as <-.
      rewrite (built_should_retry _ _ Hb Hs). apply Z.leb_le. lia.
    + lia.
  - unfold verdict. cbn [ending throw fst]. unfold _should_retry.
    intros ->. reflexivity.
Qed.

(** X17: a client error is never retried.  With a budget that allows an
    attempt, an answer with a status from 400 to 499 whose body can be
    read (or is no JSON at all) ends the request at once, also a 429 with
    its Retry-After header: [request] raises what
    [_handle_error_response] makes of the answer, after one call and no
    sleep. *)
Theorem client_errors_fail_fast
    (method endpoint : string) (data : option (list (string * json)))
    (headers : option (gmap string string)) (s : state) (r : response) :
  let s' := snd (request method endpoint data headers s) in
  (0 <= retry_attempts (http_client s))%Z ->
  backend s (length (requests s)) = Responds r ->
  (400 <= status r < 500)%Z ->
  readable r = true ->
  exists e,
    fst (request method endpoint data headers s) = Raises e /\
    _handle_error_response r s = (Raises e, s) /\
    _should_retry e = false /\
    requests s' = requests s ++ [kwargs_of s method endpoint data headers] /\
    sleeps s' = sleeps s.
Proof.
  cbv zeta. intros Hra Hb Hst Hread.
  destruct (verdict_error r s ltac:(lia)) as (e & E & Hv).
  assert (Hno : _should_retry e = false).
  { destruct (_handle_error_response_cases r s) as (e' & E' & Hcases).
    rewrite E in E'. injection E' as <-.
    destruct Hcases as [(_ & ->) | [(_ & Hr) | [(msg & ->) | (msg & ->)]]].
    - apply Z.leb_gt. lia.
    - congruence.
    - reflexivity.
    - reflexivity. }
  exists e.
  destruct (start_session_effect s) as (_ & _ & _ & _ & _ & _ & _ & _ & Hrq & Hsl & _).
  rewrite (request_outcome method endpoint data headers s 0).
  - rewrite Nat.add_0_r, Hb, Hv.
    cbn [fst snd after_attempts requests sleeps repeat backoff seq map].
    rewrite Hrq, Hsl, app_nil_r. auto.
  - lia.
  - intros i Hi. lia.
  - right. rewrite Nat.add_0_r, Hb. unfold retryable. now rewrite Hv.
Qed.

Lemma client_errors_fail_fast_witness :
  exists e,
    fst (request "GET" "/api/me" None None
           (new_client (script [] (Responds
              {| status := 429; reason := Some "Too Many Requests";
                 headers := fun name => if String.eqb name "Retry-After"
                                        then Some "7" else None;
                 body := Body (error_body "slow down" "RATE_LIMITED") |})))) = Raises e /\
    class_of e = IsRateLimitError.
Proof.
  set (r := {| status := 429; reason := Some "Too Many Requests";
               headers := fun name => if String.eqb name "Retry-After"
                                      then Some "7" else None;
               body := Body (error_body "slow down" "RATE_LIMITED") |}).
  destruct (client_errors_fail_fast "GET" "/api/me" None None
              (new_client (script [] (Responds r))) r
              ltac:(cbn; lia) eq_refl ltac:(cbn; lia) eq_refl)
    as (e & He & Hh & _).
  exists e. split; [exact He|].
  vm_compute in Hh. injection Hh as <-. reflexivity.
Defined.

(** X18: transient failures use up the whole budget.  When every attempt
    the budget allows ends in a failure of the transport (a client error
    of aiohttp, a timeout) or in a well-formed answer with a status of
    500 or more, [request] makes all [retry_attempts + 1] calls, sleeps
    between them for the delay times 1, 2, 4, ..., and raises the error
    of the last attempt, not of the first. *)
Theorem transient_failures_exhaust_retries
    (method endpoint : string) (data : option (list (string * json)))
    (headers : option (gmap string string)) (s : state) :
  let n := length (requests s) in
  let budget := Z.to_nat (retry_attempts (http_client s)) in
  let s' := snd (request method endpoint data headers s) in
  (0 <= retry_attempts (http_client s))%Z ->
  (forall i, (i <= budget)%nat -> transient (backend s (n + i)) = true) ->
  exists e,
    fst (request method endpoint data headers s) = Raises e /\
    verdict s (backend s (n + budget)) = Raises e /\
    requests s' =
      requests s ++ repeat (kwargs_of s method endpoint data headers) (S budget) /\
    sleeps s' = sleeps s ++ backoff 0 budget.
Proof.
  cbv zeta. intros Hra Hall.
  set (budget := Z.to_nat (retry_attempts (http_client s))).
  destruct (start_session_effect s) as (_ & _ & _ & _ & _ & _ & _ & _ & Hrq & Hsl & _).
  pose proof (transient_retryable s _ (Hall budget (Nat.le_refl _))) as Hlast.
  unfold retryable in Hlast.
  destruct (verdict s (backend s (length (requests s) + budget))) as [v|e] eqn:Hv;
    [discriminate|].
  exists e.
  rewrite (request_outcome method endpoint data headers s budget).
  - rewrite Hv. cbn [fst snd after_attempts requests sleeps].
    rewrite Hrq, Hsl. auto.
  - unfold budget. lia.
  - intros i Hi. apply transient_retryable. apply Hall. lia.
  - left. unfold budget. lia.
Qed.

Lemma transient_failures_exhaust_retries_witness :
  exists e,
    fst (request "GET" "/api/me" None None
           (new_client (script [Refuses TimeoutError; Refuses (ClientError "reset");
                                Refuses TimeoutError]
                          (Responds (json_response 503 "Service Unavailable"
                                       (error_body "down" "UNAVAILABLE")))))) = Raises e /\
    status_of e = Some 503%Z /\
    sleeps (snd (request "GET" "/api/me" None None
           (new_client (script [Refuses TimeoutError; Refuses (ClientError "reset");
                                Refuses TimeoutError]
                          (Responds (json_response 503 "Service Unavailable"
                                       (error_body "down" "UNAVAILABLE"))))))) = [1; 2; 4]%Z.
Proof.
  set (s := new_client (script [Refuses TimeoutError; Refuses (ClientError "reset");
                                Refuses TimeoutError]
                          (Responds (json_response 503 "Service Unavailable"
                                       (error_body "down" "UNAVAILABLE"))))).
  assert (Hall : forall i, (i <= 3)%nat -> transient (backend s (0 + i)) = true).
  { intros i Hi. destruct i as [|[|[|[|i]]]]; first [reflexivity | lia]. }
  destruct (transient_failures_exhaust_retries "GET" "/api/me" None None s
              ltac:(cbn; lia) Hall) as (e & He & Hv & _ & Hsl).
  exists e. split; [exact He|]. split; [|exact Hsl].
  vm_compute in Hv. injection Hv as <-. reflexivity.
Defined.

(** X19: a request recovers from transient failures.  When [k] attempts
    within the budget end in transient failures and the next answer has
    a status below 400, [request] returns the decoded body of that
    answer, or an empty dict when the answer carries no JSON content
    type, after [k + 1] calls and [k] sleeps. *)
Theorem request_recovers_after_transient_failures
    (method endpoint : string) (data : option (list (string * json)))
    (headers : option (gmap string string)) (s : state) (k : nat)
    (r : response) (v : json) :
  let n := length (requests s) in
  let s' := snd (request method endpoint data headers s) in
  (Z.of_nat k <= retry_attempts (http_client s))%Z ->
  (forall i, (i < k)%nat -> transient (backend s (n + i)) = true) ->
  backend s (n + k) = Responds r ->
  (status r < 400)%Z ->
  (body r = Body v \/
   (exists msg, body r = BodyRaises (ContentTypeError msg)) /\ v = JObj []) ->
  fst (request method endpoint data headers s) = Returns v /\
  requests s' = requests s ++ repeat (kwargs_of s method endpoint data headers) (S k) /\
  sleeps s' = sleeps s ++ backoff 0 k.
Proof.
  cbv zeta. intros Hk Hbefore Hb Hst Hbody.
  destruct (start_session_effect s) as (_ & _ & _ & _ & _ & _ & _ & _ & Hrq & Hsl & _).
  assert (Hv : verdict s (Responds r) = Returns v).
  { rewrite verdict_success by exact Hst.
    destruct Hbody as [-> | [(msg & ->) ->]]; reflexivity. }
  rewrite (request_outcome method endpoint data headers s k).
  - rewrite Hb, Hv. cbn [fst snd after_attempts requests sleeps].
    rewrite Hrq, Hsl. auto.
  - exact Hk.
  - intros i Hi. apply transient_retryable. now apply Hbefore.
  - right. rewrite Hb. unfold retryable. now rewrite Hv.
Qed.

Lemma request_recovers_after_transient_failures_witness :
  fst (request "GET" "/api/me" None None
         (new_client (script [Refuses TimeoutError;
                              Responds (json_response 502 "Bad Gateway" (JObj []))]
                        (Responds (json_response 200 "OK"
                                     (JObj [("data", JStr "me")])))))) =
    Returns (JObj [("data", JStr "me")]) /\
  sleeps (snd (request "GET" "/api/me" None None
         (new_client (script [Refuses TimeoutError;
                              Responds (json_response 502 "Bad Gateway" (JObj []))]
                        (Responds (json_response 200 "OK"
                                     (JObj [("data", JStr "me")]))))))) = [1; 2]%Z.
Proof.
  set (s := new_client (script [Refuses TimeoutError;
                              Responds (json_response 502 "Bad Gateway" (JObj []))]
                        (Responds (json_response 200 "OK"
                                     (JObj [("data", JStr "me")]))))).
  assert (Hbefore : forall i, (i < 2)%nat -> transient (backend s (0 + i)) = true).
  { intros i Hi. destruct i as [|[|i]]; first [reflexivity | lia]. }
  destruct (request_recovers_after_transient_failures "GET" "/api/me" None None s 2
              (json_response 200 "OK" (JObj [("data", JStr "me")]))
              (JObj [("data", JStr "me")])
              ltac:(cbn; lia) Hbefore eq_refl ltac:(cbn; lia) (or_introl eq_refl))
    as (Hr & _ & Hsl).
  split; [exact Hr | exact Hsl].
Defined.

(** X20: a malformed error body defeats the retry.  When an answer with a
    status of 400 or more has a JSON body that is no object, or whose
    ["error"] member is no object, [request] raises the
    [AttributeError] of the failed [.get], not an SDK error, and does
    not retry, whatever the status: one call, no sleep, also for a 503. *)
Theorem malformed_error_body_is_not_retried
    (method endpoint : string) (data : option (list (string * json)))
    (headers : option (gmap string string)) (s : state) (r : response) (v : json) :
  let s' := snd (request method endpoint data headers s) in
  (0 <= retry_attempts (http_client s))%Z ->
  backend s (length (requests s)) = Responds r ->
  (400 <= status r)%Z ->
  body r = Body v ->
  error_object r = false ->
  exists msg,
    fst (request method endpoint data headers s) = Raises (Py (Exn AttributeError msg)) /\
    requests s' = requests s ++ [kwargs_of s method endpoint data headers] /\
    sleeps s' = sleeps s.
Proof.
  cbv zeta. intros Hra Hb Hst Hbody Hobj.
  destruct (error_object_not_parts r s v Hbody Hobj) as (msg & Ep).
  destruct (verdict_error r s Hst) as (e & E & Hv).
  rewrite _handle_error_response_halves, (and_then_raises _ _ _ _ _ Ep) in E.
  injection E as <-.
  exists msg.
  destruct (start_session_effect s) as (_ & _ & _ & _ & _ & _ & _ & _ & Hrq & Hsl & _).
  rewrite (request_outcome method endpoint data headers s 0).
  - rewrite Nat.add_0_r, Hb, Hv.
    cbn [fst snd after_attempts requests sleeps repeat backoff seq map].
    rewrite Hrq, Hsl, app_nil_r. auto.
  - lia.
  - intros i Hi. lia.
  - right. rewrite Nat.add_0_r, Hb. unfold retryable. now rewrite Hv.
Qed.

Lemma malformed_error_body_is_not_retried_witness :
  exists msg,
    fst (request "GET" "/api/me" None None
           (new_client (script [] (Responds (json_response 503 "Service Unavailable"
                                               (JObj [("error", JStr "down")])))))) =
      Raises (Py (Exn AttributeError msg)) /\
    sleeps (snd (request "GET" "/api/me" None None
           (new_client (script [] (Responds (json_response 503 "Service Unavailable"
                                               (JObj [("error", JStr "down")]))))))) = [].
Proof.
  destruct (malformed_error_body_is_not_retried "GET" "/api/me" None None
              (new_client (script [] (Responds (json_response 503 "Service Unavailable"
                                                  (JObj [("error", JStr "down")])))))
              (json_response 503 "Service Unavailable" (JObj [("error", JStr "down")]))
              (JObj [("error", JStr "down")])
              ltac:(cbn; lia) eq_refl ltac:(cbn; lia) eq_refl eq_refl)
    as (msg & Hr & _ & Hsl).
  exists msg. split; [exact Hr | exact Hsl].
Defined.

(** X21: a negative retry budget sends nothing.  With [retry_attempts]
    below zero the loop has no turn: [request] opens the session, calls
    it not once, does not sleep, and fails on [raise last_error] with
    [last_error] still [None], a [TypeError]. *)
Theorem negative_retry_attempts_sends_nothing
    (method endpoint : string) (data : option (list (string * json)))
    (headers : option (gmap string string)) (s : state) :
  let s' := snd (request method endpoint data headers s) in
  (retry_attempts (http_client s) < 0)%Z ->
  fst (request method endpoint data headers s) =
    Raises (Py (Exn TypeError "exceptions must derive from BaseException")) /\
  requests s' = requests s /\ sleeps s' = sleeps s /\
  session (http_client s') = Some SessionOpen.
Proof.
  cbv zeta. intros H.
  destruct (start_session_effect s) as (_ & Ho & _ & _ & _ & _ & _ & _ & Hrq & Hsl & _).
  rewrite request_no_turn by exact H. cbn [fst snd]. auto.
Qed.

Lemma negative_retry_attempts_sends_nothing_witness :
  fst (request "GET" "/api/me" None None
         (set_http_client (HTTPClient__init__ "https://api.slackclone.com" 30 (-1))
            (new_client (script [] ok_empty)))) =
    Raises (Py (Exn TypeError "exceptions must derive from BaseException")).
Proof.
  destruct (negative_retry_attempts_sends_nothing "GET" "/api/me" None None
              (set_http_client (HTTPClient__init__ "https://api.slackclone.com" 30 (-1))
                 (new_client (script [] ok_empty)))
              ltac:(cbn; lia)) as (Hr & _).
  exact Hr.
Defined.

(** ** [AuthService] *)

Lemma getitem_cases (v : json) (key : string) (s : state) :
  match member v key with
  | Some x => getitem v key s = (Returns x, s)
  | None => exists e, getitem v key s = (Raises e, s)
  end.
Proof.
  unfold member, getitem, pure, throw.
  destruct v as [|b|n|l|x|l|fields]; eauto.
  destruct (find_key fields key); eauto.
Qed.

Lemma assign_auth_then {B} (f : AuthService -> AuthService) (k : unit -> R B) (s : state) :
  and_then (assign_auth f) k s = k tt (set_auth (f (auth s)) s).
Proof. reflexivity. Qed.

Ltac getitem_step v key x M :=
  match goal with
  | |- context [and_then (getitem v key) _ ?st] =>
      let H := fresh "H" in
      pose proof (getitem_cases v key st) as H;
      destruct (member v key) as [x|] eqn:M;
      [ rewrite (and_then_returns _ _ _ _ _ H); clear H
      | let e := fresh "e" in
        destruct H as (e & H); rewrite (and_then_raises _ _ _ _ _ H); clear H ]
  end.

(** X22: a login stores both tokens or none.  [login] posts the
    credentials to [/api/auth/login] and nothing else.  When it returns,
    the answer had a ["data"] object with the four members it reads, the
    service holds exactly the two tokens it returns; when it raises,
    because the request failed or a member is missing, the tokens of the
    service are what they were. *)
Theorem login_stores_both_tokens_or_none (email password : string) (s : state) :
  let sent := request "POST" "/api/auth/login"
                (Some [("email", JStr email); ("password", JStr password)]) None s in
  let s' := snd (login email password s) in
  requests s' = requests (snd sent) /\
  match fst (login email password s) with
  | Returns tokens =>
      auth s' = {| access_token := tokens_access_token tokens;
                   refresh_token := tokens_refresh_token tokens |} /\
      exists response data usr,
        fst sent = Returns response /\
        member response "data" = Some data /\
        member data "access_token" = Some (tokens_access_token tokens) /\
        member data "refresh_token" = Some (tokens_refresh_token tokens) /\
        member data "user" = Some usr /\
        member usr "id" = Some (user_id (user tokens)) /\
        member usr "email" = Some (REST.email (user tokens))
  | Raises _ => auth s' = auth s
  end.
Proof.
  cbv zeta.
  destruct (request_frame "POST" "/api/auth/login"
              (Some [("email", JStr email); ("password", JStr password)]) None s)
    as (_ & _ & _ & _ & _ & _ & Ha & _).
  unfold login.
  remember (request "POST" "/api/auth/login"
              (Some [("email", JStr email); ("password", JStr password)]) None s) as rq eqn:Erq.
  symmetry in Erq. destruct rq as [[response|e] s1]; cbn [fst snd] in *.
  2: { rewrite (and_then_raises _ _ _ _ _ Erq). cbn [fst snd]. auto. }
  rewrite (and_then_returns _ _ _ _ _ Erq).
  getitem_step response "data" tokens_data M1; [|cbn [fst snd]; auto].
  getitem_step tokens_data "access_token" access M2; [|cbn [fst snd]; auto].
  getitem_step tokens_data "refresh_token" refresh M3; [|cbn [fst snd]; auto].
  getitem_step tokens_data "user" u1 M4; [|cbn [fst snd]; auto].
  getitem_step u1 "id" uid M5; [|cbn [fst snd]; auto].
  pose proof (getitem_cases tokens_data "user" s1) as H. rewrite M4 in H.
  rewrite (and_then_returns _ _ _ _ _ H). clear H.
  getitem_step u1 "email" mail M6; [|cbn [fst snd]; auto].
  cbv zeta. rewrite !assign_auth_then. cbn.
  split; [reflexivity|]. split; [reflexivity|].
  exists response, tokens_data, u1. auto 10.
Qed.

Lemma refresh_access_token_unfold (s : state) :
  refresh_access_token s =
    if truth (py s) (refresh_token (auth s)) then
      (response <- request "POST" "/api/auth/refresh"
                     (Some [("refresh_token", refresh_token (auth s))]) None ;;
       data <- getitem response "data" ;;
       access <- getitem data "access_token" ;;
       assign_auth (set_access_token access) ;;
       s <- get_state ;;
       pure (access_token (auth s))) s
    else (Raises (AuthenticationError (JStr "No refresh token available")), s).
Proof.
  unfold refresh_access_token. unfold and_then at 1, get_state at 1.
  now destruct (truth (py s) (refresh_token (auth s))).
Qed.

(** X23: refreshing touches the access token only.  [refresh_access_token]
    never changes the refresh token.  Without a refresh token ([None] or
    the empty string) it raises [AuthenticationError] and sends nothing.
    When it returns, the answer of [/api/auth/refresh] had an
    ["access_token"] in its ["data"], and that value is both returned and
    stored; when it raises, the access token is what it was. *)
Theorem refresh_touches_the_access_token_only (s : state) :
  let sent := request "POST" "/api/auth/refresh"
                (Some [("refresh_token", refresh_token (auth s))]) None s in
  let s' := snd (refresh_access_token s) in
  refresh_token (auth s') = refresh_token (auth s) /\
  (truth (py s) (refresh_token (auth s)) = false ->
   refresh_access_token s =
     (Raises (AuthenticationError (JStr "No refresh token available")), s)) /\
  match fst (refresh_access_token s) with
  | Returns v =>
      access_token (auth s') = v /\
      requests s' = requests (snd sent) /\
      exists response data,
        fst sent = Returns response /\
        member response "data" = Some data /\
        member data "access_token" = Some v
  | Raises _ => auth s' = auth s
  end.
Proof.
  cbv zeta.
  destruct (request_frame "POST" "/api/auth/refresh"
              (Some [("refresh_token", refresh_token (auth s))]) None s)
    as (_ & _ & _ & _ & _ & _ & Ha & _).
  rewrite refresh_access_token_unfold.
  destruct (truth (py s) (refresh_token (auth s))).
  2: { cbn. auto. }
  split; [|split; [discriminate|]].
  - remember (request "POST" "/api/auth/refresh"
                (Some [("refresh_token", refresh_token (auth s))]) None s) as rq eqn:Erq.
    symmetry in Erq. destruct rq as [[response|e] s1]; cbn [fst snd] in *.
    2: { rewrite (and_then_raises _ _ _ _ _ Erq). cbn [snd]. now rewrite Ha. }
    rewrite (and_then_returns _ _ _ _ _ Erq).
    getitem_step response "data" data M1; [|cbn [snd]; now rewrite Ha].
    getitem_step data "access_token" access M2; [|cbn [snd]; now rewrite Ha].
    rewrite assign_auth_then. cbn. now rewrite Ha.
  - remember (request "POST" "/api/auth/refresh"
                (Some [("refresh_token", refresh_token (auth s))]) None s) as rq eqn:Erq.
    symmetry in Erq. destruct rq as [[response|e] s1]; cbn [fst snd] in *.
    2: { rewrite (and_then_raises _ _ _ _ _ Erq). cbn [fst snd]. exact Ha. }
    rewrite (and_then_returns _ _ _ _ _ Erq).
    getitem_step response "data" data M1; [|cbn [fst snd]; exact Ha].
    getitem_step data "access_token" access M2; [|cbn [fst snd]; exact Ha].
    rewrite assign_auth_then. cbn.
    split; [reflexivity|]. split; [reflexivity|]. eauto.
Qed.

(** What a refresh leaves: the refresh token, the builtins, and on
    success the access token it returns. *)
Lemma refresh_effect (s : state) :
  refresh_token (auth (snd (refresh_access_token s))) = refresh_token (auth s) /\
  match fst (refresh_access_token s) with
  | Returns v => access_token (auth (snd (refresh_access_token s))) = v
  | Raises _ => True
  end /\
  py (snd (refresh_access_token s)) = py s.
Proof.
  destruct (request_frame "POST" "/api/auth/refresh"
              (Some [("refresh_token", refresh_token (auth s))]) None s)
    as (_ & _ & _ & _ & _ & _ & Ha & _ & Hpy & _).
  rewrite refresh_access_token_unfold.
  destruct (truth (py s) (refresh_token (auth s))); [|cbn; auto].
  remember (request "POST" "/api/auth/refresh"
              (Some [("refresh_token", refresh_token (auth s))]) None s) as rq eqn:Erq.
  symmetry in Erq. destruct rq as [[response|e] s1]; cbn [fst snd] in *.
  2: { rewrite (and_then_raises _ _ _ _ _ Erq). cbn [fst snd]. now rewrite Ha. }
  rewrite (and_then_returns _ _ _ _ _ Erq).
  getitem_step response "data" data M1; [|cbn [fst snd]; now rewrite Ha].
  getitem_step data "access_token" access M2; [|cbn [fst snd]; now rewrite Ha].
  rewrite assign_auth_then. cbn. now rewrite Ha.
Qed.

Lemma logout_unfold (s : state) :
  logout s =
    if truth (py s) (access_token (auth s)) then
      match request "POST" "/api/auth/logout" None
              (Some (bearer (py s) (access_token (auth s)))) s with
      | (Returns _, s1) =>
          (Returns tt, set_auth {| access_token := JNull; refresh_token := JNull |} s1)
      | (Raises e, s1) =>
          (Returns tt,
           set_auth {| access_token := JNull; refresh_token := JNull |}
             (set_ws (snd (logger "WARNING"
                             ("Logout request failed: " +:+ str_of (py s1) e) (ws s1))) s1))
      end
    else (Returns tt, set_auth {| access_token := JNull; refresh_token := JNull |} s).
Proof.
  unfold logout. unfold and_then at 1, get_state at 1.
  destruct (truth (py s) (access_token (auth s))); [|reflexivity].
  unfold and_then at 1, catch at 1, and_then at 1.
  destruct (request "POST" "/api/auth/logout" None
              (Some (bearer (py s) (access_token (auth s)))) s) as [[v|e] s1];
    reflexivity.
Qed.

(** X24: logging out never fails and always forgets the tokens.  [logout]
    returns normally from every state and leaves both tokens [None].
    With a usable access token it first posts to [/api/auth/logout]
    with that token as bearer; when that request fails, whatever the
    failure, it is logged as a warning and the tokens are forgotten all
    the same.  Without one ([None] or the empty string) nothing is sent. *)
Theorem logout_always_forgets_the_tokens (s : state) :
  let sent := request "POST" "/api/auth/logout" None
                (Some (bearer (py s) (access_token (auth s)))) s in
  let s' := snd (logout s) in
  fst (logout s) = Returns tt /\
  logged_out (auth s') /\
  if truth (py s) (access_token (auth s)) then
    requests s' = requests (snd sent) /\
    self (ws s') = self (ws s) /\
    match fst sent with
    | Returns _ => log (ws s') = log (ws s)
    | Raises e =>
        log (ws s') =
          log (ws s) ++ [("WARNING", "Logout request failed: " +:+ str_of (py s) e)]
    end
  else requests s' = requests s /\ ws s' = ws s.
Proof.
  cbv zeta.
  destruct (request_frame "POST" "/api/auth/logout" None
              (Some (bearer (py s) (access_token (auth s)))) s)
    as (_ & _ & _ & _ & _ & _ & _ & Hw & Hpy & _).
  rewrite logout_unfold. unfold logged_out.
  destruct (truth (py s) (access_token (auth s))); [|cbn; auto].
  destruct (request "POST" "/api/auth/logout" None
              (Some (bearer (py s) (access_token (auth s)))) s) as [[v|e] s1];
    cbn [fst snd] in *.
  - cbn. rewrite Hw. auto.
  - cbn. rewrite Hw, Hpy. auto 10.
Qed.

Lemma make_authenticated_request_unfold
    (method endpoint : string) (data : option (list (string * json))) (s : state) :
  make_authenticated_request method endpoint data s =
    match request method endpoint data (Some (auth_headers s)) s with
    | (Returns v, s1) => (Returns v, s1)
    | (Raises e, s1) =>
        if is_TokenExpiredError e && truth (py s1) (refresh_token (auth s1)) then
          match refresh_access_token s1 with
          | (Returns access, s2) =>
              match request method endpoint data
                      (Some (<[ "Authorization" :=
                                  "Bearer " +:+ fmt (py s2) (access_token (auth s2)) ]>
                               (auth_headers s))) s2 with
              | (Returns v, s3) => (Returns v, s3)
              | (Raises _, s3) =>
                  (Raises (AuthenticationError (JStr "Token refresh failed")),
                   set_auth {| access_token := JNull; refresh_token := JNull |} s3)
              end
          | (Raises _, s2) =>
              (Raises (AuthenticationError (JStr "Token refresh failed")),
               set_auth {| access_token := JNull; refresh_token := JNull |} s2)
          end
        else (Raises e, s1)
    end.
Proof.
  unfold make_authenticated_request. unfold and_then at 1, get_state at 1.
  fold (auth_headers s). unfold catch at 1.
  destruct (request method endpoint data (Some (auth_headers s)) s) as [[v|e] s1];
    [reflexivity|].
  destruct (is_TokenExpiredError e); [|reflexivity]. cbn [andb].
  unfold and_then at 1, get_state at 1.
  destruct (truth (py s1) (refresh_token (auth s1))); [|reflexivity].
  unfold catch at 1, and_then at 1.
  destruct (refresh_access_token s1) as [[access|e'] s2]; [|reflexivity].
  unfold and_then at 1, get_state at 1.
  destruct (request method endpoint data _ s2) as [[v|e''] s3]; reflexivity.
Qed.

(** X25: without a token expiry, or without a refresh token, an
    authenticated request is one plain request.  It carries the access
    token as bearer when there is a usable one and no [Authorization]
    header otherwise.  Unless that request raises [TokenExpiredError]
    while a refresh token is held, [make_authenticated_request] ends as
    the request does, a plain [AuthenticationError] of a 401 included,
    and the tokens stay as they were. *)
Theorem authenticated_request_without_refresh
    (method endpoint : string) (data : option (list (string * json))) (s : state) :
  let first := request method endpoint data (Some (auth_headers s)) s in
  (forall msg, fst first <> Raises (TokenExpiredError msg)) \/
  truth (py s) (refresh_token (auth s)) = false ->
  make_authenticated_request method endpoint data s = first /\
  auth (snd first) = auth s.
Proof.
  cbv zeta. intros H.
  destruct (request_frame method endpoint data (Some (auth_headers s)) s)
    as (_ & _ & _ & _ & _ & _ & Ha & _ & Hpy & _).
  split; [|exact Ha].
  rewrite make_authenticated_request_unfold.
  destruct (request method endpoint data (Some (auth_headers s)) s) as [[v|e] s1];
    [reflexivity|]. cbn [fst snd] in *.
  rewrite Hpy, Ha.
  destruct H as [H | ->]; [|now rewrite andb_false_r].
  destruct e; try reflexivity. now destruct (H message).
Qed.

Lemma authenticated_request_without_refresh_witness :
  fst (make_authenticated_request "GET" "/api/me" None
         (signed_in (JStr "old") JNull
            (script [] (Responds (json_response 401 "Unauthorized"
                                    (error_body "expired" "TOKEN_EXPIRED")))))) =
    Raises (TokenExpiredError (JStr "expired")).
Proof.
  destruct (authenticated_request_without_refresh "GET" "/api/me" None
              (signed_in (JStr "old") JNull
                 (script [] (Responds (json_response 401 "Unauthorized"
                                         (error_body "expired" "TOKEN_EXPIRED")))))
              (or_intror eq_refl)) as (-> & _).
  vm_compute. reflexivity.
Defined.

(** X26: an expired token is refreshed once, and a failure after that logs
    the user out.  When the request raises [TokenExpiredError] and a
    refresh token is held, [make_authenticated_request] refreshes the
    access token and repeats the request with the new bearer.  It then
    returns what the repeated request returns, with the new access
    token stored and the refresh token kept; or, when the refresh or the
    repeated request raises anything at all, it raises
    [AuthenticationError("Token refresh failed")] and both tokens are
    [None]. *)
Theorem expired_token_is_refreshed_once
    (method endpoint : string) (data : option (list (string * json)))
    (s : state) (msg : json) :
  let first := request method endpoint data (Some (auth_headers s)) s in
  let refreshed := refresh_access_token (snd first) in
  let out := make_authenticated_request method endpoint data s in
  fst first = Raises (TokenExpiredError msg) ->
  truth (py s) (refresh_token (auth s)) = true ->
  match fst out with
  | Returns v =>
      exists access,
        fst refreshed = Returns access /\
        auth (snd out) =
          {| access_token := access; refresh_token := refresh_token (auth s) |} /\
        out = request method endpoint data
                (Some (<[ "Authorization" := "Bearer " +:+ fmt (py s) access ]>
                         (auth_headers s)))
                (snd refreshed)
  | Raises e =>
      e = AuthenticationError (JStr "Token refresh failed") /\
      logged_out (auth (snd out))
  end.
Proof.
  cbv zeta. intros Hfirst Htruth.
  destruct (request_frame method endpoint data (Some (auth_headers s)) s)
    as (_ & _ & _ & _ & _ & _ & Ha & _ & Hpy & _).
  rewrite make_authenticated_request_unfold.
  destruct (request method endpoint data (Some (auth_headers s)) s) as [[v|e] s1];
    cbn [fst snd] in *; [discriminate|].
  injection Hfirst as ->. rewrite Hpy, Ha, Htruth. cbn [is_TokenExpiredError andb].
  pose proof (refresh_effect s1) as (Hrt & Hacc & Hpy2).
  destruct (refresh_access_token s1) as [[access|e'] s2]; cbn [fst snd] in *.
  2: { cbn. unfold logged_out. auto. }
  destruct (request_frame method endpoint data
              (Some (<[ "Authorization" :=
                          "Bearer " +:+ fmt (py s2) (access_token (auth s2)) ]>
                       (auth_headers s))) s2)
    as (_ & _ & _ & _ & _ & _ & Ha3 & _).
  rewrite Hpy2, Hpy, Hacc in *.
  remember (request method endpoint data
              (Some (<[ "Authorization" := "Bearer " +:+ fmt (py s) access ]>
                       (auth_headers s))) s2) as rq eqn:Erq.
  destruct rq as [[v|e''] s3]; cbn [fst snd] in *.
  - exists access. split; [reflexivity|]. split; [|exact Erq].
    rewrite Ha3. destruct (auth s2) as [a2 r2]. cbn in *. subst. now rewrite <- Ha.
  - cbn. unfold logged_out. auto.
Qed.

Lemma expired_token_is_refreshed_once_witness :
  fst (make_authenticated_request "GET" "/api/me" None
         (signed_in (JStr "old") (JStr "r1")
            (script [Responds (json_response 401 "Unauthorized"
                                 (error_body "expired" "TOKEN_EXPIRED"));
                     Responds (json_response 200 "OK"
                                 (JObj [("data", JObj [("access_token", JStr "new")])]))]
               (Responds (json_response 404 "Not Found"
                            (error_body "no such user" "NOT_FOUND")))))) =
    Raises (AuthenticationError (JStr "Token refresh failed")) /\
  logged_out (auth (snd (make_authenticated_request "GET" "/api/me" None
         (signed_in (JStr "old") (JStr "r1")
            (script [Responds (json_response 401 "Unauthorized"
                                 (error_body "expired" "TOKEN_EXPIRED"));
                     Responds (json_response 200 "OK"
                                 (JObj [("data", JObj [("access_token", JStr "new")])]))]
               (Responds (json_response 404 "Not Found"
                            (error_body "no such user" "NOT_FOUND")))))))).
Proof.
  set (s := signed_in (JStr "old") (JStr "r1")
            (script [Responds (json_response 401 "Unauthorized"
                                 (error_body "expired" "TOKEN_EXPIRED"));
                     Responds (json_response 200 "OK"
                                 (JObj [("data", JObj [("access_token", JStr "new")])]))]
               (Responds (json_response 404 "Not Found"
                            (error_body "no such user" "NOT_FOUND"))))).
  assert (Hfirst : fst (request "GET" "/api/me" None (Some (auth_headers s)) s) =
                   Raises (TokenExpiredError (JStr "expired")))
    by (vm_compute; reflexivity).
  pose proof (expired_token_is_refreshed_once "GET" "/api/me" None s (JStr "expired")
                Hfirst eq_refl) as H.
  assert (E : fst (make_authenticated_request "GET" "/api/me" None s) =
              Raises (AuthenticationError (JStr "Token refresh failed")))
    by (vm_compute; reflexivity).
  rewrite E in H. split; [exact E | exact (proj2 H)].
Defined.

(** ** [SlackCloneClient] *)

Lemma connect_websocket_unfold (s : state) :
  connect_websocket s =
    if truth (py s) (access_token (auth s)) then
      on_ws (connect (fmt (py s) (access_token (auth s)))) s
    else
      (Raises (AuthenticationError (JStr "No access token available for WebSocket")), s).
Proof.
  unfold connect_websocket, get_access_token.
  unfold and_then at 1, and_then at 1, get_state at 1, pure at 1.
  unfold and_then at 1, get_state at 1.
  now destruct (truth (py s) (access_token (auth s))).
Qed.

(** X27: the WebSocket is opened with the access token, and only with a
    usable one.  Without an access token ([None] or the empty string)
    [connect_websocket] raises [AuthenticationError] and touches
    nothing.  With one it connects the WebSocket client on
    [url?token=<token>]: it returns with the client connected on that
    URI, or raises the connection error of the client, which is left as
    it was.  It sends no HTTP request and leaves the tokens alone. *)
Theorem connect_websocket_needs_a_usable_token (s : state) :
  let token := access_token (auth s) in
  let out := connect_websocket s in
  auth (snd out) = auth s /\
  requests (snd out) = requests s /\
  if truth (py s) token then
    match connect_script (ws s) with
    | Some e :: _ =>
        fst out = Raises (Py (ConnectionError e)) /\
        self (ws (snd out)) = self (ws s)
    | _ =>
        fst out = Returns tt /\
        websocket (self (ws (snd out))) =
          Some (url (self (ws s)) +:+ "?token=" +:+ fmt (py s) token) /\
        connected (self (ws (snd out))) = true
    end
  else
    out = (Raises (AuthenticationError (JStr "No access token available for WebSocket")), s).
Proof.
  cbv zeta. rewrite connect_websocket_unfold.
  destruct (truth (py s) (access_token (auth s))); [|cbn; auto].
  unfold on_ws.
  destruct (connect_effect (ws s) (fmt (py s) (access_token (auth s))))
    as (w' & Hcases & _).
  destruct (connect_script (ws s)) as [|[e|] rest].
  - destruct Hcases as [-> Hs]. cbn. rewrite Hs. cbn. auto.
  - destruct Hcases as [-> Hs]. cbn. auto.
  - destruct Hcases as [-> Hs]. cbn. rewrite Hs. cbn. auto.
Qed.

(** X28: a token that is empty counts as authenticated, yet is used
    nowhere.  [is_authenticated] only tests the access token against
    [None]; the callers test its truth.  With an access token that is
    not [None] but falsy, such as the empty string, [is_authenticated]
    answers [True], while [connect_websocket] raises
    [AuthenticationError], authenticated requests carry no
    [Authorization] header and [logout] sends nothing. *)
Theorem falsy_token_counts_as_authenticated (s : state) :
  access_token (auth s) <> JNull ->
  truth (py s) (access_token (auth s)) = false ->
  is_authenticated s = (Returns true, s) /\
  connect_websocket s =
    (Raises (AuthenticationError (JStr "No access token available for WebSocket")), s) /\
  auth_headers s = ∅ /\
  requests (snd (logout s)) = requests s.
Proof.
  intros Hnn Hfalse. split; [|split; [|split]].
  - unfold is_authenticated, and_then, get_state, pure.
    destruct (access_token (auth s)); try reflexivity. now destruct Hnn.
  - now rewrite connect_websocket_unfold, Hfalse.
  - unfold auth_headers. now rewrite Hfalse.
  - rewrite logout_unfold, Hfalse. reflexivity.
Qed.

Lemma falsy_token_counts_as_authenticated_witness :
  fst (is_authenticated (signed_in (JStr "") (JStr "r1") (script [] ok_empty))) =
    Returns true /\
  fst (connect_websocket (signed_in (JStr "") (JStr "r1") (script [] ok_empty))) =
    Raises (AuthenticationError (JStr "No access token available for WebSocket")).
Proof.
  destruct (falsy_token_counts_as_authenticated
              (signed_in (JStr "") (JStr "r1") (script [] ok_empty))
              ltac:(discriminate) eq_refl) as (-> & -> & _).
  split; reflexivity.
Defined.

Lemma close_session_effect (s : state) :
  close_session s = (Returns tt, snd (close_session s)) /\
  session_unusable (http_client (snd (close_session s))) = true /\
  auth (snd (close_session s)) = auth s /\
  ws (snd (close_session s)) = ws s /\
  requests (snd (close_session s)) = requests s /\
  sleeps (snd (close_session s)) = sleeps s /\
  sessions_opened (snd (close_session s)) = sessions_opened s.
Proof.
  destruct s as [[b t r [[|]|]] a w p bk rq sl so]; cbn; auto 10.
Qed.

Lemma close_unfold (s : state) :
  close s =
    if connected (self (ws s)) then on_ws disconnect (snd (close_session s))
    else (Returns tt, snd (close_session s)).
Proof.
  destruct (close_session_effect s) as (E & _ & _ & Hw & _).
  unfold close. rewrite (and_then_returns _ _ _ _ _ E).
  unfold and_then at 1, get_state at 1. rewrite Hw.
  now destruct (connected (self (ws s))).
Qed.

(** X29: closing the client shuts the session and a connected socket.
    [close] returns normally from every state, sends nothing and leaves
    the tokens alone.  Afterwards the HTTP client has no usable session
    and the WebSocket client is not connected.  A client whose flag was
    raised is disconnected: its transport is closed and its
    subscriptions are dropped.  A client whose flag was down is not
    touched at all, also when it still holds a transport. *)
Theorem close_shuts_session_and_socket (s : state) :
  let s' := snd (close s) in
  fst (close s) = Returns tt /\
  session_unusable (http_client s') = true /\
  connected (self (ws s')) = false /\
  requests s' = requests s /\
  auth s' = auth s /\
  if connected (self (ws s)) then
    websocket (self (ws s')) = None /\
    channels (self (ws s')) = [] /\
    closed (ws s') =
      closed (ws s) ++ match websocket (self (ws s)) with Some t => [t] | None => [] end
  else ws s' = ws s.
Proof.
  cbv zeta.
  destruct (close_session_effect s) as (E & Hu & Ha & Hw & Hrq & _).
  rewrite close_unfold.
  destruct (connected (self (ws s))) eqn:Hc.
  - unfold on_ws. rewrite Hw.
    destruct (disconnect_effect (ws s)) as (w' & -> & Hs & Hcl & _).
    cbn [fst snd set_ws http_client auth ws requests].
    rewrite Hs, Hcl, Hu, Ha, Hrq. cbn. auto 10.
  - cbn [fst snd]. rewrite Hw, Hc, Hu, Ha, Hrq. auto 10.
Qed.

(** X30: the requests of a client share one session, opened on demand.  A
    request opens a session only when the client has none that is
    usable; the next request reuses it.  Once the session is closed the
    next request opens a new one. *)
Theorem requests_share_one_session
    (method endpoint : string) (data : option (list (string * json)))
    (headers : option (gmap string string))
    (method' endpoint' : string) (data' : option (list (string * json)))
    (headers' : option (gmap string string)) (s : state) :
  let s1 := snd (request method endpoint data headers s) in
  let s2 := snd (request method' endpoint' data' headers' s1) in
  let s3 := snd (request method' endpoint' data' headers' (snd (close_session s2))) in
  sessions_opened s1 =
    (if session_unusable (http_client s) then S (sessions_opened s) else sessions_opened s) /\
  session (http_client s1) = Some SessionOpen /\
  sessions_opened s2 = sessions_opened s1 /\
  sessions_opened s3 = S (sessions_opened s2) /\
  session (http_client s3) = Some SessionOpen.
Proof.
  cbv zeta.
  destruct (request_frame method endpoint data headers s)
    as (_ & _ & _ & _ & _ & Hh1 & _ & _ & _ & _ & Hso1).
  set (s1 := snd (request method endpoint data headers s)) in *.
  destruct (request_frame method' endpoint' data' headers' s1)
    as (_ & _ & _ & _ & _ & Hh2 & _ & _ & _ & _ & Hso2).
  set (s2 := snd (request method' endpoint' data' headers' s1)) in *.
  destruct (close_session_effect s2) as (_ & Hu & _ & _ & _ & _ & Hso).
  destruct (request_frame method' endpoint' data' headers' (snd (close_session s2)))
    as (_ & _ & _ & _ & _ & Hh3 & _ & _ & _ & _ & Hso3).
  rewrite Hu, Hso in Hso3.
  rewrite Hh1 in Hso2. cbn in Hso2.
  rewrite Hso3, Hh3, Hso2, Hh1. cbn. auto.
Qed.
End RestFacts.
